(** * ESC/POS print utility (src/components/utils/androidPrint.js)

    A shallow embedding of the Android WebView print bridge utility: the
    text layout helpers, the three ESC/POS document builders and the bridge
    callers, over a model of the JavaScript values and built-ins the file
    relies on, followed by the properties of the builders.

    - Values are dynamically typed data; every operation of the code that
      can raise an exception returns a [result].
    - Numbers are binary64 floating-point numbers with the conversions of
      the language (Number::toString, toFixed, StringToNumber).
    - The builders read the clock; it is an argument of their embeddings.
    - The bridge callers act on a [world]: console, bridge, clock, timers. *)

From Stdlib Require Import ZArith List String Ascii Bool Lia Decimal DecimalString.
From Stdlib Require Import SpecFloat Permutation DecimalPos.
Import ListNotations.

Set Warnings "-register-all".
Local Open Scope string_scope.

(** ** JavaScript strings

    A JavaScript string is a sequence of code units; [string] models it with
    one [ascii] per code unit (code units 0..255).  [length], [substring],
    [slice] and [repeat] only count code units, so nothing below depends on
    the width of a unit. *)

Module Str.

Definition chr (n : nat) : string := String (ascii_of_nat n) EmptyString.

(** ['\n'] *)
Definition LF : string := chr 10.

(** [s.repeat(n)] for a count [n >= 0]. *)
Fixpoint repeat (s : string) (n : nat) : string :=
  match n with
  | O => ""
  | S n' => s ++ repeat s n'
  end.

(** [s.slice(start)] for a literal [start >= 0]. *)
Fixpoint drop (n : nat) (s : string) : string :=
  match n, s with
  | O, _ => s
  | S _, EmptyString => ""
  | S n', String _ s' => drop n' s'
  end.

(** [s.slice(start, stop)] for literals [0 <= start <= stop]. *)
Definition slice (start stop : nat) (s : string) : string :=
  substring start (stop - start) s.

Fixpoint rev_onto (s acc : string) : string :=
  match s with
  | EmptyString => acc
  | String c s' => rev_onto s' (String c acc)
  end.

Definition rev (s : string) : string := rev_onto s "".

Fixpoint forallb (p : ascii -> bool) (s : string) : bool :=
  match s with
  | EmptyString => true
  | String c s' => p c && forallb p s'
  end.

Definition is_digit (c : ascii) : bool :=
  let n := nat_of_ascii c in (48 <=? n)%nat && (n <=? 57)%nat.

(** [s] is found inside [t]. *)
Definition contains (s t : string) : bool :=
  match index 0 s t with Some _ => true | None => false end.

End Str.

(** ** JavaScript numbers

    A Number is an IEEE 754 binary64 value: [spec_float] at precision 53 and
    maximal exponent 1024, with the Standard Library's correctly rounded
    operations. *)

Module Num.

Local Open Scope Z_scope.

Definition number : Type := spec_float.

Definition prec : Z := 53.
Definition emax : Z := 1024.

Definition NaN : number := S754_nan.
Definition zero : number := S754_zero false.

(** The Number nearest to the integer [z]. *)
Definition of_Z (z : Z) : number := binary_normalize prec emax z 0 false.

(** The Number nearest to [(-1)^neg * p / q] (round to nearest, ties to even). *)
Definition of_ratio (neg : bool) (p q : positive) : number :=
  SFdiv prec emax (S754_finite neg p 0) (S754_finite false q 0).

(** The Number nearest to [(-1)^neg * m * 10^e10]. *)
Definition of_decimal (neg : bool) (m : Z) (e10 : Z) : number :=
  match m with
  | Zpos p =>
      if 0 <=? e10 then of_ratio neg (p * Z.to_pos (10 ^ e10)) 1
      else of_ratio neg p (Z.to_pos (10 ^ (- e10)))
  | _ => S754_zero neg
  end.

(** [x * y] and [x / y] *)
Definition mul (x y : number) : number := SFmul prec emax x y.
Definition div (x y : number) : number := SFdiv prec emax x y.

(** [x > y] *)
Definition gtb (x y : number) : bool := SFltb y x.

(** [m * 2^e] as a fraction [p / q] of positive integers. *)
Definition frac (m : positive) (e : Z) : Z * Z :=
  if 0 <=? e then (Zpos m * 2 ^ e, 1) else (Zpos m, 2 ^ (- e)).

(** The decimal digits of a natural number, ["0"] for zero. *)
Definition digits (n : Z) : string :=
  NilEmpty.string_of_uint (N.to_uint (Z.to_N n)).

(** *** Number::toString (radix 10) *)

(** [p / q < 10^n] *)
Definition lt_pow10 (p q n : Z) : bool :=
  if 0 <=? n then p <? 10 ^ n * q else p * 10 ^ (- n) <? q.

(** For [p / q >= 1]: the least [n >= 1] with [p / q < 10^n]. *)
Fixpoint exp_up (fuel : nat) (p q n : Z) : Z :=
  match fuel with
  | O => n
  | S f => if lt_pow10 p q n then n else exp_up f p q (n + 1)
  end.

(** For [p / q < 1]: the greatest [n <= 0] with [10^(n-1) <= p / q]. *)
Fixpoint exp_down (fuel : nat) (p q n : Z) : Z :=
  match fuel with
  | O => n
  | S f => if lt_pow10 p q (n - 1) then exp_down f p q (n - 1) else n
  end.

(** The [n] with [10^(n-1) <= p / q < 10^n]. *)
Definition dec_exponent (p q : Z) : Z :=
  if p <? q then exp_down 400 p q 0 else exp_up 400 p q 1.

(** [floor (p / q * 10^j)] and the comparison of the remainder with one half. *)
Definition scale10 (p q j : Z) : Z * Z :=
  if 0 <=? j then (p * 10 ^ j, q) else (p, q * 10 ^ (- j)).

Definition same_float (x y : number) : bool :=
  match x, y with
  | S754_finite s m e, S754_finite s' m' e' =>
      Bool.eqb s s' && Pos.eqb m m' && Z.eqb e e'
  | _, _ => false
  end.

(** Does the [k]-digit decimal [s * 10^(n-k)] denote the Number [x]? *)
Definition denotes (x : number) (s n k : Z) : bool :=
  same_float (of_decimal false s (n - k)) x.

(** The digits [s] and exponent [n] of Number::toString: integers with
    [10^(k-1) <= s < 10^k] and [s * 10^(n-k)] denoting [x], for the least
    [k]; among several [s] the one closest to [x], the even one on a tie. *)
Fixpoint shortest (fuel : nat) (x : number) (p q n0 k : Z) : Z * Z * Z :=
  let '(a, b) := scale10 p q (k - n0) in
  let lo := a / b in
  let hi := lo + 1 in
  let ok_lo := denotes x lo n0 k in
  let ok_hi := denotes x hi n0 k in
  let c := 2 * a ?= (2 * lo + 1) * b in
  let pick_lo :=
    match c with
    | Lt => true
    | Gt => false
    | Eq => Z.even lo
    end in
  let norm (s : Z) := if s =? 10 ^ k then (s / 10, n0 + 1, k) else (s, n0, k) in
  match fuel with
  | O => norm (if pick_lo then lo else hi)
  | S f =>
      if ok_lo && ok_hi then norm (if pick_lo then lo else hi)
      else if ok_lo then norm lo
      else if ok_hi then norm hi
      else shortest f x p q n0 (k + 1)
  end.

Definition zeros (n : Z) : string := Str.repeat "0" (Z.to_nat n).

(** The text of a positive finite Number from its digits and exponent. *)
Definition format_decimal (s n k : Z) : string :=
  let d := digits s in
  if (k <=? n) && (n <=? 21) then (d ++ zeros (n - k))%string
  else if (0 <? n) && (n <=? 21) then
    (substring 0 (Z.to_nat n) d ++ "." ++ Str.drop (Z.to_nat n) d)%string
  else if (-6 <? n) && (n <=? 0) then
    ("0." ++ zeros (- n) ++ d)%string
  else
    let e := n - 1 in
    let sign := if e <? 0 then "-" else "+" in
    let es := (sign ++ digits (Z.abs e))%string in
    if k =? 1 then (d ++ "e" ++ es)%string
    else (substring 0 1 d ++ "." ++ Str.drop 1 d ++ "e" ++ es)%string.

Definition to_string (x : number) : string :=
  match x with
  | S754_nan => "NaN"
  | S754_zero _ => "0"
  | S754_infinity s => if s then "-Infinity" else "Infinity"
  | S754_finite sg m e =>
      let '(p, q) := frac m e in
      let '(s, n, k) :=
        shortest 17 (S754_finite false m e) p q (dec_exponent p q) 1 in
      ((if sg then "-" else "") ++ format_decimal s n k)%string
  end.

(** *** Number.prototype.toFixed *)

(** The integer [n] for which [n / 10^f - p / q] is closest to zero,
    the larger one when there are two. *)
Definition nearest_scaled (p q : Z) (f : nat) : Z :=
  (2 * p * 10 ^ Z.of_nat f + q) / (2 * q).

(** The digits of [n] with a decimal point before the last [f] of them. *)
Definition fixed_digits (n : Z) (f : nat) : string :=
  let m := digits n in
  match f with
  | O => m
  | _ =>
      let k := String.length m in
      let pad := Str.repeat "0" (f + 1 - k) in
      let m := if (k <=? f)%nat then (pad ++ m)%string else m in
      let k := String.length m in
      (substring 0 (k - f) m ++ "." ++ Str.drop (k - f) m)%string
  end.

(** [x.toFixed(f)] for a literal [0 <= f <= 100]. *)
Definition toFixed (x : number) (f : nat) : string :=
  match x with
  | S754_nan | S754_infinity _ => to_string x
  | S754_zero _ => fixed_digits 0 f
  | S754_finite sg m e =>
      let '(p, q) := frac m e in
      if 10 ^ 21 * q <=? p then to_string x
      else ((if sg then "-" else "") ++ fixed_digits (nearest_scaled p q f) f)%string
  end.

End Num.

(** *** StringToNumber *)

Module Parse.

Local Open Scope Z_scope.
Import Num.

(** White space and line terminators among the one-byte code units. *)
Definition is_ws (c : ascii) : bool :=
  let n := nat_of_ascii c in
  ((9 <=? n)%nat && (n <=? 13)%nat) || (n =? 32)%nat || (n =? 160)%nat.

Fixpoint trim_left (s : string) : string :=
  match s with
  | String c s' => if is_ws c then trim_left s' else s
  | EmptyString => ""
  end.

Definition trim (s : string) : string :=
  Str.rev (trim_left (Str.rev (trim_left s))).

(** The value of a digit in a radix up to 16, if it is one. *)
Definition digit_value (radix : Z) (c : ascii) : option Z :=
  let n := Z.of_nat (nat_of_ascii c) in
  let v :=
    if (48 <=? n) && (n <=? 57) then n - 48
    else if (97 <=? n) && (n <=? 102) then n - 87
    else if (65 <=? n) && (n <=? 70) then n - 55
    else 16 in
  if v <? radix then Some v else None.

(** Reads the longest run of digits: its value on top of [acc], the number
    of digits read on top of [cnt], and what follows. *)
Fixpoint read_digits (radix : Z) (s : string) (acc cnt : Z) : Z * Z * string :=
  match s with
  | String c s' =>
      match digit_value radix c with
      | Some d => read_digits radix s' (radix * acc + d) (cnt + 1)
      | None => (acc, cnt, s)
      end
  | EmptyString => (acc, cnt, "")
  end.

(** NonDecimalIntegerLiteral without its two-character prefix. *)
Definition radix_literal (radix : Z) (s : string) : number :=
  let '(v, cnt, rest) := read_digits radix s 0 0 in
  if (0 <? cnt) && (rest =? "")%string then of_Z v else NaN.

(** ExponentPart, or nothing, up to the end of the text. *)
Definition exponent_part (s : string) : option Z :=
  match s with
  | EmptyString => Some 0
  | String c r =>
      if (c =? "e")%char || (c =? "E")%char then
        let '(neg, r) :=
          match r with
          | String "+" r' => (false, r')
          | String "-" r' => (true, r')
          | _ => (false, r)
          end in
        let '(v, cnt, rest) := read_digits 10 r 0 0 in
        if (0 <? cnt) && (rest =? "")%string
        then Some (if neg then - v else v) else None
      else None
  end.

(** StrUnsignedDecimalLiteral with the sign already read. *)
Definition unsigned_decimal (neg : bool) (s : string) : number :=
  if (s =? "Infinity")%string then S754_infinity neg
  else
    let '(i, ni, r1) := read_digits 10 s 0 0 in
    let '(m, nf, r2) :=
      match r1 with
      | String "." r => read_digits 10 r i 0
      | _ => (i, 0, r1)
      end in
    if ni + nf =? 0 then NaN
    else
      match exponent_part r2 with
      | Some e => of_decimal neg m (e - nf)
      | None => NaN
      end.

Definition string_to_number (s : string) : number :=
  match trim s with
  | EmptyString => zero
  | String "0" (String c r) as t =>
      if (c =? "x")%char || (c =? "X")%char then radix_literal 16 r
      else if (c =? "o")%char || (c =? "O")%char then radix_literal 8 r
      else if (c =? "b")%char || (c =? "B")%char then radix_literal 2 r
      else unsigned_decimal false t
  | String "+" r => unsigned_decimal false r
  | String "-" r => unsigned_decimal true r
  | t => unsigned_decimal false t
  end.

End Parse.

(** ** JavaScript values

    The arguments of the builders are plain data: primitives, arrays and
    records of data properties, as decoded from the order service.  None of
    them is callable, so calling a property of a record always fails. *)

Module JS.

Import Num.

Inductive value : Type :=
  | VUndefined
  | VNull
  | VBool (b : bool)
  | VNum (x : number)
  | VStr (s : string)
  | VArr (elems : list value)
  | VObj (props : list (string * value)).

(** The exceptions the code can raise: a TypeError for a property of
    [undefined] or [null] or a call of something that is not a function, a
    ReferenceError for a global that is not defined. *)
Inductive error : Type :=
  | TypeError
  | ReferenceError.

Inductive result (A : Type) : Type :=
  | Ok (a : A)
  | Throw (e : error).

Arguments Ok {A} a.
Arguments Throw {A} e.

Definition bind {A B : Type} (c : result A) (k : A -> result B) : result B :=
  match c with
  | Ok a => k a
  | Throw e => Throw e
  end.

Notation "x <- c ;; k" := (bind c (fun x => k))
  (at level 61, c at next level, right associativity).

(** Own data property of a record (the first binding of the key). *)
Fixpoint lookup (key : string) (props : list (string * value)) : option value :=
  match props with
  | [] => None
  | (k, v) :: rest => if (k =? key)%string then Some v else lookup key rest
  end.

Definition has_key (key : string) (props : list (string * value)) : bool :=
  match lookup key props with Some _ => true | None => false end.

Definition num_of_nat (n : nat) : number := of_Z (Z.of_nat n).

(** [v.key] for the property names the code reads: [length] is built in for
    strings and arrays, every other name is an own property or undefined;
    reading a property of [undefined] or [null] throws. *)
Definition get (v : value) (key : string) : result value :=
  match v with
  | VUndefined | VNull => Throw TypeError
  | VStr s =>
      Ok (if (key =? "length")%string then VNum (num_of_nat (String.length s))
          else VUndefined)
  | VArr l =>
      Ok (if (key =? "length")%string then VNum (num_of_nat (List.length l))
          else VUndefined)
  | VObj props =>
      Ok (match lookup key props with Some x => x | None => VUndefined end)
  | VBool _ | VNum _ => Ok VUndefined
  end.

(** ToBoolean *)
Definition to_boolean (v : value) : bool :=
  match v with
  | VUndefined | VNull => false
  | VBool b => b
  | VNum x =>
      match x with
      | S754_nan | S754_zero _ => false
      | _ => true
      end
  | VStr s => negb (s =? "")%string
  | VArr _ | VObj _ => true
  end.

(** [a || b], with [b] evaluated only when [a] is falsy. *)
Definition or_else (a : value) (b : result value) : result value :=
  if to_boolean a then Ok a else b.

(** Conversion of a record or array to a primitive goes through its
    [toString] method; a record with an own [toString] property shadows the
    built-in one with something that cannot be called, and the conversion
    throws.  [Array.prototype.join] converts every element but [undefined]
    and [null]. *)
Fixpoint convertible (v : value) : bool :=
  match v with
  | VArr l =>
      forallb (fun e => convertible e) l
  | VObj props => negb (has_key "toString" props)
  | _ => true
  end.

Fixpoint show (v : value) : string :=
  match v with
  | VUndefined => "undefined"
  | VNull => "null"
  | VBool b => if b then "true" else "false"
  | VNum x => Num.to_string x
  | VStr s => s
  | VArr l =>
      concat ","
        (map (fun e => match e with VUndefined | VNull => "" | _ => show e end) l)
  | VObj _ => "[object Object]"
  end.

(** ToString, as applied by [String(v)] and by template literals. *)
Definition to_string (v : value) : result string :=
  if convertible v then Ok (show v) else Throw TypeError.

(** ToNumber, as applied by [*], [/] and [>]. *)
Definition to_number (v : value) : result number :=
  match v with
  | VUndefined => Ok NaN
  | VNull => Ok zero
  | VBool b => Ok (if b then of_Z 1 else zero)
  | VNum x => Ok x
  | VStr s => Ok (Parse.string_to_number s)
  | VArr _ | VObj _ =>
      s <- to_string v ;; Ok (Parse.string_to_number s)
  end.

(** [a * b] and [a / b] *)
Definition mul (a b : value) : result number :=
  x <- to_number a ;; y <- to_number b ;; Ok (Num.mul x y).

Definition div (a b : value) : result number :=
  x <- to_number a ;; y <- to_number b ;; Ok (Num.div x y).

(** [a > n] for a Number [n] *)
Definition gt_num (a : value) (n : number) : result bool :=
  x <- to_number a ;; Ok (Num.gtb x n).

(** [a === s] for a string [s] *)
Definition strict_eq_str (a : value) (s : string) : bool :=
  match a with
  | VStr t => (t =? s)%string
  | _ => false
  end.

(** [v.toFixed(f)]: only Numbers have the method. *)
Definition call_toFixed (v : value) (f : nat) : result string :=
  match v with
  | VNum x => Ok (Num.toFixed x f)
  | _ => Throw TypeError
  end.

(** [v.slice(start)] and [v.slice(start, stop)]: strings and arrays have the
    method. *)
Definition call_slice_from (v : value) (start : nat) : result value :=
  match v with
  | VStr s => Ok (VStr (Str.drop start s))
  | VArr l => Ok (VArr (skipn start l))
  | _ => Throw TypeError
  end.

Definition call_slice (v : value) (start stop : nat) : result value :=
  match v with
  | VStr s => Ok (VStr (Str.slice start stop s))
  | VArr l => Ok (VArr (firstn (stop - start) (skipn start l)))
  | _ => Throw TypeError
  end.

(** The elements of [v] when it has the array methods ([forEach], [filter]). *)
Definition array_elems (v : value) : result (list value) :=
  match v with
  | VArr l => Ok l
  | _ => Throw TypeError
  end.

(** [arr.forEach(item => { r += ... })]: the callback sees the text built so
    far and extends it; an exception in the callback ends the loop. *)
Fixpoint forEach (l : list value) (body : value -> string -> result string)
    (r : string) : result string :=
  match l with
  | [] => Ok r
  | x :: rest => r' <- body x r ;; forEach rest body r'
  end.

(** [arr.filter(pred)] *)
Fixpoint filter (l : list value) (pred : value -> result bool)
    : result (list value) :=
  match l with
  | [] => Ok []
  | x :: rest =>
      b <- pred x ;;
      kept <- filter rest pred ;;
      Ok (if b then x :: kept else kept)
  end.

End JS.

(** ** The clock

    [new Date()] reads the host clock: milliseconds since the epoch, shown in
    the host's time zone.  The two locale formats are the ones the comment of
    [getDateTime] documents, DD/MM/YYYY and HH:MM AM/PM, with an ordinary
    space before AM or PM. *)

Module Clock.

Local Open Scope Z_scope.

Record Date : Type := mkDate {
  epoch_ms : Z;          (* milliseconds since 1970-01-01T00:00Z *)
  tz_offset_min : Z      (* local time minus UTC, in minutes *)
}.

Definition local_ms (d : Date) : Z := epoch_ms d + tz_offset_min d * 60000.

(** Year, month and day of a day count from 1970-01-01 (proleptic Gregorian
    calendar). *)
Definition civil_from_days (days : Z) : Z * Z * Z :=
  let z := days + 719468 in
  let era := z / 146097 in
  let doe := z - era * 146097 in
  let yoe := (doe - doe / 1460 + doe / 36524 - doe / 146096) / 365 in
  let doy := doe - (365 * yoe + yoe / 4 - yoe / 100) in
  let mp := (5 * doy + 2) / 153 in
  let d := doy - (153 * mp + 2) / 5 + 1 in
  let m := if mp <? 10 then mp + 3 else mp - 9 in
  let y := yoe + era * 400 + (if m <=? 2 then 1 else 0) in
  (y, m, d).

Definition pad2 (n : Z) : string :=
  let lead := if n <? 10 then "0" else "" in
  (lead ++ Num.digits n)%string.

(** [now.toLocaleDateString('en-GB')]: DD/MM/YYYY *)
Definition toLocaleDateString_enGB (d : Date) : string :=
  let '(y, m, dd) := civil_from_days (local_ms d / 86400000) in
  (pad2 dd ++ "/" ++ pad2 m ++ "/" ++ Num.digits y)%string.

(** [now.toLocaleTimeString('en-US', { hour: '2-digit', minute: '2-digit',
    hour12: true })]: HH:MM AM/PM *)
Definition toLocaleTimeString_enUS (d : Date) : string :=
  let minutes := (local_ms d / 60000) mod 1440 in
  let h := minutes / 60 in
  let h12 := if h mod 12 =? 0 then 12 else h mod 12 in
  let half := if h <? 12 then "AM" else "PM" in
  (pad2 h12 ++ ":" ++ pad2 (minutes mod 60) ++ " " ++ half)%string.

End Clock.

(** ** androidPrint.js *)

Module AndroidPrint.

Import JS.
Import Str.

(** Coffee Category ID *)
Definition COFFEE_CATEGORY_ID : string := "6868ca5dc29c8ed4d3c98dd8".

(** *** ESC/POS command constants *)

Definition ESC : string := chr 27.
Definition GS : string := chr 29.

Module CMD.
Definition INIT : string := ESC ++ "@".
Definition ALIGN_LEFT : string := ESC ++ "a" ++ chr 0.
Definition ALIGN_CENTER : string := ESC ++ "a" ++ chr 1.
Definition ALIGN_RIGHT : string := ESC ++ "a" ++ chr 2.
Definition BOLD_ON : string := ESC ++ "E" ++ chr 1.
Definition BOLD_OFF : string := ESC ++ "E" ++ chr 0.
Definition DOUBLE_HEIGHT : string := ESC ++ "!" ++ chr 16.
Definition DOUBLE_BOTH : string := ESC ++ "!" ++ chr 56.
Definition NORMAL_TEXT : string := ESC ++ "!" ++ chr 0.
Definition CUT : string := GS ++ "V" ++ chr 65 ++ chr 0.
Definition FEED3 : string := LF ++ LF ++ LF.
End CMD.

(** The rule printed between the sections of a document. *)
Definition RULE : string := "----------------------------------------" ++ LF.

(** *** Helpers *)

(** Pad string to a fixed width (left-aligned, space-padded on right) *)
Definition padEnd (str : value) (len : nat) : result string :=
  s <- to_string str ;;
  Ok (if (len <=? String.length s)%nat then substring 0 len s
      else s ++ repeat " " (len - String.length s)).

(** Pad string to a fixed width (right-aligned, space-padded on left) *)
Definition padStart (str : value) (len : nat) : result string :=
  s <- to_string str ;;
  Ok (if (len <=? String.length s)%nat then substring 0 len s
      else repeat " " (len - String.length s) ++ s).

(** Format a two-column row: left text + right text; [totalWidth] defaults
    to 40. *)
Definition twoCol (left right : value) (totalWidth : Z) : result string :=
  l <- to_string left ;;
  r <- to_string right ;;
  let padding :=
    (totalWidth - Z.of_nat (String.length l) - Z.of_nat (String.length r))%Z in
  Ok (l ++ (if (padding >? 0)%Z then repeat " " (Z.to_nat padding) else " ")
        ++ r ++ LF).

(** Center a string within a fixed width; [width] defaults to 40. *)
Definition center (str : value) (width : nat) : result string :=
  s <- to_string str ;;
  if (width <=? String.length s)%nat then Ok (s ++ LF)
  else
    let pad := ((width - String.length s) / 2)%nat in
    Ok (repeat " " pad ++ s ++ LF).

(** Format current date/time: DD/MM/YYYY  HH:MM AM/PM.  [now] is what
    [new Date()] reads. *)
Definition getDateTime (now : Clock.Date) : string :=
  let date := Clock.toLocaleDateString_enGB now in
  let time := Clock.toLocaleTimeString_enUS now in
  date ++ "  " ++ time.

(** *** ESC/POS document builders *)

(** [if (item.selectedCustomizations && item.selectedCustomizations.length > 0)
      item.selectedCustomizations.forEach(c => { r += prefix + (c.name || c) + '\n' })] *)
Definition customizations (prefix : string) (item : value) (r : string)
    : result string :=
  sc <- get item "selectedCustomizations" ;;
  present <-
    (if to_boolean sc
     then (len <- get sc "length" ;; gt_num len Num.zero)
     else Ok false) ;;
  if present : bool then
    cs <- array_elems sc ;;
    forEach cs (fun c r =>
      name <- get c "name" ;;
      shown <- or_else name (Ok c) ;;
      text <- to_string shown ;;
      Ok (r ++ prefix ++ text ++ LF)) r
  else Ok r.

(** The callback of the items loop of the bill. *)
Definition bill_item (item : value) (r : string) : result string :=
  price <- get item "price" ;;
  quantity <- get item "quantity" ;;
  amount <- mul price quantity ;;
  let itemTotal := Num.toFixed amount 2 in
  itemName <- get item "itemName" ;;
  nameLine <- padEnd itemName 22 ;;
  quantity <- get item "quantity" ;;
  quantity <- to_string quantity ;;
  qty <- padEnd (VStr quantity) 4 ;;
  amt <- padStart (VStr ("Rs " ++ itemTotal)) 14 ;;
  let r := r ++ nameLine ++ qty ++ amt ++ LF in
  (* If item has customizations, print them indented *)
  customizations "  + " item r.

(** [orderDetails.items || []] *)
Definition items_or_empty (orderDetails : value) : result value :=
  items <- get orderDetails "items" ;;
  or_else items (Ok (VArr [])).

(** Build ESC/POS string for the customer Bill / Receipt *)
Definition buildBillEscPos (now : Clock.Date)
    (orderId kot_code KDSInvoiceId orderDetails orderType transactionDetails : value)
    : result string :=
  let r := "" in
  let r := r ++ CMD.INIT in
  (* ---- HEADER ---- *)
  let r := r ++ CMD.ALIGN_CENTER in
  let r := r ++ CMD.DOUBLE_BOTH in
  let r := r ++ "KTR" ++ LF in
  let r := r ++ CMD.NORMAL_TEXT in
  let r := r ++ "Karnataka Tiffin Room" ++ LF in
  let r := r ++ "Bringing the flavors of Bengaluru" ++ LF in
  let r := r ++ "-" ++ LF in
  let r := r ++ "KTR-Versova" ++ LF in
  let r := r ++ CMD.NORMAL_TEXT in
  let r := r ++ "Shop 202, JP Rd, Aram Nagar Pt 2," ++ LF in
  let r := r ++ "Versova, Andheri West, Mumbai 400061" ++ LF in
  let r := r ++ RULE in
  (* ---- KOT CODE ---- *)
  let r := r ++ CMD.ALIGN_CENTER in
  let r := r ++ CMD.BOLD_ON in
  kot <- to_string kot_code ;;
  let r := r ++ "KOT: " ++ kot ++ LF in
  let r := r ++ CMD.BOLD_OFF in
  let r := r ++ RULE in
  (* ---- BILL INFO ---- *)
  let r := r ++ CMD.ALIGN_LEFT in
  bill_no <- to_string orderId ;;
  let r := r ++ "BILL NO : " ++ bill_no ++ LF in
  r <- (if to_boolean KDSInvoiceId
        then (kds <- to_string KDSInvoiceId ;; Ok (r ++ "KDS ID  : " ++ kds ++ LF))
        else Ok r) ;;
  let r := r ++ "DATE    : " ++ getDateTime now ++ LF in
  type <- or_else orderType (get orderDetails "billType") ;;
  type <- or_else type (Ok (VStr "DINE IN")) ;;
  type <- to_string type ;;
  let r := r ++ "TYPE    : " ++ type ++ LF in
  kiosk <- get orderDetails "kiosk" ;;
  kiosk <- or_else kiosk (Ok (VStr "KTR1")) ;;
  kiosk <- to_string kiosk ;;
  let r := r ++ "KIOSK   : " ++ kiosk ++ LF in
  let r := r ++ RULE in
  (* ---- ITEMS HEADER ---- *)
  let r := r ++ CMD.BOLD_ON in
  c1 <- padEnd (VStr "DESCRIPTION") 22 ;;
  c2 <- padEnd (VStr "QTY") 4 ;;
  c3 <- padStart (VStr "AMOUNT") 14 ;;
  let r := r ++ c1 ++ c2 ++ c3 ++ LF in
  let r := r ++ CMD.BOLD_OFF in
  let r := r ++ RULE in
  (* ---- ITEMS ---- *)
  items <- items_or_empty orderDetails ;;
  items <- array_elems items ;;
  r <- forEach items bill_item r ;;
  let r := r ++ RULE in
  (* ---- TOTALS ---- *)
  subtotal <- get orderDetails "subtotal" ;;
  subtotal <- call_toFixed subtotal 2 ;;
  row <- twoCol (VStr "Subtotal:") (VStr ("Rs " ++ subtotal)) 40 ;;
  let r := r ++ row in
  tax <- get orderDetails "tax" ;;
  cgst <- div tax (VNum (Num.of_Z 2)) ;;
  row <- twoCol (VStr "CGST 2.5%:") (VStr ("+" ++ Num.toFixed cgst 2)) 40 ;;
  let r := r ++ row in
  tax <- get orderDetails "tax" ;;
  sgst <- div tax (VNum (Num.of_Z 2)) ;;
  row <- twoCol (VStr "SGST 2.5%:") (VStr ("+" ++ Num.toFixed sgst 2)) 40 ;;
  let r := r ++ row in
  let r := r ++ RULE in
  let r := r ++ CMD.BOLD_ON in
  let r := r ++ CMD.DOUBLE_HEIGHT in
  total <- get orderDetails "total" ;;
  total <- call_toFixed total 0 ;;
  row <- twoCol (VStr "TOTAL:") (VStr ("Rs " ++ total)) 40 ;;
  let r := r ++ row in
  let r := r ++ CMD.NORMAL_TEXT in
  let r := r ++ CMD.BOLD_OFF in
  let r := r ++ RULE in
  (* ---- GST FOOTER ---- *)
  let r := r ++ CMD.ALIGN_CENTER in
  let r := r ++ "GST: 27AA0FH7156G1Z0" ++ LF in
  let r := r ++ "CIN: 6731" ++ LF in
  let r := r ++ "FSSAI: 21524005001190" ++ LF in
  let r := r ++ LF in
  let r := r ++ CMD.BOLD_ON in
  let r := r ++ "Thank You! Visit Again :)" ++ LF in
  let r := r ++ CMD.BOLD_OFF in
  (* ---- CUT ---- *)
  let r := r ++ CMD.FEED3 in
  let r := r ++ CMD.CUT in
  Ok r.

(** The callback of the items loop of both kitchen tickets. *)
Definition kot_item (item : value) (r : string) : result string :=
  quantity <- get item "quantity" ;;
  qty <- padEnd quantity 5 ;;
  itemName <- get item "itemName" ;;
  itemName <- to_string itemName ;;
  let r := r ++ qty ++ itemName ++ LF in
  customizations "       + " item r.

(** [item => item.categoryId !== COFFEE_CATEGORY_ID] *)
Definition is_food (item : value) : result bool :=
  categoryId <- get item "categoryId" ;;
  Ok (negb (strict_eq_str categoryId COFFEE_CATEGORY_ID)).

(** [item => item.categoryId === COFFEE_CATEGORY_ID] *)
Definition is_coffee (item : value) : result bool :=
  categoryId <- get item "categoryId" ;;
  Ok (strict_eq_str categoryId COFFEE_CATEGORY_ID).

(** [(orderDetails.items || []).filter(pred)] *)
Definition filter_items (orderDetails : value) (pred : value -> result bool)
    : result (list value) :=
  items <- items_or_empty orderDetails ;;
  items <- array_elems items ;;
  filter items pred.

(** Build ESC/POS string for Food KOT (non-coffee items).
    Returns null ([None]) if no food items exist. *)
Definition buildFoodKOTEscPos (now : Clock.Date)
    (orderId kot_code KDSInvoiceId orderDetails : value)
    : result (option string) :=
  foodItems <- filter_items orderDetails is_food ;;
  if (List.length foodItems =? 0)%nat then Ok None
  else
    let r := "" in
    let r := r ++ CMD.INIT in
    (* ---- HEADER ---- *)
    let r := r ++ CMD.ALIGN_CENTER in
    let r := r ++ CMD.BOLD_ON in
    let r := r ++ "Karnataka Tiffin Room (Versova)" ++ LF in
    let r := r ++ CMD.BOLD_OFF in
    let r := r ++ "*** FOOD KOT ***" ++ LF in
    let r := r ++ RULE in
    (* ---- TOKEN NUMBER (large) ---- *)
    let r := r ++ CMD.ALIGN_CENTER in
    let r := r ++ CMD.DOUBLE_BOTH in
    token <- call_slice_from kot_code 4 ;;
    token <- to_string token ;;
    let r := r ++ token ++ LF in
    let r := r ++ CMD.NORMAL_TEXT in
    kot <- to_string kot_code ;;
    let r := r ++ "KOT: " ++ kot ++ LF in
    let r := r ++ RULE in
    (* ---- ORDER INFO ---- *)
    let r := r ++ CMD.ALIGN_LEFT in
    billType <- get orderDetails "billType" ;;
    billType <- or_else billType (Ok (VStr "DINE IN")) ;;
    billType <- to_string billType ;;
    let r := r ++ "BILL TYPE : " ++ billType ++ LF in
    bill_no <- call_slice orderId 4 10 ;;
    bill_no <- to_string bill_no ;;
    let r := r ++ "BILL NO   : KTR-" ++ bill_no ++ LF in
    let r := r ++ "DATE/TIME : " ++ getDateTime now ++ LF in
    kiosk <- get orderDetails "kiosk" ;;
    kiosk <- or_else kiosk (Ok (VStr "KTR1")) ;;
    kiosk <- to_string kiosk ;;
    let r := r ++ "KIOSK     : " ++ kiosk ++ LF in
    let r := r ++ RULE in
    (* ---- ITEMS ---- *)
    let r := r ++ CMD.BOLD_ON in
    let r := r ++ "QTY  ITEM" ++ LF in
    let r := r ++ CMD.BOLD_OFF in
    let r := r ++ RULE in
    r <- forEach foodItems kot_item r ;;
    let r := r ++ RULE in
    let r := r ++ "Instruction:" ++ LF in
    let r := r ++ LF in
    (* ---- CUT ---- *)
    let r := r ++ CMD.FEED3 in
    let r := r ++ CMD.CUT in
    Ok (Some r).

(** Build ESC/POS string for Coffee KOT (coffee items only).
    Returns null ([None]) if no coffee items exist. *)
Definition buildCoffeeKOTEscPos (now : Clock.Date)
    (orderId kot_code KDSInvoiceId orderDetails : value)
    : result (option string) :=
  coffeeItems <- filter_items orderDetails is_coffee ;;
  if (List.length coffeeItems =? 0)%nat then Ok None
  else
    let r := "" in
    let r := r ++ CMD.INIT in
    (* ---- HEADER ---- *)
    let r := r ++ CMD.ALIGN_CENTER in
    let r := r ++ CMD.BOLD_ON in
    let r := r ++ "Karnataka Tiffin Room (Versova)" ++ LF in
    let r := r ++ CMD.BOLD_OFF in
    let r := r ++ "*** COFFEE KOT ***" ++ LF in
    let r := r ++ "--- COFFEE COUNTER ---" ++ LF in
    let r := r ++ RULE in
    (* ---- TOKEN NUMBER (large) ---- *)
    let r := r ++ CMD.ALIGN_CENTER in
    let r := r ++ CMD.DOUBLE_BOTH in
    token <- call_slice_from kot_code 4 ;;
    token <- to_string token ;;
    let r := r ++ token ++ LF in
    let r := r ++ CMD.NORMAL_TEXT in
    kot <- to_string kot_code ;;
    let r := r ++ "KOT: " ++ kot ++ LF in
    let r := r ++ RULE in
    (* ---- ORDER INFO ---- *)
    let r := r ++ CMD.ALIGN_LEFT in
    billType <- get orderDetails "billType" ;;
    billType <- or_else billType (Ok (VStr "DINE IN")) ;;
    billType <- to_string billType ;;
    let r := r ++ "BILL TYPE : " ++ billType ++ LF in
    bill_no <- call_slice orderId 4 10 ;;
    bill_no <- to_string bill_no ;;
    let r := r ++ "BILL NO   : KTR-" ++ bill_no ++ LF in
    let r := r ++ "DATE/TIME : " ++ getDateTime now ++ LF in
    kiosk <- get orderDetails "kiosk" ;;
    kiosk <- or_else kiosk (Ok (VStr "KTR1")) ;;
    kiosk <- to_string kiosk ;;
    let r := r ++ "KIOSK     : " ++ kiosk ++ LF in
    let r := r ++ RULE in
    (* ---- ITEMS ---- *)
    let r := r ++ CMD.BOLD_ON in
    let r := r ++ "QTY  COFFEE ITEM" ++ LF in
    let r := r ++ CMD.BOLD_OFF in
    let r := r ++ RULE in
    r <- forEach coffeeItems kot_item r ;;
    let r := r ++ RULE in
    let r := r ++ "Instruction: COFFEE COUNTER" ++ LF in
    let r := r ++ LF in
    (* ---- CUT ---- *)
    let r := r ++ CMD.FEED3 in
    let r := r ++ CMD.CUT in
    Ok (Some r).

(** *** Android bridge callers

    The callers act on the host: the console, the [window.AndroidPrint]
    bridge when the WebView provides one, the clock and the timer queue. *)

(** What a timer runs when it fires: the two arrow functions handed to
    [setTimeout] by [androidPrintAll], with the variables they capture. *)
Inductive callback : Type :=
  | FoodKOTTask (orderId kot_code KDSInvoiceId orderDetails : value)
  | CoffeeKOTTask (orderId kot_code KDSInvoiceId orderDetails : value).

Record timer : Type := mkTimer {
  registered_at : Z;     (* the clock, in ms, when setTimeout was called *)
  delay : Z;             (* the delay handed to setTimeout, in ms *)
  task : callback
}.

Record world : Type := mkWorld {
  clock : Clock.Date;
  has_window : bool;     (* typeof window !== 'undefined' *)
  has_bridge : bool;     (* typeof window.AndroidPrint !== 'undefined' *)
  console : list string;
  printed : list (string * string * string);  (* calls of printBill *)
  timers : list timer
}.

Definition M (A : Type) : Type := world -> result A * world.

Definition ret {A : Type} (a : A) : M A := fun w => (Ok a, w).

Definition bindM {A B : Type} (c : M A) (k : A -> M B) : M B :=
  fun w =>
    match c w with
    | (Ok a, w') => k a w'
    | (Throw e, w') => (Throw e, w')
    end.

Notation "x <~ c ;; k" := (bindM c (fun x => k))
  (at level 61, c at next level, right associativity).

(** A builder call: it reads the clock and changes nothing. *)
Definition build {A : Type} (f : Clock.Date -> result A) : M A :=
  fun w => (f (clock w), w).

Definition console_log (msg : string) : M unit :=
  fun w => (Ok tt,
    mkWorld (clock w) (has_window w) (has_bridge w)
      (console w ++ [msg]) (printed w) (timers w)).

(** [window.AndroidPrint.printBill(channel, param, payload)]; the bridge,
    when there is one, takes the payload and returns. *)
Definition printBill (channel param payload : string) : M unit :=
  fun w =>
    if negb (has_window w) then (Throw ReferenceError, w)
    else if negb (has_bridge w) then (Throw TypeError, w)
    else
      (Ok tt,
       mkWorld (clock w) (has_window w) (has_bridge w)
         (console w) (printed w ++ [(channel, param, payload)]) (timers w)).

(** [setTimeout(callback, ms)] *)
Definition setTimeout (cb : callback) (ms : Z) : M unit :=
  fun w => (Ok tt,
    mkWorld (clock w) (has_window w) (has_bridge w)
      (console w) (printed w)
      (timers w ++ [mkTimer (Clock.epoch_ms (clock w)) ms cb])).

(** Returns true when running inside the Android WebView. *)
Definition isAndroidBridge (w : world) : bool :=
  has_window w && has_bridge w.

(** [!escPos]: no document, or an empty one. *)
Definition falsy_doc (escPos : option string) : bool :=
  match escPos with
  | None => true
  | Some s => (s =? "")%string
  end.

Definition doc_text (escPos : option string) : string :=
  match escPos with Some s => s | None => "" end.

(** The console messages are given in ASCII, without their pictographs.

    Print customer bill via Android USB bridge. *)
Definition androidPrintBill
    (orderId kot_code KDSInvoiceId orderDetails orderType transactionDetails : value)
    : M unit :=
  escPos <~ build (fun now =>
    buildBillEscPos now orderId kot_code KDSInvoiceId orderDetails orderType
      transactionDetails) ;;
  _ <~ console_log "[AndroidPrint] Sending Bill to printer..." ;;
  printBill "USB" "" escPos.

(** Print Food KOT via Android USB bridge.
    Returns false if no food items (skipped). *)
Definition androidPrintFoodKOT (orderId kot_code KDSInvoiceId orderDetails : value)
    : M bool :=
  escPos <~ build (fun now =>
    buildFoodKOTEscPos now orderId kot_code KDSInvoiceId orderDetails) ;;
  if falsy_doc escPos then
    _ <~ console_log "[AndroidPrint] No food items - Food KOT skipped" ;;
    ret false
  else
    _ <~ console_log "[AndroidPrint] Sending Food KOT to printer..." ;;
    _ <~ printBill "USB" "" (doc_text escPos) ;;
    ret true.

(** Print Coffee KOT via Android USB bridge.
    Returns false if no coffee items (skipped). *)
Definition androidPrintCoffeeKOT (orderId kot_code KDSInvoiceId orderDetails : value)
    : M bool :=
  escPos <~ build (fun now =>
    buildCoffeeKOTEscPos now orderId kot_code KDSInvoiceId orderDetails) ;;
  if falsy_doc escPos then
    _ <~ console_log "[AndroidPrint] No coffee items - Coffee KOT skipped" ;;
    ret false
  else
    _ <~ console_log "[AndroidPrint] Sending Coffee KOT to printer..." ;;
    _ <~ printBill "USB" "" (doc_text escPos) ;;
    ret true.

(** Print all three documents sequentially via Android USB bridge. *)
Definition androidPrintAll
    (orderId kot_code KDSInvoiceId orderDetails orderType transactionDetails : value)
    : M unit :=
  _ <~ console_log "[AndroidPrint] Android bridge detected - starting USB print..." ;;
  (* Bill - immediate *)
  _ <~ androidPrintBill orderId kot_code KDSInvoiceId orderDetails orderType
         transactionDetails ;;
  (* Food KOT - after 350ms *)
  _ <~ setTimeout (FoodKOTTask orderId kot_code KDSInvoiceId orderDetails) 350 ;;
  (* Coffee KOT - after 700ms *)
  setTimeout (CoffeeKOTTask orderId kot_code KDSInvoiceId orderDetails) 700.

(** The body of a timer callback. *)
Definition run_task (cb : callback) : M bool :=
  match cb with
  | FoodKOTTask orderId kot_code KDSInvoiceId orderDetails =>
      androidPrintFoodKOT orderId kot_code KDSInvoiceId orderDetails
  | CoffeeKOTTask orderId kot_code KDSInvoiceId orderDetails =>
      androidPrintCoffeeKOT orderId kot_code KDSInvoiceId orderDetails
  end.

(** *** The timer queue

    A timer is due [delay] ms after its registration.  The host runs the
    timer that is due first (the one registered first among equals), with
    the clock at its due time or later. *)

Definition due (t : timer) : Z := (registered_at t + delay t)%Z.

(** Splits off the timer that fires next. *)
Fixpoint next_timer (ts : list timer) : option (timer * list timer) :=
  match ts with
  | [] => None
  | t :: rest =>
      match next_timer rest with
      | Some (t', rest') =>
          if (due t' <? due t)%Z then Some (t', t :: rest') else Some (t, rest)
      | None => Some (t, [])
      end
  end.

(** One turn of the event loop: the next timer fires at its due time (or
    now, if that is later) and its callback runs; an exception it raises is
    reported by the host and does not reach the other timers. *)
Definition fire_next (w : world) : option (Z * result bool * world) :=
  match next_timer (timers w) with
  | None => None
  | Some (t, rest) =>
      let at_ms := Z.max (Clock.epoch_ms (clock w)) (due t) in
      let w1 :=
        mkWorld (Clock.mkDate at_ms (Clock.tz_offset_min (clock w)))
          (has_window w) (has_bridge w) (console w) (printed w) rest in
      let '(res, w2) := run_task (task t) w1 in
      Some (at_ms, res, w2)
  end.

End AndroidPrint.

(** * Vocabulary of the properties *)

Module Spec.

Import JS AndroidPrint.

(** [r'] is [r] with more text after it: what [r += ...] does to [r]. *)
Definition extends (r r' : string) : Prop := exists t, r' = r ++ t.

(** [line] is found in [doc]. *)
Definition occurs (line doc : string) : Prop :=
  exists pre post, doc = pre ++ line ++ post.

(** A document between the printer reset and the feed and cut. *)
Definition framed (doc : string) : Prop :=
  exists body, doc = CMD.INIT ++ body ++ CMD.FEED3 ++ CMD.CUT.

(** [v.key], [undefined] where reading it would throw. *)
Definition prop (v : value) (key : string) : value :=
  match get v key with
  | Ok x => x
  | Throw _ => VUndefined
  end.

(** The line items of an order: the elements of [orderDetails.items] when
    it is an array. *)
Definition order_items (orderDetails : value) : list value :=
  match prop orderDetails "items" with
  | VArr l => l
  | _ => []
  end.

(** The item carries the coffee category identifier. *)
Definition coffee_category (item : value) : bool :=
  strict_eq_str (prop item "categoryId") COFFEE_CATEGORY_ID.

Definition non_nullish (v : value) : bool :=
  match v with
  | VUndefined | VNull => false
  | _ => true
  end.

Definition is_number (v : value) : bool :=
  match v with
  | VNum _ => true
  | _ => false
  end.

(** Plain data: no record inside [v] has a property named [toString]. *)
Fixpoint plain (v : value) : bool :=
  match v with
  | VArr l => forallb plain l
  | VObj props =>
      negb (has_key "toString" props)
      && forallb (fun kv => plain (snd kv)) props
  | _ => true
  end.

Definition has_positive_length (v : value) : bool :=
  match gt_num (prop v "length") Num.zero with
  | Ok b => b
  | Throw _ => false
  end.

(** A collection of customizations the builders can walk: missing or falsy,
    or without a positive length, or an array none of whose entries is
    [undefined] or [null]. *)
Definition customizations_ok (sc : value) : bool :=
  if to_boolean sc && has_positive_length sc then
    match sc with
    | VArr cs => forallb non_nullish cs
    | _ => false
    end
  else true.

Definition item_ok (item : value) : bool :=
  non_nullish item && customizations_ok (prop item "selectedCustomizations").

(** [orderDetails.items] is missing or falsy, or an array of items. *)
Definition items_ok (orderDetails : value) : bool :=
  let items := prop orderDetails "items" in
  if to_boolean items then
    match items with
    | VArr l => forallb item_ok l
    | _ => false
    end
  else true.

(** An order record the builders can read. *)
Definition wf_order (orderDetails : value) : bool :=
  non_nullish orderDetails && plain orderDetails && items_ok orderDetails.

(** An identifier given as a string. *)
Definition is_string (v : value) : bool :=
  match v with
  | VStr _ => true
  | _ => false
  end.

(** The items a ticket keeps, by the item predicate of its builder. *)
Definition food_items (orderDetails : value) : list value :=
  List.filter (fun item => negb (coffee_category item)) (order_items orderDetails).

Definition coffee_items (orderDetails : value) : list value :=
  List.filter coffee_category (order_items orderDetails).

(** *** Fallback chains *)

(** [a || d]: [a] unless it is falsy. *)
Definition truthy_or (a d : value) : value :=
  if to_boolean a then a else d.

(** [a ?? d], the chain of the specification: [a] unless it is [undefined]
    or [null]. *)
Definition present_or (a d : value) : value :=
  if non_nullish a then a else d.

(** *** Amounts *)

(** A numeral up to its decimal point, and what follows the point. *)
Fixpoint split_point (s : string) : string * option string :=
  match s with
  | EmptyString => ("", None)
  | String c r =>
      if (c =? ".")%char then ("", Some r)
      else let '(a, b) := split_point r in (String c a, b)
  end.

Definition digit_run (s : string) : bool :=
  negb (s =? "")%string && Str.forallb Str.is_digit s.

(** The number of decimal places of a decimal numeral ([-]digits[.digits]);
    [None] for any other text. *)
Definition decimal_places (s : string) : option nat :=
  let body := match s with String "-" r => r | _ => s end in
  match split_point body with
  | (int, None) => if digit_run int then Some 0 else None
  | (int, Some frac) =>
      if digit_run int && digit_run frac then Some (String.length frac) else None
  end.

(** The Numbers [toFixed] writes in fixed notation: finite, below 10^21 in
    magnitude. *)
Definition fixed_range (x : Num.number) : bool :=
  match x with
  | S754_zero _ => true
  | S754_finite _ m e =>
      let '(p, q) := Num.frac m e in negb (10 ^ 21 * q <=? p)%Z
  | _ => false
  end.

(** The row [twoCol] makes of two texts in 40 columns. *)
Definition two_col_row (left right : string) : string :=
  left ++ Str.repeat " " (Nat.max 1 (40 - (String.length left + String.length right)))
    ++ right ++ Str.LF.

(** A cell of [width] columns with the text at its left ([padEnd]) or at its
    right ([padStart]); a longer text is cut to its first [width] characters. *)
Definition left_cell (text : string) (width : nat) : string :=
  if (width <=? String.length text)%nat then substring 0 width text
  else text ++ Str.repeat " " (width - String.length text).

Definition right_cell (text : string) (width : nat) : string :=
  if (width <=? String.length text)%nat then substring 0 width text
  else Str.repeat " " (width - String.length text) ++ text.

(** [item.price * item.quantity] *)
Definition item_amount (item : value) : Num.number :=
  match mul (prop item "price") (prop item "quantity") with
  | Ok x => x
  | Throw _ => Num.NaN
  end.

(** Half of [orderDetails.tax] *)
Definition half_tax (orderDetails : value) : Num.number :=
  match div (prop orderDetails "tax") (VNum (Num.of_Z 2)) with
  | Ok x => x
  | Throw _ => Num.NaN
  end.

Definition amount_text (item : value) : string :=
  "Rs " ++ Num.toFixed (item_amount item) 2.

(** The row of a line item on the bill. *)
Definition item_row (item : value) : string :=
  left_cell (show (prop item "itemName")) 22
    ++ left_cell (show (prop item "quantity")) 4
    ++ right_cell (amount_text item) 14 ++ Str.LF.

(** The totals of the bill: subtotal, the two halves of the tax, and the
    total in bold and double height. *)
Definition totals_block (orderDetails : value) (subtotal total : Num.number) : string :=
  two_col_row "Subtotal:" ("Rs " ++ Num.toFixed subtotal 2)
  ++ two_col_row "CGST 2.5%:" ("+" ++ Num.toFixed (half_tax orderDetails) 2)
  ++ two_col_row "SGST 2.5%:" ("+" ++ Num.toFixed (half_tax orderDetails) 2)
  ++ RULE ++ CMD.BOLD_ON ++ CMD.DOUBLE_HEIGHT
  ++ two_col_row "TOTAL:" ("Rs " ++ Num.toFixed total 0).

(** The column header of the bill with its rule, directly followed by the
    rule and the totals: a bill without item rows. *)
Definition empty_items_block (orderDetails : value) (subtotal total : Num.number)
    : string :=
  (left_cell "DESCRIPTION" 22 ++ left_cell "QTY" 4 ++ right_cell "AMOUNT" 14 ++ Str.LF)
  ++ CMD.BOLD_OFF ++ RULE ++ RULE
  ++ totals_block orderDetails subtotal total.

(** *** Dispatch *)

(** The host after [androidPrintAll] has returned: the log of the start and
    of the bill, the bill handed to the bridge, and the two timers, both
    registered at the instant [androidPrintAll] ran. *)
Definition after_print_all (w : world) (bill : string)
    (orderId kot_code KDSInvoiceId orderDetails : value) : world :=
  mkWorld (clock w) (has_window w) (has_bridge w)
    (console w ++ ["[AndroidPrint] Android bridge detected - starting USB print..."]
       ++ ["[AndroidPrint] Sending Bill to printer..."])
    (printed w ++ [("USB", "", bill)])
    (timers w
       ++ [mkTimer (Clock.epoch_ms (clock w)) 350
             (FoodKOTTask orderId kot_code KDSInvoiceId orderDetails)]
       ++ [mkTimer (Clock.epoch_ms (clock w)) 700
             (CoffeeKOTTask orderId kot_code KDSInvoiceId orderDetails)]).

(** What the builder of a timer's ticket returns at the instant [now]. *)
Definition ticket_of (cb : callback) (now : Clock.Date) : result (option string) :=
  match cb with
  | FoodKOTTask orderId kot_code KDSInvoiceId orderDetails =>
      buildFoodKOTEscPos now orderId kot_code KDSInvoiceId orderDetails
  | CoffeeKOTTask orderId kot_code KDSInvoiceId orderDetails =>
      buildCoffeeKOTEscPos now orderId kot_code KDSInvoiceId orderDetails
  end.

End Spec.

(** ** Sample data

    A dine-in order with one kitchen item and one coffee, as the order
    service sends it, and the instant it is printed at
    (2 November 2026, 18:40 in India). *)

Module Sample.

Import JS AndroidPrint.

Definition num (z : Z) : value := VNum (Num.of_Z z).

Definition now : Clock.Date := Clock.mkDate 1793625000000 330.

Definition dosa : value :=
  VObj [("itemName", VStr "Masala Dosa"); ("price", num 60); ("quantity", num 1);
        ("categoryId", VStr "6868ca5dc29c8ed4d3c98dd1");
        ("selectedCustomizations",
         VArr [VStr "Extra ghee"; VObj [("name", VStr "No onion")]])].

Definition coffee : value :=
  VObj [("itemName", VStr "Filter Coffee"); ("price", num 40); ("quantity", num 1);
        ("categoryId", VStr COFFEE_CATEGORY_ID)].

Definition order : value :=
  VObj [("items", VArr [dosa; coffee]); ("subtotal", num 100); ("tax", num 10);
        ("total", num 110)].

(** An order of coffee only. *)
Definition coffee_order : value :=
  VObj [("items", VArr [coffee; coffee]); ("subtotal", num 80); ("tax", num 4);
        ("total", num 84)].

(** An order that came without its items. *)
Definition order_without_items : value :=
  VObj [("subtotal", num 0); ("tax", num 0); ("total", num 0)].

(** The WebView of the kiosk, idle, at the sample instant. *)
Definition kiosk : world := mkWorld now true true [] [] [].

(** A large catering order: one hundred million rupees. *)
Definition catering : value :=
  VObj [("itemName", VStr "Wedding catering"); ("price", num 100000000);
        ("quantity", num 1); ("categoryId", VStr "6868ca5dc29c8ed4d3c98dd1")].

Definition large_order : value :=
  VObj [("items", VArr [catering]); ("subtotal", num 100000000);
        ("tax", num 5000000); ("total", num 105000000)].

Definition orderId : value := VStr "ORD-123456789".
Definition kot_code : value := VStr "KOT-042".

End Sample.

(** ** Renderings

    What the loops of the builders write, as functions of the items. *)

Module Render.

Import JS AndroidPrint Spec.

(** Texts one after the other. *)
Definition lines {A : Type} (f : A -> string) (l : list A) : string :=
  fold_right (fun x rest => f x ++ rest) "" l.

(** The line of a customization: its [name] when it has a truthy one, itself
    otherwise. *)
Definition customization_line (prefix : string) (c : value) : string :=
  prefix ++ show (truthy_or (prop c "name") c) ++ Str.LF.

(** The lines under an item: one for each of its customizations. *)
Definition customization_lines (prefix : string) (item : value) : string :=
  let sc := prop item "selectedCustomizations" in
  if to_boolean sc && has_positive_length sc then
    match sc with
    | VArr cs => lines (customization_line prefix) cs
    | _ => ""
    end
  else "".

(** An item on the bill: its row and its customizations. *)
Definition bill_item_text (item : value) : string :=
  item_row item ++ customization_lines "  + " item.

(** An item on a kitchen ticket: the quantity in 5 columns, the name, and
    its customizations. *)
Definition kot_item_text (item : value) : string :=
  left_cell (show (prop item "quantity")) 5 ++ show (prop item "itemName") ++ Str.LF
  ++ customization_lines "       + " item.

(** The column header of the bill and of the two kitchen tickets, with the
    rule under it. *)
Definition bill_column_header : string :=
  CMD.BOLD_ON
  ++ (left_cell "DESCRIPTION" 22 ++ left_cell "QTY" 4 ++ right_cell "AMOUNT" 14
      ++ Str.LF)
  ++ CMD.BOLD_OFF ++ RULE.

Definition food_column_header : string :=
  CMD.BOLD_ON ++ ("QTY  ITEM" ++ Str.LF) ++ CMD.BOLD_OFF ++ RULE.

Definition coffee_column_header : string :=
  CMD.BOLD_ON ++ ("QTY  COFFEE ITEM" ++ Str.LF) ++ CMD.BOLD_OFF ++ RULE.

(** The end of the two kitchen tickets after their items. *)
Definition food_footer : string :=
  RULE ++ "Instruction:" ++ Str.LF ++ Str.LF ++ CMD.FEED3 ++ CMD.CUT.

Definition coffee_footer : string :=
  RULE ++ "Instruction: COFFEE COUNTER" ++ Str.LF ++ Str.LF ++ CMD.FEED3 ++ CMD.CUT.

(** Strings and arrays: the values with a [slice] method. *)
Definition sliceable (v : value) : bool :=
  match v with
  | VStr _ | VArr _ => true
  | _ => false
  end.

(** What a ticket caller hands to the bridge for what its builder returned. *)
Definition sent (ticket : result (option string)) : list (string * string * string) :=
  match ticket with
  | Ok (Some doc) => [("USB", "", doc)]
  | _ => []
  end.

(** What a ticket caller returns for what its builder returned. *)
Definition sent_flag (ticket : result (option string)) : result bool :=
  match ticket with
  | Ok (Some _) => Ok true
  | Ok None => Ok false
  | Throw e => Throw e
  end.

(** A call of the bridge on the USB channel with a framed document. *)
Definition usb_framed (call : string * string * string) : Prop :=
  let '(channel, param, payload) := call in
  channel = "USB" /\ param = "" /\ framed payload.

End Render.

(** * Properties *)

Import JS AndroidPrint Spec Render.

(** ** Strings *)

Section StringFacts.

Lemma append_assoc (a b c : string) : (a ++ b) ++ c = a ++ b ++ c.
Proof.
  induction a as [|x a IH]; simpl; [reflexivity | now rewrite IH].
Qed.

Lemma append_nil_r (a : string) : a ++ "" = a.
Proof.
  induction a as [|x a IH]; simpl; [reflexivity | now rewrite IH].
Qed.

Lemma length_append (a b : string) :
  String.length (a ++ b) = String.length a + String.length b.
Proof.
  induction a as [|x a IH]; simpl; [reflexivity | now rewrite IH].
Qed.

Lemma length_spaces (n : nat) : String.length (Str.repeat " " n) = n.
Proof.
  induction n as [|n IH]; simpl; [reflexivity | now rewrite IH].
Qed.

End StringFacts.

Lemma extends_refl (r : string) : extends r r.
Proof. exists "". now rewrite append_nil_r. Qed.

Lemma extends_app (r x : string) : extends r (r ++ x).
Proof. now exists x. Qed.

Lemma extends_trans (a b c : string) : extends a b -> extends b c -> extends a c.
Proof.
  intros [t ->] [u ->]. exists (t ++ u). apply append_assoc.
Qed.

(** ** The result monad *)

Lemma bind_ok {A B : Type} (c : result A) (k : A -> result B) (b : B) :
  bind c k = Ok b -> exists a, c = Ok a /\ k a = Ok b.
Proof.
  destruct c as [a|e]; simpl; intros H; [now exists a | discriminate].
Qed.

Lemma Ok_inj {A : Type} (a b : A) : Ok a = Ok b -> a = b.
Proof. now intros [= ->]. Qed.

(** From [Ok e = Ok x] for a variable [x]: replaces [x] by [e], leaving [e]
    as it is written. *)
Ltac inv_ok H :=
  apply Ok_inj in H;
  match type of H with
  | _ = ?x => subst x
  end.

Ltac inv_bind H :=
  let a := fresh "x" in
  let Ha := fresh "E" in
  apply bind_ok in H; destruct H as (a & Ha & H).

Ltac inv_binds H :=
  repeat (cbv zeta in H;
          match type of H with
          | bind _ _ = Ok _ => inv_bind H
          end).

Lemma forEach_extends (body : value -> string -> result string) (l : list value) :
  (forall x r r', body x r = Ok r' -> extends r r') ->
  forall r r', forEach l body r = Ok r' -> extends r r'.
Proof.
  intros Hbody. induction l as [|x l IH]; simpl; intros r r' H.
  - injection H as <-. apply extends_refl.
  - inv_bind H. eapply extends_trans; [eapply Hbody; eassumption | now apply IH].
Qed.

Lemma customizations_extends (prefix : string) (item : value) (r r' : string) :
  customizations prefix item r = Ok r' -> extends r r'.
Proof.
  unfold customizations. intros H. inv_binds H.
  destruct x0.
  - inv_bind H. revert H. apply forEach_extends.
    clear. intros c r r' H. inv_binds H. injection H as <-. apply extends_app.
  - injection H as <-. apply extends_refl.
Qed.

Lemma bill_item_extends (item : value) (r r' : string) :
  bill_item item r = Ok r' -> extends r r'.
Proof.
  unfold bill_item. intros H. inv_binds H.
  apply customizations_extends in H.
  eapply extends_trans; [apply extends_app | exact H].
Qed.

Lemma kot_item_extends (item : value) (r r' : string) :
  kot_item item r = Ok r' -> extends r r'.
Proof.
  unfold kot_item. intros H. inv_binds H.
  apply customizations_extends in H.
  eapply extends_trans; [apply extends_app | exact H].
Qed.

(** ** Layout of a two-column row *)

(** C6, as stated, fails at the boundary: two texts of 20 characters have a
    combined length of 40, which does not exceed 40, and yet the row gets the
    single space and is 41 columns wide, not within 40. *)
Lemma twoCol_full_row_overflows :
  let left := "12345678901234567890" in
  let right := "ABCDEFGHIJKLMNOPQRST" in
  String.length left + String.length right = 40 /\
  exists row,
    twoCol (VStr left) (VStr right) 40 = Ok (row ++ Str.LF) /\
    row = left ++ " " ++ right /\
    String.length row = 41.
Proof.
  cbv zeta. split; [reflexivity|].
  exists "12345678901234567890 ABCDEFGHIJKLMNOPQRST".
  split; [vm_compute; reflexivity|]. split; reflexivity.
Qed.

(** C6, amended: [twoCol(left, right, 40)] is [left], a gap of spaces,
    [right] and a line feed, and neither text is cut.  When the two texts
    are together at most 39 characters long the gap is what is left of the
    40 columns, at least one space, and the row is exactly 40 columns wide,
    left flush left and right flush right.  When they are together 40
    characters long or longer the gap is exactly one space and the row is
    [len left + len right + 1] wide, more than 40.  In both cases the row
    (without the line feed) is at least [len left + len right + 1] long. *)
Theorem twoCol_layout (left right : string) :
  let l := String.length left in
  let r := String.length right in
  let gap := if (l + r <? 40)%nat then 40 - (l + r) else 1 in
  let row := left ++ Str.repeat " " gap ++ right in
  twoCol (VStr left) (VStr right) 40 = Ok (row ++ Str.LF) /\
  1 <= gap /\
  (l + r <= 39 -> String.length row = 40) /\
  (40 <= l + r ->
   row = left ++ " " ++ right /\ String.length row = l + r + 1 /\
   40 < String.length row) /\
  l + r + 1 <= String.length row.
Proof.
  cbv zeta. unfold twoCol, to_string. cbn [convertible show bind].
  set (l := String.length left). set (r := String.length right).
  assert (Hlen : String.length
                   (left ++ Str.repeat " " (if (l + r <? 40)%nat then 40 - (l + r) else 1)
                    ++ right)
                 = Nat.max 40 (l + r + 1)).
  { rewrite !length_append, length_spaces. fold l r.
    destruct (Nat.ltb_spec (l + r) 40); lia. }
  split; [|split; [|split; [|split]]].
  - f_equal. destruct (Z.gtb_spec (40 - Z.of_nat l - Z.of_nat r) 0) as [H|H];
      destruct (Nat.ltb_spec (l + r) 40) as [H'|H']; try lia.
    + replace (Z.to_nat (40 - Z.of_nat l - Z.of_nat r)) with (40 - (l + r)) by lia.
      now rewrite !append_assoc.
    + cbn [Str.repeat]. now rewrite !append_assoc.
  - destruct (Nat.ltb_spec (l + r) 40); lia.
  - intros H. rewrite Hlen. lia.
  - intros H. rewrite Hlen.
    destruct (Nat.ltb_spec (l + r) 40) as [H'|_]; [lia|].
    split; [reflexivity|]. lia.
  - rewrite Hlen. lia.
Qed.

Lemma twoCol_layout_witness :
  twoCol (VStr "TOTAL:") (VStr "Rs 110") 40
  = Ok ("TOTAL:                            Rs 110" ++ Str.LF) /\
  twoCol (VStr "12345678901234567890") (VStr "ABCDEFGHIJKLMNOPQRSTU") 40
  = Ok ("12345678901234567890 ABCDEFGHIJKLMNOPQRSTU" ++ Str.LF).
Proof.
  split.
  - apply (twoCol_layout "TOTAL:" "Rs 110").
  - apply (twoCol_layout "12345678901234567890" "ABCDEFGHIJKLMNOPQRSTU").
Defined.

(** ** Framing of the documents *)

Lemma framed_intro (r doc : string) :
  extends ("" ++ CMD.INIT) r -> doc = (r ++ CMD.FEED3) ++ CMD.CUT -> framed doc.
Proof.
  intros [t ->] ->. exists t. cbn [append]. now rewrite !append_assoc.
Qed.

(** Walks back through the [r += ...] steps to the start of the text. *)
Ltac grow :=
  repeat first
    [ apply extends_refl
    | eassumption
    | eapply extends_trans; [|apply extends_app]
    | eapply extends_trans; [|eassumption] ].

Ltac loops :=
  repeat match goal with
  | H : forEach _ bill_item _ = Ok _ |- _ =>
      apply forEach_extends in H; [|exact bill_item_extends]
  | H : forEach _ kot_item _ = Ok _ |- _ =>
      apply forEach_extends in H; [|exact kot_item_extends]
  | H : (if ?b then _ else Ok _) = Ok _ |- _ =>
      destruct b; [inv_binds H|]; inv_ok H
  end.

Lemma bill_framed now orderId kot_code KDSInvoiceId orderDetails orderType td doc :
  buildBillEscPos now orderId kot_code KDSInvoiceId orderDetails orderType td = Ok doc ->
  framed doc.
Proof.
  unfold buildBillEscPos. intros H. inv_binds H.
  inv_ok H. loops.
  all: eapply framed_intro; [|reflexivity]; grow.
Qed.

Lemma food_framed now orderId kot_code KDSInvoiceId orderDetails doc :
  buildFoodKOTEscPos now orderId kot_code KDSInvoiceId orderDetails = Ok (Some doc) ->
  framed doc.
Proof.
  unfold buildFoodKOTEscPos. intros H. inv_bind H.
  destruct (Nat.eqb _ 0); [discriminate|]. inv_binds H.
  apply Ok_inj in H. injection H as <-. loops.
  eapply framed_intro; [|reflexivity]; grow.
Qed.

Lemma coffee_framed now orderId kot_code KDSInvoiceId orderDetails doc :
  buildCoffeeKOTEscPos now orderId kot_code KDSInvoiceId orderDetails = Ok (Some doc) ->
  framed doc.
Proof.
  unfold buildCoffeeKOTEscPos. intros H. inv_bind H.
  destruct (Nat.eqb _ 0); [discriminate|]. inv_binds H.
  apply Ok_inj in H. injection H as <-. loops.
  eapply framed_intro; [|reflexivity]; grow.
Qed.

(** ** Plain data never makes a conversion throw *)

Lemma plain_convertible : forall v, plain v = true -> convertible v = true.
Proof.
  fix IH 1. intros [| | b | x | s | l | props]; simpl; try reflexivity.
  - intros H. induction l as [|e l IHl]; simpl in *; [reflexivity|].
    apply andb_true_iff in H as [H1 H2]. rewrite (IH e H1). now apply IHl.
  - intros H. now apply andb_true_iff in H as [H _].
Qed.

Lemma to_string_plain (v : value) : plain v = true -> to_string v = Ok (show v).
Proof.
  intros H. unfold to_string. now rewrite plain_convertible.
Qed.

Lemma to_number_plain (v : value) :
  plain v = true -> exists x, to_number v = Ok x.
Proof.
  intros H. destruct v; simpl; eauto.
  all: rewrite to_string_plain by exact H; simpl; eauto.
Qed.

Lemma lookup_plain (key : string) (props : list (string * value)) (x : value) :
  forallb (fun kv => plain (snd kv)) props = true ->
  lookup key props = Some x -> plain x = true.
Proof.
  induction props as [|[k v] props IH]; simpl; [discriminate|].
  intros H. apply andb_true_iff in H as [Hv Hrest].
  destruct (k =? key)%string; [intros [= <-]; exact Hv | now apply IH].
Qed.

Lemma plain_prop (v : value) (key : string) :
  plain v = true -> plain (prop v key) = true.
Proof.
  unfold prop. destruct v; simpl; try reflexivity.
  - now destruct (key =? "length")%string.
  - now destruct (key =? "length")%string.
  - intros H. apply andb_true_iff in H as [_ H].
    destruct (lookup key props) eqn:E; [|reflexivity].
    eapply lookup_plain; eassumption.
Qed.

Lemma plain_elems (l : list value) :
  plain (VArr l) = true -> forall x, In x l -> plain x = true.
Proof.
  simpl. intros H. now apply forallb_forall.
Qed.

Lemma get_prop (v : value) (key : string) :
  non_nullish v = true -> get v key = Ok (prop v key).
Proof.
  unfold prop. now destruct v.
Qed.

Lemma truthy_non_nullish (v : value) : to_boolean v = true -> non_nullish v = true.
Proof. now destruct v. Qed.

Lemma padEnd_plain (v : value) (len : nat) :
  plain v = true -> exists s, padEnd v len = Ok s.
Proof.
  intros H. unfold padEnd. rewrite to_string_plain by exact H. simpl. eauto.
Qed.

(** ** The loops run to their end on well-formed items *)

Lemma forEach_total (body : value -> string -> result string) (l : list value) :
  (forall x, In x l -> forall r, exists r', body x r = Ok r') ->
  forall r, exists r', forEach l body r = Ok r'.
Proof.
  induction l as [|x l IH]; simpl; intros Hbody r; [eauto|].
  destruct (Hbody x (or_introl eq_refl) r) as [r1 ->]. simpl.
  apply IH. intros y Hy. apply Hbody. now right.
Qed.

Lemma customizations_total (prefix : string) (item : value) (r : string) :
  non_nullish item = true -> plain item = true ->
  customizations_ok (prop item "selectedCustomizations") = true ->
  exists r', customizations prefix item r = Ok r'.
Proof.
  intros Hnn Hplain Hok. unfold customizations.
  rewrite (get_prop item) by exact Hnn. cbn [bind].
  pose proof (plain_prop item "selectedCustomizations" Hplain) as Hsc.
  set (sc := prop item "selectedCustomizations") in *.
  unfold customizations_ok, has_positive_length, gt_num in Hok.
  destruct (to_boolean sc) eqn:Hb; cbn [bind andb] in *; [|eauto].
  rewrite (get_prop sc) by now apply truthy_non_nullish. cbn [bind].
  unfold gt_num.
  destruct (to_number_plain (prop sc "length")) as [n Hn];
    [now apply plain_prop|].
  rewrite Hn in *. cbn [bind] in *.
  destruct (Num.gtb n Num.zero); [|eauto].
  destruct sc as [| | | | |cs|]; try discriminate. cbn [array_elems bind].
  apply forEach_total. intros c Hc r0.
  assert (Hcn : non_nullish c = true) by (eapply forallb_forall in Hok; eassumption).
  assert (Hcp : plain c = true) by (eapply plain_elems; eassumption).
  rewrite (get_prop c) by exact Hcn. cbn [bind]. unfold or_else.
  destruct (to_boolean (prop c "name")); cbn [bind].
  - rewrite to_string_plain by now apply plain_prop. cbn [bind]. eauto.
  - rewrite to_string_plain by exact Hcp. cbn [bind]. eauto.
Qed.

Lemma kot_item_total (item : value) (r : string) :
  plain item = true -> item_ok item = true ->
  exists r', kot_item item r = Ok r'.
Proof.
  intros Hplain Hok. apply andb_true_iff in Hok as [Hnn Hsc].
  unfold kot_item. rewrite !(get_prop item) by exact Hnn. cbn [bind].
  destruct (padEnd_plain (prop item "quantity") 5) as [q ->];
    [now apply plain_prop|]. cbn [bind].
  rewrite to_string_plain by now apply plain_prop. cbn [bind].
  now apply customizations_total.
Qed.

Lemma bill_item_total (item : value) (r : string) :
  plain item = true -> item_ok item = true ->
  exists r', bill_item item r = Ok r'.
Proof.
  intros Hplain Hok. apply andb_true_iff in Hok as [Hnn Hsc].
  unfold bill_item, mul. rewrite !(get_prop item) by exact Hnn. cbn [bind].
  destruct (to_number_plain (prop item "price")) as [p ->];
    [now apply plain_prop|].
  destruct (to_number_plain (prop item "quantity")) as [q ->];
    [now apply plain_prop|]. cbn [bind].
  destruct (padEnd_plain (prop item "itemName") 22) as [nm ->];
    [now apply plain_prop|]. cbn [bind].
  rewrite to_string_plain by now apply plain_prop. cbn [bind].
  unfold padEnd, padStart, to_string. cbn [convertible bind].
  now apply customizations_total.
Qed.

(** ** Classification of the items *)

Lemma is_food_spec (item : value) (b : bool) :
  is_food item = Ok b -> b = negb (coffee_category item).
Proof.
  unfold is_food, coffee_category, prop. intros H. inv_bind H.
  rewrite E. now injection H as <-.
Qed.

Lemma is_coffee_spec (item : value) (b : bool) :
  is_coffee item = Ok b -> b = coffee_category item.
Proof.
  unfold is_coffee, coffee_category, prop. intros H. inv_bind H.
  rewrite E. now injection H as <-.
Qed.

Lemma filter_spec (pred : value -> result bool) (f : value -> bool) :
  (forall x b, pred x = Ok b -> b = f x) ->
  forall l kept, filter l pred = Ok kept -> kept = List.filter f l.
Proof.
  intros Hpred. induction l as [|x l IH]; simpl; intros kept H.
  - now injection H as <-.
  - inv_binds H. injection H as <-.
    rewrite <- (Hpred _ _ E), <- (IH _ E0). reflexivity.
Qed.

Lemma filter_total (pred : value -> result bool) (f : value -> bool) (l : list value) :
  (forall x, In x l -> pred x = Ok (f x)) ->
  filter l pred = Ok (List.filter f l).
Proof.
  induction l as [|x l IH]; simpl; intros H; [reflexivity|].
  rewrite (H x) by now left. cbn [bind].
  rewrite IH by (intros y Hy; apply H; now right). reflexivity.
Qed.

(** The items the filters walk are the items of the order. *)
Lemma filter_items_order (orderDetails : value) (pred : value -> result bool)
    (kept : list value) :
  filter_items orderDetails pred = Ok kept ->
  filter (order_items orderDetails) pred = Ok kept.
Proof.
  unfold filter_items. intros H. inv_binds H.
  unfold items_or_empty in E. inv_bind E. unfold or_else in E.
  unfold order_items, prop. rewrite E1.
  destruct (to_boolean x1) eqn:Hx; injection E as <-.
  - destruct x1; try discriminate. injection E0 as <-. exact H.
  - injection E0 as <-. destruct x1; try discriminate; exact H.
Qed.

Lemma filter_items_wf (orderDetails : value) (pred : value -> result bool) :
  non_nullish orderDetails = true -> items_ok orderDetails = true ->
  filter_items orderDetails pred = filter (order_items orderDetails) pred.
Proof.
  intros Hnn Hok. unfold items_ok in Hok.
  unfold filter_items. unfold items_or_empty. unfold order_items.
  rewrite get_prop by exact Hnn. cbn [bind]. unfold or_else.
  destruct (to_boolean (prop orderDetails "items")) eqn:Hb; cbn [bind].
  - destruct (prop orderDetails "items"); try discriminate. reflexivity.
  - destruct (prop orderDetails "items"); try discriminate; reflexivity.
Qed.

Lemma partition_permutation (f : value -> bool) (l : list value) :
  Permutation l (List.filter (fun x => negb (f x)) l ++ List.filter f l).
Proof.
  induction l as [|x l IH]; simpl; [constructor|].
  destruct (f x); simpl.
  - now apply Permutation_cons_app.
  - now constructor.
Qed.

(** C4: when the two filters run, the food ticket keeps the items whose
    [categoryId] is not the coffee constant and the coffee ticket those whose
    [categoryId] is that very string; the two lists together are the items of
    the order, each item in exactly one of them. *)
Theorem classification_partition (orderDetails : value) (foods coffees : list value) :
  filter_items orderDetails is_food = Ok foods ->
  filter_items orderDetails is_coffee = Ok coffees ->
  foods = food_items orderDetails /\
  coffees = coffee_items orderDetails /\
  Permutation (order_items orderDetails) (foods ++ coffees) /\
  (forall item, In item (order_items orderDetails) ->
     (In item foods /\ ~ In item coffees
      /\ prop item "categoryId" <> VStr COFFEE_CATEGORY_ID)
     \/ (In item coffees /\ ~ In item foods
         /\ prop item "categoryId" = VStr COFFEE_CATEGORY_ID)).
Proof.
  intros Hf Hc.
  apply filter_items_order in Hf, Hc.
  apply (filter_spec _ _ is_food_spec) in Hf.
  apply (filter_spec _ _ is_coffee_spec) in Hc.
  subst foods coffees. fold (food_items orderDetails) (coffee_items orderDetails).
  split; [reflexivity|]. split; [reflexivity|].
  split; [apply partition_permutation|].
  intros item Hin. unfold food_items, coffee_items.
  rewrite !filter_In.
  destruct (coffee_category item) eqn:Hcat; [right|left].
  - unfold coffee_category, strict_eq_str in Hcat.
    destruct (prop item "categoryId") as [| | | |t| |]; try discriminate.
    apply String.eqb_eq in Hcat. subst t.
    repeat split; auto. intros [_ H]. discriminate.
  - repeat split; auto.
    + intros [_ H]. discriminate.
    + intros Heq. unfold coffee_category in Hcat. rewrite Heq in Hcat.
      cbn [strict_eq_str] in Hcat. now rewrite String.eqb_refl in Hcat.
Qed.

(** No normalization: the same identifier in capitals, or with a space after
    it, is not the coffee category. *)
Example coffee_category_is_exact :
  coffee_category (VObj [("categoryId", VStr "6868ca5dc29c8ed4d3c98dd8")]) = true /\
  coffee_category (VObj [("categoryId", VStr "6868CA5DC29C8ED4D3C98DD8")]) = false /\
  coffee_category (VObj [("categoryId", VStr "6868ca5dc29c8ed4d3c98dd8 ")]) = false /\
  coffee_category (VObj [("itemName", VStr "Filter Coffee")]) = false.
Proof. repeat split. Qed.

Lemma classification_partition_witness :
  filter_items Sample.order is_food = Ok [Sample.dosa] /\
  filter_items Sample.order is_coffee = Ok [Sample.coffee] /\
  Permutation (order_items Sample.order) ([Sample.dosa] ++ [Sample.coffee]).
Proof.
  split; [reflexivity|]. split; [reflexivity|].
  apply (classification_partition Sample.order [Sample.dosa] [Sample.coffee]);
    reflexivity.
Defined.

(** ** The kitchen tickets on well-formed orders *)

Lemma to_string_str (s : string) : to_string (VStr s) = Ok s.
Proof. reflexivity. Qed.

Lemma or_else_default (a d : value) :
  or_else a (Ok d) = Ok (if to_boolean a then a else d).
Proof. unfold or_else. now destruct (to_boolean a). Qed.

Lemma plain_default (a : value) (d : string) :
  plain a = true -> plain (if to_boolean a then a else VStr d) = true.
Proof. now destruct (to_boolean a). Qed.

Lemma wf_order_items (orderDetails : value) :
  wf_order orderDetails = true ->
  forall item, In item (order_items orderDetails) ->
    non_nullish item = true /\ plain item = true /\ item_ok item = true.
Proof.
  unfold wf_order, items_ok, order_items. intros H item Hin.
  apply andb_true_iff in H as [H Hitems]. apply andb_true_iff in H as [_ Hplain].
  pose proof (plain_prop orderDetails "items" Hplain) as Hp.
  destruct (prop orderDetails "items") as [| | | | |l|]; try contradiction.
  cbn [to_boolean] in Hitems.
  assert (Hok : item_ok item = true) by (eapply forallb_forall in Hitems; eassumption).
  split; [|split]; [|eapply plain_elems; eassumption|exact Hok].
  now apply andb_true_iff in Hok as [Hok _].
Qed.

Lemma wf_order_parts (orderDetails : value) :
  wf_order orderDetails = true ->
  non_nullish orderDetails = true /\ plain orderDetails = true
  /\ items_ok orderDetails = true.
Proof.
  unfold wf_order. intros H.
  apply andb_true_iff in H as [H H3]. apply andb_true_iff in H as [H1 H2]. auto.
Qed.

Lemma food_filter_wf (orderDetails : value) :
  wf_order orderDetails = true ->
  filter_items orderDetails is_food = Ok (food_items orderDetails).
Proof.
  intros Hwf. destruct (wf_order_parts _ Hwf) as (Hnn & _ & Hok).
  rewrite filter_items_wf by assumption. apply filter_total.
  intros x Hx. destruct (wf_order_items _ Hwf x Hx) as (Hx1 & _).
  unfold is_food, coffee_category. now rewrite get_prop.
Qed.

Lemma coffee_filter_wf (orderDetails : value) :
  wf_order orderDetails = true ->
  filter_items orderDetails is_coffee = Ok (coffee_items orderDetails).
Proof.
  intros Hwf. destruct (wf_order_parts _ Hwf) as (Hnn & _ & Hok).
  rewrite filter_items_wf by assumption. apply filter_total.
  intros x Hx. destruct (wf_order_items _ Hwf x Hx) as (Hx1 & _).
  unfold is_coffee, coffee_category. now rewrite get_prop.
Qed.

Lemma kot_loop_total (orderDetails : value) (f : value -> bool) (r : string) :
  wf_order orderDetails = true ->
  exists r', forEach (List.filter f (order_items orderDetails)) kot_item r = Ok r'.
Proof.
  intros Hwf. apply forEach_total. intros x Hx r0.
  apply filter_In in Hx as [Hx _].
  destruct (wf_order_items _ Hwf x Hx) as (_ & Hp & Hok).
  now apply kot_item_total.
Qed.

(** The steps shared by the two ticket builders once the filter has kept
    something. *)
Ltac ticket_steps Hnn Hplain :=
  cbv zeta; cbn [call_slice_from call_slice bind];
  rewrite ?to_string_str; cbn [bind];
  rewrite !(get_prop _ _ Hnn); cbn [bind];
  rewrite !or_else_default; cbn [bind];
  rewrite !to_string_plain by (apply plain_default; apply plain_prop; exact Hplain);
  cbn [bind].

Lemma food_ticket_wf now orderId kot_code KDSInvoiceId orderDetails :
  wf_order orderDetails = true ->
  is_string orderId = true -> is_string kot_code = true ->
  (food_items orderDetails = []
   /\ buildFoodKOTEscPos now orderId kot_code KDSInvoiceId orderDetails = Ok None)
  \/ (food_items orderDetails <> []
      /\ exists doc,
           buildFoodKOTEscPos now orderId kot_code KDSInvoiceId orderDetails
           = Ok (Some doc)).
Proof.
  intros Hwf Hid Hkot. destruct (wf_order_parts _ Hwf) as (Hnn & Hplain & _).
  unfold buildFoodKOTEscPos. rewrite food_filter_wf by exact Hwf. cbn [bind].
  destruct (food_items orderDetails) as [|x l] eqn:Hitems; [left; now split|].
  right. split; [discriminate|]. cbn [List.length Nat.eqb].
  destruct orderId; try discriminate. destruct kot_code; try discriminate.
  ticket_steps Hnn Hplain.
  match goal with
  | |- context [forEach _ kot_item ?r] =>
      rewrite <- Hitems; unfold food_items;
      destruct (kot_loop_total orderDetails
                  (fun item => negb (coffee_category item)) r Hwf) as [r' ->]
  end.
  cbn [bind]. eauto.
Qed.

Lemma coffee_ticket_wf now orderId kot_code KDSInvoiceId orderDetails :
  wf_order orderDetails = true ->
  is_string orderId = true -> is_string kot_code = true ->
  (coffee_items orderDetails = []
   /\ buildCoffeeKOTEscPos now orderId kot_code KDSInvoiceId orderDetails = Ok None)
  \/ (coffee_items orderDetails <> []
      /\ exists doc,
           buildCoffeeKOTEscPos now orderId kot_code KDSInvoiceId orderDetails
           = Ok (Some doc)).
Proof.
  intros Hwf Hid Hkot. destruct (wf_order_parts _ Hwf) as (Hnn & Hplain & _).
  unfold buildCoffeeKOTEscPos. rewrite coffee_filter_wf by exact Hwf. cbn [bind].
  destruct (coffee_items orderDetails) as [|x l] eqn:Hitems; [left; now split|].
  right. split; [discriminate|]. cbn [List.length Nat.eqb].
  destruct orderId; try discriminate. destruct kot_code; try discriminate.
  ticket_steps Hnn Hplain.
  match goal with
  | |- context [forEach _ kot_item ?r] =>
      rewrite <- Hitems; unfold coffee_items;
      destruct (kot_loop_total orderDetails coffee_category r Hwf) as [r' ->]
  end.
  cbn [bind]. eauto.
Qed.

Lemma coffee_category_spec (item : value) :
  coffee_category item = true <-> prop item "categoryId" = VStr COFFEE_CATEGORY_ID.
Proof.
  unfold coffee_category, strict_eq_str. split.
  - destruct (prop item "categoryId"); try discriminate.
    intros H. apply String.eqb_eq in H. now subst.
  - intros ->. apply String.eqb_refl.
Qed.

Lemma filter_nil_iff (f : value -> bool) (l : list value) :
  List.filter f l = [] <-> forall x, In x l -> f x = false.
Proof.
  induction l as [|x l IH]; simpl.
  - split; [intros _ y [] | reflexivity].
  - destruct (f x) eqn:Hx.
    + split; [discriminate|]. intros H. rewrite (H x) in Hx by now left. discriminate.
    + rewrite IH. split.
      * intros H y [<-|Hy]; auto.
      * intros H y Hy. apply H. now right.
Qed.

(** C1: on an order record with string identifiers, the food ticket builder
    returns null exactly when every item carries the coffee category
    constant, the coffee ticket builder returns null exactly when no item
    does, and a builder that does not return null returns a document. *)
Theorem ticket_null_iff now orderId kot_code KDSInvoiceId orderDetails :
  wf_order orderDetails = true ->
  is_string orderId = true -> is_string kot_code = true ->
  let food := buildFoodKOTEscPos now orderId kot_code KDSInvoiceId orderDetails in
  let coffee := buildCoffeeKOTEscPos now orderId kot_code KDSInvoiceId orderDetails in
  (food = Ok None <->
     forall item, In item (order_items orderDetails) ->
       prop item "categoryId" = VStr COFFEE_CATEGORY_ID) /\
  (coffee = Ok None <->
     forall item, In item (order_items orderDetails) ->
       prop item "categoryId" <> VStr COFFEE_CATEGORY_ID) /\
  (food = Ok None \/ exists doc, food = Ok (Some doc)) /\
  (coffee = Ok None \/ exists doc, coffee = Ok (Some doc)).
Proof.
  intros Hwf Hid Hkot food coffee.
  pose proof (food_ticket_wf now orderId kot_code KDSInvoiceId orderDetails Hwf Hid Hkot) as Hf.
  pose proof (coffee_ticket_wf now orderId kot_code KDSInvoiceId orderDetails Hwf Hid Hkot) as Hc.
  fold food in Hf. fold coffee in Hc.
  assert (Hfood : food_items orderDetails = [] <->
                  forall item, In item (order_items orderDetails) ->
                    prop item "categoryId" = VStr COFFEE_CATEGORY_ID).
  { unfold food_items. rewrite filter_nil_iff.
    split; intros H x Hx; specialize (H x Hx).
    - apply coffee_category_spec. now destruct (coffee_category x).
    - apply coffee_category_spec in H. now rewrite H. }
  assert (Hcoffee : coffee_items orderDetails = [] <->
                    forall item, In item (order_items orderDetails) ->
                      prop item "categoryId" <> VStr COFFEE_CATEGORY_ID).
  { unfold coffee_items. rewrite filter_nil_iff.
    split; intros H x Hx; specialize (H x Hx).
    - intros Heq. apply coffee_category_spec in Heq. congruence.
    - destruct (coffee_category x) eqn:E; [|reflexivity].
      apply coffee_category_spec in E. contradiction. }
  repeat split.
  - intros H. apply Hfood. destruct Hf as [[Hn _]|[_ [doc Hd]]]; [exact Hn|congruence].
  - intros H. apply Hfood in H. destruct Hf as [[_ Hn]|[Hne _]]; [exact Hn|contradiction].
  - intros H. apply Hcoffee. destruct Hc as [[Hn _]|[_ [doc Hd]]]; [exact Hn|congruence].
  - intros H. apply Hcoffee in H. destruct Hc as [[_ Hn]|[Hne _]]; [exact Hn|contradiction].
  - destruct Hf as [[_ Hn]|[_ Hd]]; [now left | now right].
  - destruct Hc as [[_ Hn]|[_ Hd]]; [now left | now right].
Qed.

Lemma ticket_null_iff_witness :
  wf_order Sample.order = true /\
  is_string Sample.orderId = true /\ is_string Sample.kot_code = true /\
  (buildFoodKOTEscPos Sample.now Sample.orderId Sample.kot_code VUndefined Sample.order
     = Ok None <->
   forall item, In item (order_items Sample.order) ->
     prop item "categoryId" = VStr COFFEE_CATEGORY_ID).
Proof.
  split; [reflexivity|]. split; [reflexivity|]. split; [reflexivity|].
  apply (ticket_null_iff Sample.now Sample.orderId Sample.kot_code VUndefined
           Sample.order); reflexivity.
Defined.

(** C8: a document returned by any of the three builders begins with the
    printer reset (ESC '@') and ends with three line feeds directly followed
    by the paper cut (GS 'V' 0x41 0x00). *)
Theorem document_framing now orderId kot_code KDSInvoiceId orderDetails orderType
    transactionDetails doc :
  buildBillEscPos now orderId kot_code KDSInvoiceId orderDetails orderType
    transactionDetails = Ok doc
  \/ buildFoodKOTEscPos now orderId kot_code KDSInvoiceId orderDetails = Ok (Some doc)
  \/ buildCoffeeKOTEscPos now orderId kot_code KDSInvoiceId orderDetails = Ok (Some doc) ->
  exists body,
    doc = Str.chr 27 ++ "@" ++ body
          ++ Str.chr 10 ++ Str.chr 10 ++ Str.chr 10
          ++ Str.chr 29 ++ "V" ++ Str.chr 65 ++ Str.chr 0.
Proof.
  intros H.
  assert (Hframed : framed doc).
  { destruct H as [H|[H|H]].
    - eapply bill_framed; eassumption.
    - eapply food_framed; eassumption.
    - eapply coffee_framed; eassumption. }
  destruct Hframed as [body ->]. exists body. reflexivity.
Qed.

Lemma document_framing_witness :
  exists doc,
    buildFoodKOTEscPos Sample.now Sample.orderId Sample.kot_code VUndefined Sample.order
      = Ok (Some doc) /\
    exists body,
      doc = Str.chr 27 ++ "@" ++ body
            ++ Str.chr 10 ++ Str.chr 10 ++ Str.chr 10
            ++ Str.chr 29 ++ "V" ++ Str.chr 65 ++ Str.chr 0.
Proof.
  eexists. split; [vm_compute; reflexivity|].
  apply (document_framing Sample.now Sample.orderId Sample.kot_code VUndefined
           Sample.order VUndefined VUndefined).
  right. left. vm_compute. reflexivity.
Defined.

(** ** Lines of the bill *)

Lemma occurs_end (line a : string) : occurs line (a ++ line).
Proof. exists a, "". now rewrite append_nil_r. Qed.

Lemma occurs_left (line a b : string) : occurs line a -> occurs line (a ++ b).
Proof.
  intros (pre & post & ->). exists pre, (post ++ b). now rewrite !append_assoc.
Qed.

Lemma occurs_extends (line r r' : string) :
  occurs line r -> extends r r' -> occurs line r'.
Proof. intros H [t ->]. now apply occurs_left. Qed.

(** [Str.contains] decides [occurs]. *)
Lemma substring_prefix (k : nat) (t s : string) :
  substring 0 k t = s -> String.length s = k -> exists post, t = s ++ post.
Proof.
  revert t s. induction k as [|k IH]; intros t s H Hlen.
  - destruct s; [|discriminate]. now exists t.
  - destruct t as [|c t]; simpl in H; subst s; [discriminate|].
    simpl in Hlen. injection Hlen as Hlen.
    destruct (IH t _ eq_refl Hlen) as [post Hpost].
    exists post. simpl. now rewrite <- Hpost.
Qed.

Lemma substring_occurs (m k : nat) (t s : string) :
  substring m k t = s -> String.length s = k -> occurs s t.
Proof.
  revert t. induction m as [|m IH]; intros t H Hlen.
  - destruct (substring_prefix k t s H Hlen) as [post ->]. now exists "", post.
  - destruct t as [|c t].
    + assert (s = "") as -> by (destruct k; simpl in H; now subst).
      now exists "", "".
    + simpl in H. destruct (IH t H Hlen) as (pre & post & ->).
      now exists (String c pre), post.
Qed.

Lemma substring_at (pre s post : string) :
  substring (String.length pre) (String.length s) (pre ++ s ++ post) = s.
Proof.
  induction pre as [|c pre IH]; simpl; [|exact IH].
  induction s as [|c s IH]; simpl.
  - now destruct post.
  - now rewrite IH.
Qed.

Lemma contains_occurs (s t : string) : Str.contains s t = true -> occurs s t.
Proof.
  unfold Str.contains. destruct (index 0 s t) as [m|] eqn:E; [|discriminate].
  intros _. apply index_correct1 in E.
  eapply substring_occurs; [exact E|reflexivity].
Qed.

Lemma contains_absent (s t : string) :
  s <> "" -> Str.contains s t = false -> ~ occurs s t.
Proof.
  unfold Str.contains. destruct (index 0 s t) as [m|] eqn:E; [discriminate|].
  intros Hs _ (pre & post & ->).
  apply (index_correct3 0 (String.length pre) s _ E Hs (Nat.le_0_l _)).
  apply substring_at.
Qed.

Lemma to_string_show (v : value) (s : string) : to_string v = Ok s -> s = show v.
Proof.
  unfold to_string. destruct (convertible v); [|discriminate]. now intros [= <-].
Qed.

Lemma get_ok_prop (v : value) (key : string) (x : value) :
  get v key = Ok x -> x = prop v key.
Proof. unfold prop. now intros ->. Qed.

Lemma or_else_get (a v : value) (key : string) (x : value) :
  or_else a (get v key) = Ok x -> x = truthy_or a (prop v key).
Proof.
  unfold or_else, truthy_or. destruct (to_boolean a).
  - now intros [= <-].
  - apply get_ok_prop.
Qed.

Lemma or_else_ok (a d x : value) : or_else a (Ok d) = Ok x -> x = truthy_or a d.
Proof.
  unfold or_else, truthy_or. destruct (to_boolean a); now intros [= <-].
Qed.

(** Reads the values bound along a run of a builder back from its steps. *)
Ltac read_steps :=
  repeat match goal with
  | H : to_string _ = Ok _ |- _ => apply to_string_show in H
  | H : or_else _ (get _ _) = Ok _ |- _ => apply or_else_get in H
  | H : or_else _ (Ok _) = Ok _ |- _ => apply or_else_ok in H
  | H : get _ _ = Ok _ |- _ => apply get_ok_prop in H
  end;
  subst.

(** Looks for a line among the [r += ...] steps, latest first. *)
Ltac find_line :=
  repeat first
    [ apply occurs_end
    | apply occurs_left
    | eapply occurs_extends; [|eassumption] ].

(** C7, as stated, fails: an empty [orderType] is not missing, yet the bill
    shows [orderDetails.billType] and not the empty text the [??] chain
    selects. *)
Lemma empty_order_type_is_skipped :
  let orderDetails := VObj [("billType", VStr "TAKEAWAY"); ("subtotal", Sample.num 0);
                            ("tax", Sample.num 0); ("total", Sample.num 0)] in
  let chain := present_or (present_or (VStr "") (prop orderDetails "billType"))
                 (VStr "DINE IN") in
  exists doc,
    buildBillEscPos Sample.now Sample.orderId Sample.kot_code VUndefined orderDetails
      (VStr "") VUndefined = Ok doc /\
    chain = VStr "" /\
    ~ occurs ("TYPE    : " ++ show chain ++ Str.LF) doc /\
    occurs ("TYPE    : TAKEAWAY" ++ Str.LF) doc.
Proof.
  cbv zeta. eexists. split; [vm_compute; reflexivity|].
  split; [reflexivity|]. split.
  - apply contains_absent; [discriminate|]. vm_compute. reflexivity.
  - apply contains_occurs. vm_compute. reflexivity.
Qed.

(** C7, amended: the bill shows as order type the first truthy value among
    [orderType], [orderDetails.billType] and 'DINE IN' (the chain is [||],
    which skips the empty string, 0, NaN and false as well as what is
    missing), and as kiosk [orderDetails.kiosk] or, when that is falsy,
    'KTR1'. *)
Theorem bill_type_and_kiosk now orderId kot_code KDSInvoiceId orderDetails orderType
    transactionDetails doc :
  buildBillEscPos now orderId kot_code KDSInvoiceId orderDetails orderType
    transactionDetails = Ok doc ->
  let type := truthy_or (truthy_or orderType (prop orderDetails "billType"))
                (VStr "DINE IN") in
  let kiosk := truthy_or (prop orderDetails "kiosk") (VStr "KTR1") in
  occurs ("TYPE    : " ++ show type ++ Str.LF) doc /\
  occurs ("KIOSK   : " ++ show kiosk ++ Str.LF) doc.
Proof.
  unfold buildBillEscPos. intros H. inv_binds H. inv_ok H. loops.
  all: read_steps; cbv zeta; split; find_line.
Qed.

Lemma bill_type_and_kiosk_witness :
  exists doc,
    buildBillEscPos Sample.now Sample.orderId Sample.kot_code VUndefined Sample.order
      (VStr "") VUndefined = Ok doc /\
    occurs ("TYPE    : DINE IN" ++ Str.LF) doc /\
    occurs ("KIOSK   : KTR1" ++ Str.LF) doc.
Proof.
  eexists. split; [vm_compute; reflexivity|].
  apply (bill_type_and_kiosk Sample.now Sample.orderId Sample.kot_code VUndefined
           Sample.order (VStr "") VUndefined).
  vm_compute. reflexivity.
Defined.

(** ** The clock read by the builders *)

(** C3, as stated, fails: the same arguments give two different bills at two
    instants a day apart. *)
Lemma bill_differs_across_days :
  buildBillEscPos (Clock.mkDate 1793625000000 330)
    Sample.orderId Sample.kot_code VUndefined Sample.order VUndefined VUndefined
  <> buildBillEscPos (Clock.mkDate 1793711400000 330)
       Sample.orderId Sample.kot_code VUndefined Sample.order VUndefined VUndefined.
Proof.
  vm_compute. intros H. discriminate H.
Qed.

(** C3, amended: each builder is a function of its arguments and of the
    date-time text read from the clock, which it prints: invocations with
    identical arguments at instants that read as the same text return
    identical results. *)
Theorem builders_pure_up_to_clock now1 now2 orderId kot_code KDSInvoiceId
    orderDetails orderType transactionDetails :
  getDateTime now1 = getDateTime now2 ->
  let bill now :=
    buildBillEscPos now orderId kot_code KDSInvoiceId orderDetails orderType
      transactionDetails in
  let food now := buildFoodKOTEscPos now orderId kot_code KDSInvoiceId orderDetails in
  let coffee now := buildCoffeeKOTEscPos now orderId kot_code KDSInvoiceId orderDetails in
  bill now1 = bill now2 /\ food now1 = food now2 /\ coffee now1 = coffee now2 /\
  (forall doc, bill now1 = Ok doc ->
     occurs ("DATE    : " ++ getDateTime now1 ++ Str.LF) doc) /\
  (forall doc, food now1 = Ok (Some doc) \/ coffee now1 = Ok (Some doc) ->
     occurs ("DATE/TIME : " ++ getDateTime now1 ++ Str.LF) doc).
Proof.
  intros H. cbv zeta.
  split; [|split; [|split; [|split]]].
  - unfold buildBillEscPos. now rewrite H.
  - unfold buildFoodKOTEscPos. now rewrite H.
  - unfold buildCoffeeKOTEscPos. now rewrite H.
  - intros doc Hdoc. unfold buildBillEscPos in Hdoc. inv_binds Hdoc. inv_ok Hdoc.
    loops. all: find_line.
  - intros doc [Hdoc|Hdoc];
      [unfold buildFoodKOTEscPos in Hdoc | unfold buildCoffeeKOTEscPos in Hdoc].
    all: inv_bind Hdoc; destruct (Nat.eqb _ 0); [discriminate|]; inv_binds Hdoc.
    all: apply Ok_inj in Hdoc; injection Hdoc as <-; loops; find_line.
Qed.

Lemma builders_pure_up_to_clock_witness :
  getDateTime Sample.now = getDateTime (Clock.mkDate 1793625030000 330) /\
  buildBillEscPos Sample.now Sample.orderId Sample.kot_code VUndefined Sample.order
    VUndefined VUndefined
  = buildBillEscPos (Clock.mkDate 1793625030000 330) Sample.orderId Sample.kot_code
      VUndefined Sample.order VUndefined VUndefined.
Proof.
  split; [vm_compute; reflexivity|].
  apply (builders_pure_up_to_clock Sample.now (Clock.mkDate 1793625030000 330)
           Sample.orderId Sample.kot_code VUndefined Sample.order VUndefined VUndefined).
  vm_compute. reflexivity.
Defined.

(** ** When the bill is built *)

Lemma items_or_empty_wf (orderDetails : value) :
  non_nullish orderDetails = true -> items_ok orderDetails = true ->
  items_or_empty orderDetails = Ok (VArr (order_items orderDetails)).
Proof.
  intros Hnn Hok. unfold items_ok in Hok.
  unfold items_or_empty, order_items.
  rewrite get_prop by exact Hnn. cbn [bind]. unfold or_else.
  destruct (to_boolean (prop orderDetails "items")) eqn:Hb.
  - destruct (prop orderDetails "items"); try discriminate. reflexivity.
  - destruct (prop orderDetails "items"); try discriminate; reflexivity.
Qed.

Lemma bill_loop_total (orderDetails : value) (r : string) :
  wf_order orderDetails = true ->
  exists r', forEach (order_items orderDetails) bill_item r = Ok r'.
Proof.
  intros Hwf. apply forEach_total. intros x Hx r0.
  destruct (wf_order_items _ Hwf x Hx) as (_ & Hp & Hok).
  now apply bill_item_total.
Qed.

Lemma call_toFixed_ok (v : value) (f : nat) (s : string) :
  call_toFixed v f = Ok s -> is_number v = true.
Proof. now destruct v. Qed.

Lemma bill_needs_totals now orderId kot_code KDSInvoiceId orderDetails orderType td doc :
  buildBillEscPos now orderId kot_code KDSInvoiceId orderDetails orderType td = Ok doc ->
  is_number (prop orderDetails "subtotal") = true
  /\ is_number (prop orderDetails "total") = true.
Proof.
  unfold buildBillEscPos. intros H. inv_binds H.
  repeat match goal with
  | H : call_toFixed _ _ = Ok _ |- _ => apply call_toFixed_ok in H
  | H : get _ _ = Ok _ |- _ => apply get_ok_prop in H
  end.
  subst. split; assumption.
Qed.

Lemma bill_built now orderId kot_code KDSInvoiceId orderDetails orderType td :
  wf_order orderDetails = true ->
  plain orderId = true -> plain kot_code = true ->
  plain KDSInvoiceId = true -> plain orderType = true ->
  is_number (prop orderDetails "subtotal") = true ->
  is_number (prop orderDetails "total") = true ->
  exists doc,
    buildBillEscPos now orderId kot_code KDSInvoiceId orderDetails orderType td = Ok doc.
Proof.
  intros Hwf Hid Hkot Hkds Hty Hsub Htot.
  destruct (wf_order_parts _ Hwf) as (Hnn & Hplain & Hitems).
  unfold buildBillEscPos. cbv zeta.
  rewrite (to_string_plain kot_code) by exact Hkot. cbn [bind].
  rewrite (to_string_plain orderId) by exact Hid. cbn [bind].
  rewrite (to_string_plain KDSInvoiceId) by exact Hkds. cbn [bind].
  match goal with
  | |- context [bind (if ?b then Ok ?a else Ok ?c) _] =>
      replace (if b then Ok a else Ok c) with (Ok (if b then a else c))
        by (now destruct b)
  end.
  cbn [bind].
  assert (Hor : or_else orderType (get orderDetails "billType")
                = Ok (truthy_or orderType (prop orderDetails "billType"))).
  { unfold or_else, truthy_or. destruct (to_boolean orderType); [reflexivity|].
    now apply get_prop. }
  rewrite Hor. cbn [bind]. rewrite !(get_prop _ _ Hnn). cbn [bind].
  rewrite !or_else_default. cbn [bind].
  rewrite to_string_plain.
  2:{ apply plain_default. unfold truthy_or.
      destruct (to_boolean orderType); [exact Hty | now apply plain_prop]. }
  cbn [bind].
  rewrite to_string_plain by (apply plain_default; now apply plain_prop).
  cbn [bind]. unfold padEnd at 1 2, padStart at 1. rewrite !to_string_str.
  cbn [bind].
  rewrite (items_or_empty_wf _ Hnn Hitems).
  cbn [bind array_elems].
  match goal with
  | |- context [forEach _ bill_item ?r] =>
      destruct (bill_loop_total orderDetails r Hwf) as [r' ->]
  end.
  cbn [bind].
  destruct (prop orderDetails "subtotal"); try discriminate.
  destruct (prop orderDetails "total"); try discriminate.
  cbn [call_toFixed bind]. unfold twoCol. rewrite !to_string_str. cbn [bind].
  unfold div. cbn [to_number].
  destruct (to_number_plain (prop orderDetails "tax")) as [t ->];
    [now apply plain_prop|].
  cbn [bind]. rewrite !to_string_str. cbn [bind]. eauto.
Qed.




(** What the garbled text looks like: a line item without a price and with a
    quantity that is not a number, and an order without tax. *)
Example bill_garbled_rows :
  exists doc,
    buildBillEscPos Sample.now Sample.orderId Sample.kot_code VUndefined
      (VObj [("items", VArr [VObj [("itemName", VStr "Idli"); ("quantity", VStr "two")]]);
             ("subtotal", Sample.num 100); ("total", Sample.num 110)])
      VUndefined VUndefined = Ok doc /\
    Str.contains ("Idli                  two         Rs NaN" ++ Str.LF) doc = true /\
    Str.contains ("CGST 2.5%:                          +NaN" ++ Str.LF) doc = true.
Proof.
  eexists. split; [vm_compute; reflexivity|]. split; vm_compute; reflexivity.
Qed.

(** ** Amounts in fixed notation *)

Lemma string_of_uint_digits (d : Decimal.uint) :
  Str.forallb Str.is_digit (NilEmpty.string_of_uint d) = true.
Proof. induction d; simpl; auto. Qed.

Lemma digits_all (n : Z) : Str.forallb Str.is_digit (Num.digits n) = true.
Proof. apply string_of_uint_digits. Qed.

Lemma digits_nonempty (n : Z) : Num.digits n <> "".
Proof.
  unfold Num.digits. destruct (Z.to_N n) as [|p]; [discriminate|].
  cbn [N.to_uint]. pose proof (DecimalPos.Unsigned.to_uint_nonnil p) as H.
  destruct (Pos.to_uint p); [contradiction|discriminate..].
Qed.

Lemma forallb_append (f : ascii -> bool) (a b : string) :
  Str.forallb f (a ++ b) = Str.forallb f a && Str.forallb f b.
Proof.
  induction a as [|c a IH]; simpl; [reflexivity|].
  now rewrite IH, andb_assoc.
Qed.

Lemma forallb_zeros (n : nat) : Str.forallb Str.is_digit (Str.repeat "0" n) = true.
Proof. induction n as [|n IH]; simpl; auto. Qed.

Lemma length_zeros (n : nat) : String.length (Str.repeat "0" n) = n.
Proof. induction n as [|n IH]; simpl; auto. Qed.

Lemma take_drop (n : nat) (s : string) : substring 0 n s ++ Str.drop n s = s.
Proof.
  revert s. induction n as [|n IH]; intros [|c s]; simpl; try reflexivity.
  now rewrite IH.
Qed.

Lemma length_take (n : nat) (s : string) :
  n <= String.length s -> String.length (substring 0 n s) = n.
Proof.
  revert s. induction n as [|n IH]; intros [|c s]; simpl; intros H;
    try reflexivity; try lia.
  rewrite IH; lia.
Qed.

Lemma split_point_digits (a : string) :
  Str.forallb Str.is_digit a = true -> split_point a = (a, None).
Proof.
  induction a as [|c a IH]; simpl; [reflexivity|].
  intros H. apply andb_true_iff in H as [Hc Ha].
  destruct (c =? ".")%char eqn:E.
  - apply Ascii.eqb_eq in E. subst c. discriminate.
  - now rewrite IH.
Qed.

Lemma split_point_numeral (a b : string) :
  Str.forallb Str.is_digit a = true -> split_point (a ++ String "." b) = (a, Some b).
Proof.
  induction a as [|c a IH]; simpl; [reflexivity|].
  intros H. apply andb_true_iff in H as [Hc Ha].
  destruct (c =? ".")%char eqn:E.
  - apply Ascii.eqb_eq in E. subst c. discriminate.
  - now rewrite IH.
Qed.

Lemma digit_run_intro (a : string) :
  a <> "" -> Str.forallb Str.is_digit a = true -> digit_run a = true.
Proof.
  intros Hne Hd. unfold digit_run. rewrite Hd.
  destruct (String.eqb_spec a ""); [contradiction|reflexivity].
Qed.

Lemma not_minus_digits (a : string) :
  a <> "" -> Str.forallb Str.is_digit a = true ->
  forall rest, match (a ++ rest)%string with String "-" r => r | _ => (a ++ rest)%string end
               = (a ++ rest)%string.
Proof.
  destruct a as [|c a]; [contradiction|]. simpl. intros _ H rest.
  apply andb_true_iff in H as [Hc _].
  destruct c as [[] [] [] [] [] [] [] []]; try reflexivity; discriminate.
Qed.

(** The digits of [n] with the point before the last [f]: a run of digits,
    the point, and [f] digits. *)
Lemma fixed_digits_shape (n : Z) (f : nat) :
  0 < f ->
  exists a b, Num.fixed_digits n f = a ++ "." ++ b
    /\ a <> "" /\ Str.forallb Str.is_digit a = true
    /\ Str.forallb Str.is_digit b = true /\ String.length b = f.
Proof.
  intros Hf. unfold Num.fixed_digits. destruct f as [|f]; [lia|].
  set (m := Num.digits n).
  set (m' := if (String.length m <=? S f)%nat
             then (Str.repeat "0" (S f + 1 - String.length m) ++ m)%string else m).
  assert (Hm : Str.forallb Str.is_digit m = true) by apply digits_all.
  assert (Hm' : Str.forallb Str.is_digit m' = true).
  { unfold m'. destruct (String.length m <=? S f)%nat; [|exact Hm].
    now rewrite forallb_append, forallb_zeros, Hm. }
  assert (Hlen : S f < String.length m').
  { unfold m'. destruct (Nat.leb_spec (String.length m) (S f)) as [H|H]; [|lia].
    rewrite length_append, length_zeros. lia. }
  exists (substring 0 (String.length m' - S f) m'),
         (Str.drop (String.length m' - S f) m').
  pose proof (take_drop (String.length m' - S f) m') as Hsplit.
  pose proof (length_take (String.length m' - S f) m' ltac:(lia)) as Htake.
  assert (Hall : Str.forallb Str.is_digit (substring 0 (String.length m' - S f) m') = true
                 /\ Str.forallb Str.is_digit (Str.drop (String.length m' - S f) m') = true).
  { rewrite <- Hsplit in Hm' at 1. rewrite forallb_append in Hm'.
    now apply andb_true_iff in Hm'. }
  destruct Hall as [Ha Hb].
  split; [reflexivity|]. split; [|split; [exact Ha|split; [exact Hb|]]].
  - intros E. rewrite E in Htake. simpl in Htake. lia.
  - apply (f_equal String.length) in Hsplit.
    rewrite length_append, Htake in Hsplit. lia.
Qed.

Lemma decimal_places_numeral (sign : bool) (a b : string) :
  a <> "" -> Str.forallb Str.is_digit a = true ->
  b <> "" -> Str.forallb Str.is_digit b = true ->
  decimal_places ((if sign then "-" else "") ++ a ++ "." ++ b)
  = Some (String.length b).
Proof.
  intros Ha Hda Hb Hdb. unfold decimal_places.
  assert (Hbody : match ((if sign then "-" else "") ++ a ++ "." ++ b)%string with
                  | String "-" r => r
                  | _ => ((if sign then "-" else "") ++ a ++ "." ++ b)%string
                  end = (a ++ "." ++ b)%string).
  { destruct sign; [reflexivity|]. cbn [append]. now apply not_minus_digits. }
  rewrite Hbody. change (a ++ "." ++ b)%string with (a ++ String "." b)%string.
  rewrite split_point_numeral by exact Hda.
  now rewrite !digit_run_intro.
Qed.

Lemma decimal_places_integer (sign : bool) (a : string) :
  a <> "" -> Str.forallb Str.is_digit a = true ->
  decimal_places ((if sign then "-" else "") ++ a) = Some 0.
Proof.
  intros Ha Hda. unfold decimal_places.
  assert (Hbody : match ((if sign then "-" else "") ++ a)%string with
                  | String "-" r => r
                  | _ => ((if sign then "-" else "") ++ a)%string
                  end = a).
  { destruct sign; [reflexivity|]. cbn [append].
    rewrite <- (append_nil_r a). now apply not_minus_digits. }
  rewrite Hbody, split_point_digits by exact Hda.
  now rewrite digit_run_intro.
Qed.

Lemma toFixed_places (x : Num.number) :
  fixed_range x = true ->
  decimal_places (Num.toFixed x 2) = Some 2
  /\ decimal_places (Num.toFixed x 0) = Some 0.
Proof.
  assert (Hfrac : forall n sign,
            decimal_places ((if sign : bool then "-" else "") ++ Num.fixed_digits n 2)
            = Some 2).
  { intros n sign.
    destruct (fixed_digits_shape n 2 ltac:(lia)) as (a & b & -> & Ha & Hda & Hdb & Hlen).
    rewrite decimal_places_numeral; try assumption.
    - now rewrite Hlen.
    - intros ->. discriminate Hlen. }
  assert (Hint : forall n sign,
            decimal_places ((if sign : bool then "-" else "") ++ Num.fixed_digits n 0)
            = Some 0).
  { intros n sign. apply decimal_places_integer;
      [apply digits_nonempty | apply digits_all]. }
  destruct x as [s|s| |s m e]; try discriminate.
  - intros _. split; [apply (Hfrac 0%Z false) | apply (Hint 0%Z false)].
  - unfold fixed_range, Num.toFixed. destruct (Num.frac m e) as [p q].
    destruct (10 ^ 21 * q <=? p)%Z; [discriminate|]. intros _.
    split; [apply Hfrac | apply Hint].
Qed.

(** ** Rows of the bill *)

Lemma twoCol_row (left right : string) :
  twoCol (VStr left) (VStr right) 40 = Ok (two_col_row left right).
Proof.
  unfold twoCol, two_col_row. rewrite !to_string_str. cbn [bind]. do 2 f_equal.
  set (l := String.length left). set (r := String.length right).
  destruct (Z.gtb_spec (40 - Z.of_nat l - Z.of_nat r) 0) as [H|H].
  - now replace (Z.to_nat (40 - Z.of_nat l - Z.of_nat r))
      with (Nat.max 1 (40 - (l + r))) by lia.
  - now replace (Nat.max 1 (40 - (l + r))) with 1 by lia.
Qed.

Lemma padEnd_cell (v : value) (width : nat) (s : string) :
  padEnd v width = Ok s -> s = left_cell (show v) width.
Proof.
  unfold padEnd, left_cell. intros H. inv_bind H.
  apply to_string_show in E. subst. now injection H as <-.
Qed.

Lemma padStart_cell (v : value) (width : nat) (s : string) :
  padStart v width = Ok s -> s = right_cell (show v) width.
Proof.
  unfold padStart, right_cell. intros H. inv_bind H.
  apply to_string_show in E. subst. now injection H as <-.
Qed.

Lemma forEach_occurs (body : value -> string -> result string) (line : value -> string)
    (l : list value) :
  (forall x r r', body x r = Ok r' -> extends r r') ->
  (forall x r r', body x r = Ok r' -> occurs (line x) r') ->
  forall r r', forEach l body r = Ok r' ->
  forall x, In x l -> occurs (line x) r'.
Proof.
  intros Hext Hline. induction l as [|y l IH]; simpl; intros r r' H x Hin;
    [contradiction|].
  inv_bind H. destruct Hin as [->|Hin].
  - eapply occurs_extends; [eapply Hline; eassumption|].
    eapply forEach_extends; eassumption.
  - eapply IH; eassumption.
Qed.

Lemma bill_item_row (item : value) (r r' : string) :
  bill_item item r = Ok r' -> occurs (item_row item) r'.
Proof.
  unfold bill_item. intros H. inv_binds H.
  apply customizations_extends in H.
  eapply occurs_extends; [|exact H].
  repeat match goal with
  | H : get _ _ = Ok _ |- _ => apply get_ok_prop in H
  | H : to_string _ = Ok _ |- _ => apply to_string_show in H
  | H : padEnd _ _ = Ok _ |- _ => apply padEnd_cell in H
  | H : padStart _ _ = Ok _ |- _ => apply padStart_cell in H
  end.
  subst. unfold item_row, amount_text, item_amount.
  match goal with
  | H : mul _ _ = Ok _ |- _ => rewrite H
  end.
  cbn [show]. apply occurs_end.
Qed.

Lemma bill_items_walked (orderDetails : value) (v : value) (l : list value) :
  items_or_empty orderDetails = Ok v -> array_elems v = Ok l ->
  l = order_items orderDetails.
Proof.
  unfold items_or_empty, order_items. intros H Hl. inv_bind H.
  apply get_ok_prop in E. subst x. unfold or_else in H.
  destruct (to_boolean (prop orderDetails "items")) eqn:Hb; inv_ok H.
  - destruct (prop orderDetails "items"); try discriminate. now injection Hl as <-.
  - injection Hl as <-. destruct (prop orderDetails "items"); try discriminate; reflexivity.
Qed.

Lemma call_toFixed_num (v : value) (f : nat) (s : string) :
  call_toFixed v f = Ok s -> exists x, v = VNum x /\ s = Num.toFixed x f.
Proof.
  destruct v; try discriminate. intros [= <-]. eauto.
Qed.

(** C5, as stated, fails: the amount of a line item of one hundred million
    rupees is cut to the 14 columns of its cell and shows one decimal place. *)
Lemma large_amount_loses_a_decimal :
  exists doc,
    buildBillEscPos Sample.now Sample.orderId Sample.kot_code VUndefined
      Sample.large_order VUndefined VUndefined = Ok doc /\
    Num.toFixed (item_amount Sample.catering) 2 = "100000000.00" /\
    occurs ("Wedding catering      1   Rs 100000000.0" ++ Str.LF) doc /\
    decimal_places "100000000.0" = Some 1.
Proof.
  eexists. split; [vm_compute; reflexivity|]. split; [|split].
  - vm_compute. reflexivity.
  - apply contains_occurs. vm_compute. reflexivity.
  - reflexivity.
Qed.

(** C5, amended: a bill shows 'Rs ' and [subtotal.toFixed(2)] in its
    subtotal row, '+' and half of [orderDetails.tax] by [toFixed(2)] in each
    of the CGST and SGST rows, and 'Rs ' and [total.toFixed(0)] in its total
    row; [toFixed(2)] gives exactly two decimal places and [toFixed(0)] none
    for every finite amount below 10^21 in magnitude.  The row of a line item
    shows 'Rs ' and [(price * quantity).toFixed(2)] in a cell of 14 columns,
    whole and flush right when that text is at most 14 characters long. *)
Theorem bill_amounts now orderId kot_code KDSInvoiceId orderDetails orderType
    transactionDetails doc :
  buildBillEscPos now orderId kot_code KDSInvoiceId orderDetails orderType
    transactionDetails = Ok doc ->
  (exists subtotal total,
     prop orderDetails "subtotal" = VNum subtotal /\
     prop orderDetails "total" = VNum total /\
     occurs (two_col_row "Subtotal:" ("Rs " ++ Num.toFixed subtotal 2)) doc /\
     occurs (two_col_row "CGST 2.5%:"
               ("+" ++ Num.toFixed (half_tax orderDetails) 2)) doc /\
     occurs (two_col_row "SGST 2.5%:"
               ("+" ++ Num.toFixed (half_tax orderDetails) 2)) doc /\
     occurs (two_col_row "TOTAL:" ("Rs " ++ Num.toFixed total 0)) doc) /\
  (forall item, In item (order_items orderDetails) -> occurs (item_row item) doc) /\
  (forall item, String.length (amount_text item) <= 14 ->
     right_cell (amount_text item) 14
     = Str.repeat " " (14 - String.length (amount_text item)) ++ amount_text item) /\
  (forall x, fixed_range x = true ->
     decimal_places (Num.toFixed x 2) = Some 2
     /\ decimal_places (Num.toFixed x 0) = Some 0) /\
  (prop orderDetails "subtotal" = VNum (Num.of_Z 100) ->
   prop orderDetails "tax" = VNum (Num.of_Z 10) ->
   prop orderDetails "total" = VNum (Num.of_Z 110) ->
   occurs ("Subtotal:                      Rs 100.00" ++ Str.LF) doc /\
   occurs ("CGST 2.5%:                         +5.00" ++ Str.LF) doc /\
   occurs ("SGST 2.5%:                         +5.00" ++ Str.LF) doc /\
   occurs ("TOTAL:                            Rs 110" ++ Str.LF) doc).
Proof.
  intros H.
  assert (Hrows :
    exists subtotal total,
      prop orderDetails "subtotal" = VNum subtotal /\
      prop orderDetails "total" = VNum total /\
      occurs (two_col_row "Subtotal:" ("Rs " ++ Num.toFixed subtotal 2)) doc /\
      occurs (two_col_row "CGST 2.5%:"
                ("+" ++ Num.toFixed (half_tax orderDetails) 2)) doc /\
      occurs (two_col_row "SGST 2.5%:"
                ("+" ++ Num.toFixed (half_tax orderDetails) 2)) doc /\
      occurs (two_col_row "TOTAL:" ("Rs " ++ Num.toFixed total 0)) doc);
    [|split; [exact Hrows|split; [|split; [|split]]]].
  - unfold buildBillEscPos in H. inv_binds H. inv_ok H.
    repeat match goal with
    | H : call_toFixed _ _ = Ok _ |- _ =>
        apply call_toFixed_num in H; destruct H as (? & ? & ?)
    | H : twoCol _ _ _ = Ok _ |- _ => rewrite twoCol_row in H; inv_ok H
    end.
    unfold half_tax.
    repeat match goal with
    | H : get _ _ = Ok _ |- _ => apply get_ok_prop in H
    end.
    subst.
    match goal with
    | H1 : div ?a ?b = Ok ?x, H2 : div ?a ?b = Ok ?y |- _ =>
        assert (x = y) by congruence; subst y; clear H2
    end.
    repeat match goal with
    | H : prop orderDetails _ = VNum _ |- _ => rewrite H
    | H : div _ _ = Ok _ |- _ => rewrite H
    end.
    loops.
    all: do 2 eexists; split; [reflexivity|]; split; [reflexivity|].
    all: repeat split; find_line.
  - intros item Hin. unfold buildBillEscPos in H. inv_binds H. inv_ok H.
    match goal with
    | H1 : items_or_empty _ = Ok _, H2 : array_elems _ = Ok _ |- _ =>
        pose proof (bill_items_walked _ _ _ H1 H2) as Hitems
    end.
    subst.
    match goal with
    | H : forEach _ bill_item _ = Ok _ |- _ =>
        pose proof (forEach_occurs bill_item item_row _ bill_item_extends
                      bill_item_row _ _ H item Hin) as Hrow
    end.
    eapply occurs_extends; [exact Hrow|]. grow.
  - intros item Hlen. unfold right_cell.
    destruct (Nat.leb_spec 14 (String.length (amount_text item))) as [Hle|Hlt];
      [|reflexivity].
    assert (Htake : forall n s, String.length s <= n -> substring 0 n s = s).
    { clear. intros n. induction n as [|n IH]; intros [|c s]; simpl; intros H;
        try reflexivity; try lia. rewrite IH; [reflexivity|lia]. }
    rewrite Htake by exact Hlen.
    replace (14 - String.length (amount_text item)) with 0 by lia. reflexivity.
  - apply toFixed_places.
  - intros Hs Ht Htot.
    destruct Hrows as (subtotal & total & Hs' & Htot' & H1 & H2 & H3 & H4).
    rewrite Hs in Hs'. rewrite Htot in Htot'.
    injection Hs' as <-. injection Htot' as <-.
    unfold half_tax in H2, H3. rewrite Ht in H2, H3.
    repeat split; [exact H1 | exact H2 | exact H3 | exact H4].
Qed.

(** Scenario A: subtotal 100.00, tax 10.00, total 110. *)
Lemma bill_amounts_witness :
  exists doc,
    buildBillEscPos Sample.now Sample.orderId Sample.kot_code VUndefined Sample.order
      VUndefined VUndefined = Ok doc /\
    occurs ("Subtotal:                      Rs 100.00" ++ Str.LF) doc /\
    occurs ("CGST 2.5%:                         +5.00" ++ Str.LF) doc /\
    occurs ("SGST 2.5%:                         +5.00" ++ Str.LF) doc /\
    occurs ("TOTAL:                            Rs 110" ++ Str.LF) doc /\
    occurs ("Masala Dosa           1         Rs 60.00" ++ Str.LF) doc.
Proof.
  eexists. split; [vm_compute; reflexivity|].
  match goal with
  | |- occurs _ ?doc /\ _ =>
      destruct (bill_amounts Sample.now Sample.orderId Sample.kot_code VUndefined
                  Sample.order VUndefined VUndefined doc)
        as (_ & Hitems & _ & _ & Hscenario);
        [vm_compute; reflexivity|]
  end.
  destruct Hscenario as (H1 & H2 & H3 & H4); [reflexivity..|].
  repeat split; [exact H1 | exact H2 | exact H3 | exact H4 |].
  apply (Hitems Sample.dosa). left. reflexivity.
Defined.

(** ** Orders without items *)

Lemma occurs_right (line a b : string) : occurs line b -> occurs line (a ++ b).
Proof.
  intros (pre & post & ->). exists (a ++ pre), post. now rewrite !append_assoc.
Qed.

(** [d] begins with [line]. *)
Lemma starts_last (line post : string) : exists t, line ++ post = line ++ t.
Proof. now exists post. Qed.

Lemma starts_cons (a line d : string) :
  (exists t, d = line ++ t) -> exists t, a ++ d = (a ++ line) ++ t.
Proof. intros [t ->]. exists t. now rewrite append_assoc. Qed.

Lemma starts_occurs (line d : string) : (exists t, d = line ++ t) -> occurs line d.
Proof. intros [t ->]. now exists "", t. Qed.

(** Looks for a block of consecutive pieces in a text written as a
    right-nested concatenation. *)
Ltac find_block :=
  repeat first
    [ apply starts_occurs; solve [repeat first [apply starts_last | apply starts_cons]]
    | apply occurs_right ].

Lemma items_or_empty_missing (orderDetails : value) :
  non_nullish orderDetails = true ->
  non_nullish (prop orderDetails "items") = false ->
  items_or_empty orderDetails = Ok (VArr []).
Proof.
  intros Hnn Hmissing. unfold items_or_empty.
  rewrite get_prop by exact Hnn. cbn [bind].
  now destruct (prop orderDetails "items").
Qed.

(** C10: when [orderDetails.items] is missing ([undefined] or [null]) the
    three builders walk the empty collection: both ticket builders return
    null, and the bill builder returns a document with its header, its
    metadata and, directly after the column header, the totals, with no item
    row between them. *)
Theorem missing_items_are_empty now orderId kot_code KDSInvoiceId orderDetails
    orderType transactionDetails :
  wf_order orderDetails = true ->
  plain orderId = true -> plain kot_code = true ->
  plain KDSInvoiceId = true -> plain orderType = true ->
  is_number (prop orderDetails "subtotal") = true ->
  is_number (prop orderDetails "total") = true ->
  non_nullish (prop orderDetails "items") = false ->
  items_or_empty orderDetails = Ok (VArr []) /\
  buildFoodKOTEscPos now orderId kot_code KDSInvoiceId orderDetails = Ok None /\
  buildCoffeeKOTEscPos now orderId kot_code KDSInvoiceId orderDetails = Ok None /\
  exists doc subtotal total,
    buildBillEscPos now orderId kot_code KDSInvoiceId orderDetails orderType
      transactionDetails = Ok doc /\
    prop orderDetails "subtotal" = VNum subtotal /\
    prop orderDetails "total" = VNum total /\
    occurs ("Karnataka Tiffin Room" ++ Str.LF) doc /\
    occurs ("KOT: " ++ show kot_code ++ Str.LF) doc /\
    occurs ("BILL NO : " ++ show orderId ++ Str.LF) doc /\
    occurs ("DATE    : " ++ getDateTime now ++ Str.LF) doc /\
    occurs (empty_items_block orderDetails subtotal total) doc.
Proof.
  intros Hwf Hid Hkot Hkds Hty Hsub Htot Hmissing.
  destruct (wf_order_parts _ Hwf) as (Hnn & Hplain & Hitems).
  pose proof (items_or_empty_missing _ Hnn Hmissing) as Hempty.
  split; [exact Hempty|].
  split; [|split].
  - unfold buildFoodKOTEscPos, filter_items. now rewrite Hempty.
  - unfold buildCoffeeKOTEscPos, filter_items. now rewrite Hempty.
  - destruct (bill_built now orderId kot_code KDSInvoiceId orderDetails orderType
                transactionDetails Hwf Hid Hkot Hkds Hty Hsub Htot) as [doc Hdoc].
    exists doc. pose proof Hdoc as H.
    unfold buildBillEscPos in H. inv_binds H. inv_ok H.
    match goal with
    | H : items_or_empty orderDetails = Ok _ |- _ =>
        rewrite Hempty in H; inv_ok H
    end.
    match goal with
    | H : array_elems _ = Ok _ |- _ => cbn [array_elems] in H; inv_ok H
    end.
    match goal with
    | H : forEach [] _ _ = Ok _ |- _ => cbn [forEach] in H; inv_ok H
    end.
    repeat match goal with
    | H : call_toFixed _ _ = Ok _ |- _ =>
        apply call_toFixed_num in H; destruct H as (? & ? & ?)
    | H : twoCol _ _ _ = Ok _ |- _ => rewrite twoCol_row in H; inv_ok H
    | H : padEnd _ _ = Ok _ |- _ => apply padEnd_cell in H
    | H : padStart _ _ = Ok _ |- _ => apply padStart_cell in H
    | H : to_string kot_code = Ok _ |- _ => apply to_string_show in H
    | H : to_string orderId = Ok _ |- _ => apply to_string_show in H
    | H : get _ _ = Ok _ |- _ => apply get_ok_prop in H
    end.
    subst. cbn [show] in *.
    match goal with
    | H1 : div ?a ?b = Ok ?x, H2 : div ?a ?b = Ok ?y |- _ =>
        assert (x = y) by congruence; subst y; clear H2
    end.
    match goal with
    | Hs : prop orderDetails "subtotal" = VNum ?s,
      Ht : prop orderDetails "total" = VNum ?t |- _ =>
        exists s, t; rewrite Hs, Ht
    end.
    split; [exact Hdoc|]. split; [reflexivity|]. split; [reflexivity|].
    loops.
    all: split; [find_line|]; split; [find_line|]; split; [find_line|];
      split; [find_line|].
    all: unfold empty_items_block, totals_block, half_tax.
    all: match goal with
         | H : div _ _ = Ok _ |- _ => rewrite H
         end.
    all: rewrite !append_assoc; find_block.
Qed.

Lemma missing_items_are_empty_witness :
  wf_order Sample.order_without_items = true /\
  non_nullish (prop Sample.order_without_items "items") = false /\
  buildFoodKOTEscPos Sample.now Sample.orderId Sample.kot_code VUndefined
    Sample.order_without_items = Ok None /\
  buildCoffeeKOTEscPos Sample.now Sample.orderId Sample.kot_code VUndefined
    Sample.order_without_items = Ok None.
Proof.
  split; [reflexivity|]. split; [reflexivity|].
  destruct (missing_items_are_empty Sample.now Sample.orderId Sample.kot_code VUndefined
              Sample.order_without_items VUndefined VUndefined)
    as (_ & Hfood & Hcoffee & _); try reflexivity.
  split; [exact Hfood | exact Hcoffee].
Defined.

(** ** Dispatch *)

Lemma run_task_keeps_queue (cb : callback) (w : world) :
  timers (snd (run_task cb w)) = timers w /\ clock (snd (run_task cb w)) = clock w.
Proof.
  destruct cb; cbn [run_task];
    unfold androidPrintFoodKOT, androidPrintCoffeeKOT, bindM, build, printBill,
      console_log, ret.
  all: match goal with
       | |- context [buildFoodKOTEscPos ?a ?b ?c ?d ?e] =>
           destruct (buildFoodKOTEscPos a b c d e) as [doc|err]
       | |- context [buildCoffeeKOTEscPos ?a ?b ?c ?d ?e] =>
           destruct (buildCoffeeKOTEscPos a b c d e) as [doc|err]
       end; [|split; reflexivity].
  all: destruct (falsy_doc doc); [split; reflexivity|]; cbn [has_window has_bridge].
  all: destruct (has_window w), (has_bridge w); split; reflexivity.
Qed.

Lemma run_task_skips_null (cb : callback) (w : world) :
  ticket_of cb (clock w) = Ok None ->
  fst (run_task cb w) = Ok false /\ printed (snd (run_task cb w)) = printed w.
Proof.
  destruct cb; cbn [run_task ticket_of]; intros H;
    unfold androidPrintFoodKOT, androidPrintCoffeeKOT, bindM, build;
    rewrite H; split; reflexivity.
Qed.

Lemma framed_not_empty (doc : string) : framed doc -> (doc =? "")%string = false.
Proof. intros [body ->]. reflexivity. Qed.

Lemma ticket_framed (cb : callback) (now : Clock.Date) (doc : string) :
  ticket_of cb now = Ok (Some doc) -> framed doc.
Proof.
  destruct cb; cbn [ticket_of]; intros H.
  - eapply food_framed; eassumption.
  - eapply coffee_framed; eassumption.
Qed.

Lemma run_task_sent (cb : callback) (w : world) :
  isAndroidBridge w = true ->
  fst (run_task cb w) = sent_flag (ticket_of cb (clock w)) /\
  printed (snd (run_task cb w)) = (printed w ++ sent (ticket_of cb (clock w)))%list.
Proof.
  intros Hbridge. apply andb_true_iff in Hbridge as [Hwin Hbr].
  pose proof (ticket_framed cb (clock w)) as Hframed.
  destruct cb; cbn [run_task ticket_of] in *;
    unfold androidPrintFoodKOT, androidPrintCoffeeKOT, bindM, build.
  all: match goal with
       | |- context [buildFoodKOTEscPos ?a ?b ?c ?d ?e] =>
           destruct (buildFoodKOTEscPos a b c d e) as [[doc|]|err]
       | |- context [buildCoffeeKOTEscPos ?a ?b ?c ?d ?e] =>
           destruct (buildCoffeeKOTEscPos a b c d e) as [[doc|]|err]
       end.
  all: cbn [falsy_doc sent sent_flag doc_text].
  all: try (rewrite (framed_not_empty doc (Hframed doc eq_refl))).
  all: unfold console_log, printBill, ret;
       cbn [has_window has_bridge printed fst snd];
       rewrite ?Hwin, ?Hbr; cbn [negb printed fst snd];
       rewrite ?app_nil_r; split; reflexivity.
Qed.

Lemma run_task_host (cb : callback) (w : world) :
  has_window (snd (run_task cb w)) = has_window w /\
  has_bridge (snd (run_task cb w)) = has_bridge w.
Proof.
  destruct cb; cbn [run_task];
    unfold androidPrintFoodKOT, androidPrintCoffeeKOT, bindM, build, printBill,
      console_log, ret.
  all: match goal with
       | |- context [buildFoodKOTEscPos ?a ?b ?c ?d ?e] =>
           destruct (buildFoodKOTEscPos a b c d e) as [doc|err]
       | |- context [buildCoffeeKOTEscPos ?a ?b ?c ?d ?e] =>
           destruct (buildCoffeeKOTEscPos a b c d e) as [doc|err]
       end; [|split; reflexivity].
  all: destruct (falsy_doc doc); [split; reflexivity|]; cbn [has_window has_bridge].
  all: destruct (has_window w), (has_bridge w); split; reflexivity.
Qed.

(** C9: with the bridge present, for every order record of plain data with
    numeric totals, [androidPrintAll] hands the bill to the bridge at once
    and registers two timers, of 350 and of 700 time units, both counted from
    the instant it ran, whatever the ticket builders are going to return.
    The callback of a timer builds its ticket when it runs and hands it to
    the bridge; a timer whose builder returns null prints nothing and raises
    nothing.  Left alone, the host runs the food ticket 350 and the coffee
    ticket 700 time units after that instant, each dispatching what its
    builder returns then, the coffee ticket whatever became of the food
    ticket. *)
Theorem androidPrintAll_schedule w orderId kot_code KDSInvoiceId orderDetails orderType
    transactionDetails :
  isAndroidBridge w = true ->
  wf_order orderDetails = true ->
  plain orderId = true -> plain kot_code = true ->
  plain KDSInvoiceId = true -> plain orderType = true ->
  is_number (prop orderDetails "subtotal") = true ->
  is_number (prop orderDetails "total") = true ->
  exists bill,
    let w' := after_print_all w bill orderId kot_code KDSInvoiceId orderDetails in
    let start := Clock.epoch_ms (clock w) in
    let later ms := Clock.mkDate (start + ms) (Clock.tz_offset_min (clock w)) in
    let food := buildFoodKOTEscPos (later 350%Z) orderId kot_code KDSInvoiceId
                  orderDetails in
    let coffee := buildCoffeeKOTEscPos (later 700%Z) orderId kot_code KDSInvoiceId
                    orderDetails in
    buildBillEscPos (clock w) orderId kot_code KDSInvoiceId orderDetails orderType
      transactionDetails = Ok bill /\
    androidPrintAll orderId kot_code KDSInvoiceId orderDetails orderType
      transactionDetails w = (Ok tt, w') /\
    (forall cb w1, ticket_of cb (clock w1) = Ok None ->
       fst (run_task cb w1) = Ok false
       /\ printed (snd (run_task cb w1)) = printed w1) /\
    (forall cb w1 doc, isAndroidBridge w1 = true ->
       ticket_of cb (clock w1) = Ok (Some doc) ->
       fst (run_task cb w1) = Ok true
       /\ printed (snd (run_task cb w1)) = (printed w1 ++ [("USB", "", doc)])%list) /\
    (timers w = [] ->
     exists w1 w2,
       fire_next w' = Some ((start + 350)%Z, sent_flag food, w1) /\
       printed w1 = (printed w' ++ sent food)%list /\
       fire_next w1 = Some ((start + 700)%Z, sent_flag coffee, w2) /\
       printed w2 = (printed w1 ++ sent coffee)%list /\
       fire_next w2 = None).
Proof.
  intros Hbridge Hwf Hid Hkot Hkds Hty Hsub Htot.
  destruct (bill_built (clock w) orderId kot_code KDSInvoiceId orderDetails orderType
              transactionDetails Hwf Hid Hkot Hkds Hty Hsub Htot) as [bill Hbill].
  exists bill. cbv zeta. split; [exact Hbill|]. split; [|split; [|split]].
  - unfold androidPrintAll, androidPrintBill, bindM, build, console_log, printBill,
      setTimeout, after_print_all.
    cbn [clock has_window has_bridge console printed timers].
    rewrite Hbill. unfold isAndroidBridge in Hbridge.
    apply andb_true_iff in Hbridge as [Hwin Hbr]. rewrite Hwin, Hbr.
    cbn [negb clock has_window has_bridge console printed timers].
    now rewrite <- !app_assoc.
  - apply run_task_skips_null.
  - intros cb w1 doc Hb1 Hdoc.
    destruct (run_task_sent cb w1 Hb1) as [Hr Hp].
    rewrite Hdoc in Hr, Hp. split; [exact Hr | exact Hp].
  - intros Hidle. unfold after_print_all. rewrite Hidle. cbn [List.app].
    set (food := FoodKOTTask orderId kot_code KDSInvoiceId orderDetails).
    set (coffee := CoffeeKOTTask orderId kot_code KDSInvoiceId orderDetails).
    set (start := Clock.epoch_ms (clock w)).
    unfold fire_next at 1.
    cbn [List.app timers next_timer]. unfold due. cbn [registered_at delay].
    destruct (Z.ltb_spec (start + 700) (start + 350)) as [Hlt|_]; [lia|].
    cbn [task registered_at delay has_window has_bridge console printed clock
         Clock.epoch_ms Clock.tz_offset_min].
    fold start.
    replace (Z.max start (start + 350)) with (start + 350)%Z by lia.
    match goal with
    | |- context [run_task food ?w0] =>
        pose proof (run_task_keeps_queue food w0) as [Hq Hc];
        pose proof (run_task_host food w0) as [Hhw Hhb];
        assert (Hb0 : isAndroidBridge w0 = true) by exact Hbridge;
        pose proof (run_task_sent food w0 Hb0) as [Hr Hp];
        destruct (run_task food w0) as [r1 w1] eqn:Hrun
    end.
    cbn [fst snd timers clock has_window has_bridge printed] in Hq, Hc, Hhw, Hhb, Hr, Hp.
    exists w1.
    unfold fire_next. rewrite Hq.
    cbn [timers next_timer]. unfold due. cbn [registered_at delay task]. rewrite Hc.
    cbn [Clock.epoch_ms Clock.tz_offset_min].
    replace (Z.max (start + 350) (start + 700)) with (start + 700)%Z by lia.
    match goal with
    | |- context [run_task coffee ?w0] =>
        pose proof (run_task_keeps_queue coffee w0) as [Hq2 Hc2];
        assert (Hb1 : isAndroidBridge w0 = true)
          by (unfold isAndroidBridge; cbn [has_window has_bridge];
              now rewrite Hhw, Hhb);
        pose proof (run_task_sent coffee w0 Hb1) as [Hr2 Hp2];
        destruct (run_task coffee w0) as [r2 w2] eqn:Hrun2
    end.
    cbn [fst snd timers clock has_window has_bridge printed] in Hq2, Hc2, Hr2, Hp2.
    exists w2. rewrite Hq2. cbn [next_timer].
    subst r1 r2. cbn [ticket_of food coffee] in *.
    split; [reflexivity|]. split; [exact Hp|]. split; [reflexivity|].
    split; [exact Hp2 | reflexivity].
Qed.

Lemma androidPrintAll_schedule_witness :
  isAndroidBridge Sample.kiosk = true /\
  wf_order Sample.order = true /\
  exists bill food coffee w0 w1 w2,
    buildBillEscPos (clock Sample.kiosk) Sample.orderId Sample.kot_code VUndefined
      Sample.order VUndefined VUndefined = Ok bill /\
    androidPrintAll Sample.orderId Sample.kot_code VUndefined
      Sample.order VUndefined VUndefined Sample.kiosk
    = (Ok tt, w0) /\
    w0 = after_print_all Sample.kiosk bill Sample.orderId Sample.kot_code VUndefined
           Sample.order /\
    fire_next w0 = Some (1793625000350%Z, Ok true, w1) /\
    fire_next w1 = Some (1793625000700%Z, Ok true, w2) /\
    fire_next w2 = None /\
    printed w2 = [("USB", "", bill); ("USB", "", food); ("USB", "", coffee)].
Proof.
  split; [reflexivity|]. split; [reflexivity|].
  destruct (androidPrintAll_schedule Sample.kiosk Sample.orderId Sample.kot_code
              VUndefined Sample.order VUndefined VUndefined)
    as (bill & Hbill & Hall & _ & _ & Hrun); try reflexivity.
  destruct (Hrun eq_refl) as (w1 & w2 & Hfood & Hp1 & Hcoffee & Hp2 & Hend).
  match type of Hp1 with
  | _ = (_ ++ sent ?f)%list =>
      destruct f as [[food|]|ef] eqn:Ef; [|vm_compute in Ef; discriminate..]
  end.
  match type of Hp2 with
  | _ = (_ ++ sent ?c)%list =>
      destruct c as [[coffee|]|ec] eqn:Ec; [|vm_compute in Ec; discriminate..]
  end.
  exists bill, food, coffee,
    (after_print_all Sample.kiosk bill Sample.orderId Sample.kot_code VUndefined
       Sample.order), w1, w2.
  split; [exact Hbill|]. split; [exact Hall|]. split; [reflexivity|].
  split; [exact Hfood|]. split; [exact Hcoffee|]. split; [exact Hend|].
  rewrite Hp2, Hp1. reflexivity.
Defined.

(** When the bill builder throws, [androidPrintAll] throws with it, before
    either timer is registered. *)
Remark androidPrintAll_bill_throws w orderId kot_code KDSInvoiceId orderDetails
    orderType transactionDetails e :
  buildBillEscPos (clock w) orderId kot_code KDSInvoiceId orderDetails orderType
    transactionDetails = Throw e ->
  exists w',
    androidPrintAll orderId kot_code KDSInvoiceId orderDetails orderType
      transactionDetails w = (Throw e, w')
    /\ timers w' = timers w /\ printed w' = printed w.
Proof.
  intros H. unfold androidPrintAll, androidPrintBill, bindM, build, console_log.
  cbn [clock]. rewrite H. eexists. split; [reflexivity|]. split; reflexivity.
Qed.

(** Scenario B and D on the sample kiosk: an order of coffee only.  The bill
    is printed at once; 350 time units later the food timer finds nothing to
    print and returns false; 700 time units after the start the coffee ticket
    is printed. *)
Example dispatch_coffee_only :
  let args k :=
    k Sample.orderId Sample.kot_code VUndefined Sample.coffee_order in
  let start := Clock.epoch_ms Sample.now in
  exists w0 w1 w2 bill ticket,
    args androidPrintAll VUndefined VUndefined Sample.kiosk = (Ok tt, w0) /\
    fire_next w0 = Some ((start + 350)%Z, Ok false, w1) /\
    fire_next w1 = Some ((start + 700)%Z, Ok true, w2) /\
    fire_next w2 = None /\
    printed w1 = [("USB", "", bill)] /\
    printed w2 = [("USB", "", bill); ("USB", "", ticket)] /\
    occurs ("*** COFFEE KOT ***" ++ Str.LF) ticket /\
    occurs ("Instruction: COFFEE COUNTER" ++ Str.LF) ticket.
Proof.
  cbv zeta. do 5 eexists.
  split; [vm_compute; reflexivity|].
  split; [vm_compute; reflexivity|].
  split; [vm_compute; reflexivity|].
  split; [vm_compute; reflexivity|].
  split; [vm_compute; reflexivity|].
  split; [vm_compute; reflexivity|].
  split; apply contains_occurs; vm_compute; reflexivity.
Qed.

(** * Further properties *)

(** ** Cells *)

Lemma length_take_min (n : nat) (s : string) :
  String.length (substring 0 n s) = Nat.min n (String.length s).
Proof.
  revert s. induction n as [|n IH]; intros [|c s]; simpl; try reflexivity.
  now rewrite IH.
Qed.

Lemma left_cell_length (text : string) (width : nat) :
  String.length (left_cell text width) = width.
Proof.
  unfold left_cell. destruct (Nat.leb_spec width (String.length text)).
  - rewrite length_take_min. lia.
  - rewrite length_append, length_spaces. lia.
Qed.

Lemma right_cell_length (text : string) (width : nat) :
  String.length (right_cell text width) = width.
Proof.
  unfold right_cell. destruct (Nat.leb_spec width (String.length text)).
  - rewrite length_take_min. lia.
  - rewrite length_append, length_spaces. lia.
Qed.

(** X1: [padEnd(str, len)] always returns exactly [len] characters: the text
    followed by spaces when it is shorter than [len], its first [len]
    characters when it is not. *)
Theorem padEnd_width (str : value) (len : nat) (out : string) :
  padEnd str len = Ok out ->
  String.length out = len /\
  (String.length (show str) < len ->
   out = show str ++ Str.repeat " " (len - String.length (show str))) /\
  (len <= String.length (show str) -> show str = out ++ Str.drop len (show str)).
Proof.
  intros H. apply padEnd_cell in H. subst out. split; [apply left_cell_length|].
  unfold left_cell. split; intros Hlen.
  - destruct (Nat.leb_spec len (String.length (show str))); [lia|reflexivity].
  - destruct (Nat.leb_spec len (String.length (show str))); [|lia].
    symmetry. apply take_drop.
Qed.

Lemma padEnd_width_witness :
  padEnd (VStr "Masala Dosa with extra ghee") 22 = Ok "Masala Dosa with extra" /\
  String.length "Masala Dosa with extra" = 22.
Proof.
  split; [reflexivity|].
  apply (padEnd_width (VStr "Masala Dosa with extra ghee") 22 "Masala Dosa with extra").
  reflexivity.
Defined.

(** X2: [padStart(str, len)] always returns exactly [len] characters: the
    text after spaces when it is shorter than [len]; when it is not, its
    first [len] characters, so that it is the end of the text that is lost. *)
Theorem padStart_width (str : value) (len : nat) (out : string) :
  padStart str len = Ok out ->
  String.length out = len /\
  (String.length (show str) < len ->
   out = Str.repeat " " (len - String.length (show str)) ++ show str) /\
  (len <= String.length (show str) -> show str = out ++ Str.drop len (show str)).
Proof.
  intros H. apply padStart_cell in H. subst out. split; [apply right_cell_length|].
  unfold right_cell. split; intros Hlen.
  - destruct (Nat.leb_spec len (String.length (show str))); [lia|reflexivity].
  - destruct (Nat.leb_spec len (String.length (show str))); [|lia].
    symmetry. apply take_drop.
Qed.

Lemma padStart_width_witness :
  padStart (VStr "Rs 100000000.00") 14 = Ok "Rs 100000000.0" /\
  String.length "Rs 100000000.0" = 14.
Proof.
  split; [reflexivity|].
  apply (padStart_width (VStr "Rs 100000000.00") 14 "Rs 100000000.0").
  reflexivity.
Defined.

(** X3: [center(str, width)] never cuts the text and never pads it on the
    right: the text comes after [floor((width - len) / 2)] spaces, none when
    it is [width] long or longer, and the line feed follows it.  The margin
    on the left is the free space on the right or one column less. *)
Theorem center_layout (s : string) (width : nat) :
  let margin := (width - String.length s) / 2 in
  center (VStr s) width = Ok (Str.repeat " " margin ++ s ++ Str.LF) /\
  (width <= String.length s -> margin = 0) /\
  (String.length s <= width ->
   let free := width - (margin + String.length s) in
   margin <= free <= margin + 1).
Proof.
  cbv zeta. unfold center. rewrite to_string_str. cbn [bind].
  split; [|split].
  - destruct (Nat.leb_spec width (String.length s)) as [H|H]; [|reflexivity].
    replace (width - String.length s) with 0 by lia. reflexivity.
  - intros H. replace (width - String.length s) with 0 by lia. reflexivity.
  - intros H.
    pose proof (Nat.div_mod_eq (width - String.length s) 2) as Hd.
    pose proof (Nat.mod_upper_bound (width - String.length s) 2 ltac:(lia)) as Hm.
    lia.
Qed.

Lemma center_layout_witness :
  center (VStr "KTR-Versova") 40 = Ok ("              KTR-Versova" ++ Str.LF) /\
  center (VStr "----------------------------------------") 40
  = Ok ("----------------------------------------" ++ Str.LF).
Proof.
  split.
  - apply (center_layout "KTR-Versova" 40).
  - apply (center_layout "----------------------------------------" 40).
Defined.

(** ** What the loops write *)

Lemma lines_app {A : Type} (f : A -> string) (l1 l2 : list A) :
  lines f (l1 ++ l2) = lines f l1 ++ lines f l2.
Proof.
  induction l1 as [|x l1 IH]; simpl; [reflexivity|].
  now rewrite IH, append_assoc.
Qed.

Lemma forEach_lines (body : value -> string -> result string) (f : value -> string)
    (l : list value) :
  (forall x r r', body x r = Ok r' -> r' = r ++ f x) ->
  forall r r', forEach l body r = Ok r' -> r' = r ++ lines f l.
Proof.
  intros Hbody. induction l as [|x l IH]; simpl; intros r r' H.
  - apply Ok_inj in H. subst. now rewrite append_nil_r.
  - inv_bind H. apply Hbody in E. apply IH in H. subst.
    now rewrite append_assoc.
Qed.

Lemma forEach_each (body : value -> string -> result string) (l : list value) :
  forall r r', forEach l body r = Ok r' ->
  forall x, In x l -> exists r1 r2, body x r1 = Ok r2.
Proof.
  induction l as [|y l IH]; simpl; intros r r' H x Hin; [contradiction|].
  inv_bind H. destruct Hin as [->|Hin]; [eauto|]. eapply IH; eassumption.
Qed.

Lemma positive_length_read (sc len : value) (b : bool) :
  get sc "length" = Ok len -> gt_num len Num.zero = Ok b ->
  has_positive_length sc = b.
Proof.
  intros Hlen Hgt. unfold has_positive_length.
  apply get_ok_prop in Hlen. subst len. now rewrite Hgt.
Qed.

Lemma customizations_lines (prefix : string) (item : value) (r r' : string) :
  customizations prefix item r = Ok r' ->
  r' = r ++ customization_lines prefix item.
Proof.
  unfold customizations, customization_lines. intros H. inv_binds H.
  apply get_ok_prop in E. subst x.
  set (sc := prop item "selectedCustomizations") in *.
  destruct (to_boolean sc) eqn:Hb; cbn [andb].
  - inv_bind E0. rewrite (positive_length_read _ _ _ E E0).
    destruct x0.
    + inv_bind H. destruct sc; try discriminate. apply Ok_inj in E1. subst x0.
      revert H. apply forEach_lines. clear. intros c r r' H. inv_binds H.
      apply get_ok_prop in E. apply or_else_ok in E0. apply to_string_show in E1.
      apply Ok_inj in H. subst. reflexivity.
    + apply Ok_inj in H. subst. now rewrite append_nil_r.
  - apply Ok_inj in E0. subst x0. apply Ok_inj in H. subst.
    now rewrite append_nil_r.
Qed.

Lemma customizations_walkable (prefix : string) (item : value) (r r' : string) :
  customizations prefix item r = Ok r' ->
  customizations_ok (prop item "selectedCustomizations") = true.
Proof.
  unfold customizations, customizations_ok. intros H. inv_binds H.
  apply get_ok_prop in E. subst x.
  set (sc := prop item "selectedCustomizations") in *.
  destruct (to_boolean sc) eqn:Hb; cbn [andb]; [|reflexivity].
  inv_bind E0. rewrite (positive_length_read _ _ _ E E0).
  destruct x0; [|reflexivity].
  inv_bind H. destruct sc; try discriminate. apply Ok_inj in E1. subst x0.
  apply forallb_forall. intros c Hc.
  destruct (forEach_each _ _ _ _ H c Hc) as (r1 & r2 & Hrun).
  inv_bind Hrun. now destruct c.
Qed.

Lemma bill_item_lines (item : value) (r r' : string) :
  bill_item item r = Ok r' -> r' = r ++ bill_item_text item.
Proof.
  unfold bill_item. intros H. inv_binds H.
  apply customizations_lines in H.
  repeat match goal with
  | H : get _ _ = Ok _ |- _ => apply get_ok_prop in H
  | H : to_string _ = Ok _ |- _ => apply to_string_show in H
  | H : padEnd _ _ = Ok _ |- _ => apply padEnd_cell in H
  | H : padStart _ _ = Ok _ |- _ => apply padStart_cell in H
  end.
  subst. unfold bill_item_text, item_row, amount_text, item_amount.
  match goal with
  | H : mul _ _ = Ok _ |- _ => rewrite H
  end.
  cbn [show]. now rewrite !append_assoc.
Qed.

Lemma kot_item_lines (item : value) (r r' : string) :
  kot_item item r = Ok r' -> r' = r ++ kot_item_text item.
Proof.
  unfold kot_item. intros H. inv_binds H.
  apply customizations_lines in H.
  repeat match goal with
  | H : get _ _ = Ok _ |- _ => apply get_ok_prop in H
  | H : to_string _ = Ok _ |- _ => apply to_string_show in H
  | H : padEnd _ _ = Ok _ |- _ => apply padEnd_cell in H
  end.
  subst. unfold kot_item_text. now rewrite !append_assoc.
Qed.

Lemma bill_item_walkable (item : value) (r r' : string) :
  bill_item item r = Ok r' -> item_ok item = true.
Proof.
  unfold bill_item, item_ok. intros H. inv_binds H.
  apply customizations_walkable in H. rewrite H.
  now destruct item.
Qed.

Lemma kot_item_walkable (item : value) (r r' : string) :
  kot_item item r = Ok r' -> item_ok item = true.
Proof.
  unfold kot_item, item_ok. intros H. inv_binds H.
  apply customizations_walkable in H. rewrite H.
  now destruct item.
Qed.

(** X4: whatever an item holds, its row on the bill is exactly 40 columns
    wide before the line feed: the name in 22, the quantity in 4 and the
    amount in 14, each cut to its cell when it is longer.  The row comes
    first in what the item adds to the bill. *)
Theorem bill_row_width (item : value) (r r' : string) :
  bill_item item r = Ok r' ->
  r' = r ++ item_row item ++ customization_lines "  + " item /\
  String.length (item_row item) = 40 + String.length Str.LF /\
  exists name qty amt,
    item_row item = name ++ qty ++ amt ++ Str.LF /\
    String.length name = 22 /\ String.length qty = 4 /\ String.length amt = 14.
Proof.
  intros H. apply bill_item_lines in H. split; [exact H|].
  unfold item_row. split.
  - rewrite !length_append, !left_cell_length, right_cell_length. reflexivity.
  - do 3 eexists. split; [reflexivity|].
    now rewrite !left_cell_length, right_cell_length.
Qed.

Lemma bill_row_width_witness :
  String.length (item_row Sample.catering) = 40 + String.length Str.LF.
Proof.
  eapply (bill_row_width Sample.catering ""). vm_compute. reflexivity.
Defined.

(** ** Items in order *)

Lemma ends_here (block : string) : exists head, block = head ++ block.
Proof. now exists "". Qed.

Lemma ends_skip (a d block : string) :
  (exists head, d = head ++ block) -> exists head, a ++ d = head ++ block.
Proof. intros [head ->]. exists (a ++ head). now rewrite append_assoc. Qed.

(** Looks for the end of a text written as a right-nested concatenation. *)
Ltac find_end := repeat first [ apply ends_here | apply ends_skip ].

Lemma food_filter_kept (orderDetails : value) (foods : list value) :
  filter_items orderDetails is_food = Ok foods -> foods = food_items orderDetails.
Proof.
  intros H. apply filter_items_order in H.
  now apply (filter_spec _ _ is_food_spec) in H.
Qed.

Lemma coffee_filter_kept (orderDetails : value) (coffees : list value) :
  filter_items orderDetails is_coffee = Ok coffees ->
  coffees = coffee_items orderDetails.
Proof.
  intros H. apply filter_items_order in H.
  now apply (filter_spec _ _ is_coffee_spec) in H.
Qed.

(** X5: between its column header and its totals the bill holds the items of
    the order, every one of them, in the order of [orderDetails.items]: for
    each its row and then one line for each of its customizations; the rule
    and the totals follow the last of them directly. *)
Theorem bill_items_in_order now orderId kot_code KDSInvoiceId orderDetails orderType
    transactionDetails doc :
  buildBillEscPos now orderId kot_code KDSInvoiceId orderDetails orderType
    transactionDetails = Ok doc ->
  exists subtotal total,
    prop orderDetails "subtotal" = VNum subtotal /\
    prop orderDetails "total" = VNum total /\
    occurs (bill_column_header
            ++ lines bill_item_text (order_items orderDetails)
            ++ RULE ++ totals_block orderDetails subtotal total) doc.
Proof.
  intros H. unfold buildBillEscPos in H. inv_binds H. inv_ok H.
  match goal with
  | H1 : items_or_empty _ = Ok _, H2 : array_elems _ = Ok _ |- _ =>
      pose proof (bill_items_walked _ _ _ H1 H2) as Hitems
  end.
  match goal with
  | H : forEach _ bill_item _ = Ok _ |- _ =>
      apply (forEach_lines bill_item bill_item_text _ bill_item_lines) in H
  end.
  repeat match goal with
  | H : call_toFixed _ _ = Ok _ |- _ =>
      apply call_toFixed_num in H; destruct H as (? & ? & ?)
  | H : twoCol _ _ _ = Ok _ |- _ => rewrite twoCol_row in H; inv_ok H
  | H : padEnd _ _ = Ok _ |- _ => apply padEnd_cell in H
  | H : padStart _ _ = Ok _ |- _ => apply padStart_cell in H
  | H : get _ _ = Ok _ |- _ => apply get_ok_prop in H
  end.
  subst. cbn [show] in *.
  match goal with
  | H1 : div ?a ?b = Ok ?x, H2 : div ?a ?b = Ok ?y |- _ =>
      assert (x = y) by congruence; subst y; clear H2
  end.
  match goal with
  | Hs : prop orderDetails "subtotal" = VNum ?s,
    Ht : prop orderDetails "total" = VNum ?t |- _ =>
      exists s, t; rewrite Hs, Ht
  end.
  split; [reflexivity|]. split; [reflexivity|].
  unfold bill_column_header, totals_block, half_tax.
  match goal with
  | H : div _ _ = Ok _ |- _ => rewrite H
  end.
  rewrite !append_assoc. find_block.
Qed.

Lemma bill_items_in_order_witness :
  exists doc,
    buildBillEscPos Sample.now Sample.orderId Sample.kot_code VUndefined Sample.order
      VUndefined VUndefined = Ok doc /\
    occurs (bill_column_header
            ++ ("Masala Dosa           1         Rs 60.00" ++ Str.LF
                ++ "  + Extra ghee" ++ Str.LF
                ++ "  + No onion" ++ Str.LF
                ++ "Filter Coffee         1         Rs 40.00" ++ Str.LF)
            ++ RULE
            ++ totals_block Sample.order (Num.of_Z 100) (Num.of_Z 110)) doc.
Proof.
  eexists. split; [vm_compute; reflexivity|].
  match goal with
  | |- occurs _ ?doc =>
      destruct (bill_items_in_order Sample.now Sample.orderId Sample.kot_code
                  VUndefined Sample.order VUndefined VUndefined doc)
        as (subtotal & total & Hs & Ht & Hdoc); [vm_compute; reflexivity|]
  end.
  injection Hs as <-. injection Ht as <-. exact Hdoc.
Defined.

(** X6: a food ticket ends with its column header, the food items of the
    order in the order of [orderDetails.items] (for each the quantity in 5
    columns, the name, and one line for each customization) and the fixed
    footer; no coffee item is on it and there is at least one item. *)
Theorem food_ticket_items_in_order now orderId kot_code KDSInvoiceId orderDetails doc :
  buildFoodKOTEscPos now orderId kot_code KDSInvoiceId orderDetails = Ok (Some doc) ->
  food_items orderDetails <> [] /\
  exists head,
    doc = head ++ food_column_header
          ++ lines kot_item_text (food_items orderDetails) ++ food_footer.
Proof.
  unfold buildFoodKOTEscPos. intros H. inv_bind H.
  apply food_filter_kept in E. subst x.
  destruct (food_items orderDetails) as [|item rest] eqn:Hitems;
    [discriminate|]. cbn [List.length Nat.eqb] in H.
  split; [discriminate|]. inv_binds H.
  apply Ok_inj in H. injection H as <-.
  match goal with
  | H : forEach _ kot_item _ = Ok _ |- _ =>
      apply (forEach_lines kot_item kot_item_text _ kot_item_lines) in H; subst
  end.
  unfold food_column_header, food_footer. rewrite !append_assoc. find_end.
Qed.

Lemma food_ticket_items_in_order_witness :
  exists doc head,
    buildFoodKOTEscPos Sample.now Sample.orderId Sample.kot_code VUndefined Sample.order
      = Ok (Some doc) /\
    doc = head ++ food_column_header
          ++ ("1    Masala Dosa" ++ Str.LF
              ++ "       + Extra ghee" ++ Str.LF
              ++ "       + No onion" ++ Str.LF)
          ++ food_footer.
Proof.
  eexists.
  match goal with
  | |- exists head, ?b = Ok (Some ?doc) /\ _ =>
      assert (Hdoc : b = Ok (Some doc)) by (vm_compute; reflexivity)
  end.
  destruct (food_ticket_items_in_order _ _ _ _ _ _ Hdoc) as (_ & head & Hhead).
  exists head. split; [exact Hdoc | exact Hhead].
Defined.

(** X7: a coffee ticket ends with its column header, the coffee items of the
    order in the order of [orderDetails.items] and the footer that sends it
    to the coffee counter; no other item is on it and there is at least one
    item. *)
Theorem coffee_ticket_items_in_order now orderId kot_code KDSInvoiceId orderDetails doc :
  buildCoffeeKOTEscPos now orderId kot_code KDSInvoiceId orderDetails = Ok (Some doc) ->
  coffee_items orderDetails <> [] /\
  exists head,
    doc = head ++ coffee_column_header
          ++ lines kot_item_text (coffee_items orderDetails) ++ coffee_footer.
Proof.
  unfold buildCoffeeKOTEscPos. intros H. inv_bind H.
  apply coffee_filter_kept in E. subst x.
  destruct (coffee_items orderDetails) as [|item rest] eqn:Hitems;
    [discriminate|]. cbn [List.length Nat.eqb] in H.
  split; [discriminate|]. inv_binds H.
  apply Ok_inj in H. injection H as <-.
  match goal with
  | H : forEach _ kot_item _ = Ok _ |- _ =>
      apply (forEach_lines kot_item kot_item_text _ kot_item_lines) in H; subst
  end.
  unfold coffee_column_header, coffee_footer. rewrite !append_assoc. find_end.
Qed.

Lemma coffee_ticket_items_in_order_witness :
  exists doc head,
    buildCoffeeKOTEscPos Sample.now Sample.orderId Sample.kot_code VUndefined
      Sample.order = Ok (Some doc) /\
    doc = head ++ coffee_column_header
          ++ ("1    Filter Coffee" ++ Str.LF) ++ coffee_footer.
Proof.
  eexists.
  match goal with
  | |- exists head, ?b = Ok (Some ?doc) /\ _ =>
      assert (Hdoc : b = Ok (Some doc)) by (vm_compute; reflexivity)
  end.
  destruct (coffee_ticket_items_in_order _ _ _ _ _ _ Hdoc) as (_ & head & Hhead).
  exists head. split; [exact Hdoc | exact Hhead].
Defined.

(** ** Metadata of the documents *)

Lemma append_nil_l (s : string) : "" ++ s = s.
Proof. reflexivity. Qed.

Lemma starts_exact (line : string) : exists t, line = line ++ t.
Proof. exists "". now rewrite append_nil_r. Qed.

(** Looks for a block of consecutive pieces that may end the text. *)
Ltac find_last_block :=
  repeat first
    [ apply starts_occurs;
      solve [repeat first [apply starts_last | apply starts_cons | apply starts_exact]]
    | apply occurs_right ].

(** X8: the bill shows the KDS invoice identifier on a line of its own
    between the bill number and the date exactly when [KDSInvoiceId] is
    truthy; when it is missing or falsy the date follows the bill number
    directly. *)
Theorem bill_kds_line now orderId kot_code KDSInvoiceId orderDetails orderType
    transactionDetails doc :
  buildBillEscPos now orderId kot_code KDSInvoiceId orderDetails orderType
    transactionDetails = Ok doc ->
  let kds :=
    if to_boolean KDSInvoiceId then "KDS ID  : " ++ show KDSInvoiceId ++ Str.LF
    else "" in
  occurs (("BILL NO : " ++ show orderId ++ Str.LF)
          ++ kds
          ++ ("DATE    : " ++ getDateTime now ++ Str.LF)) doc.
Proof.
  unfold buildBillEscPos. intros H. inv_binds H. inv_ok H.
  match goal with
  | H : forEach _ bill_item _ = Ok _ |- _ =>
      apply forEach_extends in H; [|exact bill_item_extends]
  end.
  match goal with
  | H : to_string orderId = Ok _ |- _ => apply to_string_show in H; subst
  end.
  cbv zeta.
  match goal with
  | H : (if to_boolean KDSInvoiceId then _ else Ok _) = Ok _ |- _ =>
      destruct (to_boolean KDSInvoiceId); [inv_binds H|]; inv_ok H
  end; cbv beta iota.
  - match goal with
    | H : to_string KDSInvoiceId = Ok _ |- _ => apply to_string_show in H; subst
    end.
    repeat first
      [ eapply occurs_extends; [|eassumption]
      | match goal with
        | |- occurs _ (_ ++ "DATE    : " ++ _ ++ _) =>
            rewrite !append_assoc; find_last_block
        end
      | apply occurs_left ].
  - rewrite append_nil_l.
    repeat first
      [ eapply occurs_extends; [|eassumption]
      | match goal with
        | |- occurs _ (_ ++ "DATE    : " ++ _ ++ _) =>
            rewrite !append_assoc; find_last_block
        end
      | apply occurs_left ].
Qed.

Lemma bill_kds_line_witness :
  exists doc,
    buildBillEscPos Sample.now Sample.orderId Sample.kot_code (VStr "KDS-77")
      Sample.order VUndefined VUndefined = Ok doc /\
    occurs ("BILL NO : ORD-123456789" ++ Str.LF
            ++ "KDS ID  : KDS-77" ++ Str.LF
            ++ "DATE    : 02/11/2026  06:40 PM" ++ Str.LF) doc.
Proof.
  eexists. split; [vm_compute; reflexivity|].
  apply (bill_kds_line Sample.now Sample.orderId Sample.kot_code (VStr "KDS-77")
           Sample.order VUndefined VUndefined).
  vm_compute. reflexivity.
Defined.

Lemma call_slice_from_ok (v : value) (start : nat) (x : value) :
  call_slice_from v start = Ok x -> sliceable v = true.
Proof. now destruct v. Qed.

Lemma call_slice_ok (v : value) (start stop : nat) (x : value) :
  call_slice v start stop = Ok x -> sliceable v = true.
Proof. now destruct v. Qed.

(** X9: a kitchen ticket is only built from a ticket code and an order
    identifier that have a [slice] method (strings or arrays).  It shows in
    large type the ticket code from its fifth character on, under it the whole
    code, and in its metadata the bill type ([orderDetails.billType], 'DINE IN'
    when that is falsy; the [orderType] of the bill plays no part), the bill
    number 'KTR-' with characters 5 to 10 of the order identifier, the date
    and the kiosk ('KTR1' when falsy). *)
Theorem ticket_metadata now orderId kot_code KDSInvoiceId orderDetails doc :
  buildFoodKOTEscPos now orderId kot_code KDSInvoiceId orderDetails = Ok (Some doc)
  \/ buildCoffeeKOTEscPos now orderId kot_code KDSInvoiceId orderDetails = Ok (Some doc) ->
  exists token number,
    call_slice_from kot_code 4 = Ok token /\
    call_slice orderId 4 10 = Ok number /\
    sliceable kot_code = true /\ sliceable orderId = true /\
    occurs (CMD.DOUBLE_BOTH ++ (show token ++ Str.LF) ++ CMD.NORMAL_TEXT
            ++ ("KOT: " ++ show kot_code ++ Str.LF)) doc /\
    occurs (("BILL TYPE : "
             ++ show (truthy_or (prop orderDetails "billType") (VStr "DINE IN"))
             ++ Str.LF)
            ++ ("BILL NO   : KTR-" ++ show number ++ Str.LF)
            ++ ("DATE/TIME : " ++ getDateTime now ++ Str.LF)
            ++ ("KIOSK     : "
                ++ show (truthy_or (prop orderDetails "kiosk") (VStr "KTR1"))
                ++ Str.LF)) doc.
Proof.
  intros [H|H];
    [unfold buildFoodKOTEscPos in H | unfold buildCoffeeKOTEscPos in H].
  all: inv_bind H; destruct (Nat.eqb _ 0); [discriminate|]; inv_binds H.
  all: apply Ok_inj in H; injection H as <-.
  all: match goal with
       | H : forEach _ kot_item _ = Ok _ |- _ =>
           apply forEach_extends in H; [|exact kot_item_extends]
       end.
  all: match goal with
       | H1 : call_slice_from _ 4 = Ok ?t,
         H2 : call_slice _ 4 10 = Ok ?n |- _ =>
           exists t, n;
           pose proof (call_slice_from_ok _ _ _ H1);
           pose proof (call_slice_ok _ _ _ _ H2)
       end.
  all: read_steps.
  all: repeat split; try assumption.
  all: repeat first
         [ eapply occurs_extends; [|eassumption]
         | match goal with
           | |- occurs (CMD.DOUBLE_BOTH ++ _) (_ ++ "KOT: " ++ _ ++ _) =>
               rewrite !append_assoc; find_last_block
           | |- occurs (("BILL TYPE : " ++ _) ++ _) (_ ++ "KIOSK     : " ++ _ ++ _) =>
               rewrite !append_assoc; find_last_block
           end
         | apply occurs_left ].
Qed.

Lemma ticket_metadata_witness :
  exists doc,
    buildFoodKOTEscPos Sample.now Sample.orderId Sample.kot_code VUndefined Sample.order
      = Ok (Some doc) /\
    occurs (CMD.DOUBLE_BOTH ++ ("042" ++ Str.LF) ++ CMD.NORMAL_TEXT
            ++ ("KOT: KOT-042" ++ Str.LF)) doc /\
    occurs ("BILL TYPE : DINE IN" ++ Str.LF
            ++ "BILL NO   : KTR-123456" ++ Str.LF
            ++ "DATE/TIME : 02/11/2026  06:40 PM" ++ Str.LF
            ++ "KIOSK     : KTR1" ++ Str.LF) doc.
Proof.
  eexists. split; [vm_compute; reflexivity|].
  match goal with
  | |- occurs _ ?doc /\ _ =>
      destruct (ticket_metadata Sample.now Sample.orderId Sample.kot_code VUndefined
                  Sample.order doc)
        as (token & number & Ht & Hn & _ & _ & H1 & H2);
        [left; vm_compute; reflexivity|]
  end.
  injection Ht as <-. injection Hn as <-. split; [exact H1 | exact H2].
Defined.

(** The bill and the tickets of one order can disagree on its type: the bill
    takes [orderType] first, the tickets only know [orderDetails.billType]. *)
Example ticket_type_ignores_order_type :
  exists bill ticket,
    buildBillEscPos Sample.now Sample.orderId Sample.kot_code VUndefined Sample.order
      (VStr "TAKEAWAY") VUndefined = Ok bill /\
    buildFoodKOTEscPos Sample.now Sample.orderId Sample.kot_code VUndefined Sample.order
      = Ok (Some ticket) /\
    occurs ("TYPE    : TAKEAWAY" ++ Str.LF) bill /\
    occurs ("BILL TYPE : DINE IN" ++ Str.LF) ticket.
Proof.
  do 2 eexists. split; [vm_compute; reflexivity|]. split; [vm_compute; reflexivity|].
  split; apply contains_occurs; vm_compute; reflexivity.
Qed.

(** ** When the builders throw *)

Lemma items_walked_ok (orderDetails v : value) (l : list value) :
  items_or_empty orderDetails = Ok v -> array_elems v = Ok l ->
  forallb item_ok l = true ->
  non_nullish orderDetails = true /\ items_ok orderDetails = true.
Proof.
  unfold items_or_empty, items_ok. intros H Hl Hall. inv_bind H.
  assert (Hnn : non_nullish orderDetails = true) by now destruct orderDetails.
  split; [exact Hnn|].
  apply get_ok_prop in E. subst x. unfold or_else in H.
  destruct (to_boolean (prop orderDetails "items")); [|reflexivity].
  apply Ok_inj in H. subst v.
  destruct (prop orderDetails "items"); try discriminate.
  apply Ok_inj in Hl. now subst.
Qed.

Lemma bill_needs_items now orderId kot_code KDSInvoiceId orderDetails orderType td doc :
  buildBillEscPos now orderId kot_code KDSInvoiceId orderDetails orderType td = Ok doc ->
  non_nullish orderDetails = true /\ items_ok orderDetails = true.
Proof.
  unfold buildBillEscPos. intros H. inv_binds H.
  match goal with
  | H1 : items_or_empty _ = Ok _, H2 : array_elems _ = Ok _ |- _ =>
      apply (items_walked_ok _ _ _ H1 H2)
  end.
  apply forallb_forall. intros item Hin.
  match goal with
  | H : forEach _ bill_item _ = Ok _ |- _ =>
      destruct (forEach_each _ _ _ _ H item Hin) as (r1 & r2 & Hrun)
  end.
  eapply bill_item_walkable; eassumption.
Qed.

(** X10: on plain data the bill builder returns a document exactly when the
    order is not [undefined] or [null], its [items] are missing, falsy or an
    array of items the loop can walk (none [undefined] or [null], each with
    customizations that are missing, empty, or an array without [undefined] or
    [null]), and its [subtotal] and [total] are Numbers; in every other case
    it throws.  A text given where the array of customizations should be
    makes it throw. *)
Theorem bill_built_iff now orderId kot_code KDSInvoiceId orderDetails orderType
    transactionDetails :
  plain orderDetails = true ->
  plain orderId = true -> plain kot_code = true ->
  plain KDSInvoiceId = true -> plain orderType = true ->
  ((exists doc,
      buildBillEscPos now orderId kot_code KDSInvoiceId orderDetails orderType
        transactionDetails = Ok doc)
   <-> non_nullish orderDetails = true /\ items_ok orderDetails = true
       /\ is_number (prop orderDetails "subtotal") = true
       /\ is_number (prop orderDetails "total") = true)
  /\ ((exists e,
         buildBillEscPos now orderId kot_code KDSInvoiceId orderDetails orderType
           transactionDetails = Throw e)
      <-> ~ (non_nullish orderDetails = true /\ items_ok orderDetails = true
             /\ is_number (prop orderDetails "subtotal") = true
             /\ is_number (prop orderDetails "total") = true)).
Proof.
  intros Hplain Hid Hkot Hkds Hty.
  assert (Hiff :
    (exists doc,
       buildBillEscPos now orderId kot_code KDSInvoiceId orderDetails orderType
         transactionDetails = Ok doc)
    <-> non_nullish orderDetails = true /\ items_ok orderDetails = true
        /\ is_number (prop orderDetails "subtotal") = true
        /\ is_number (prop orderDetails "total") = true).
  { split.
    - intros [doc H].
      destruct (bill_needs_items _ _ _ _ _ _ _ _ H) as [Hnn Hitems].
      destruct (bill_needs_totals _ _ _ _ _ _ _ _ H) as [Hs Ht]. auto.
    - intros (Hnn & Hitems & Hs & Ht). apply bill_built; try assumption.
      unfold wf_order. now rewrite Hnn, Hplain, Hitems. }
  split; [exact Hiff|].
  destruct (buildBillEscPos now orderId kot_code KDSInvoiceId orderDetails orderType
              transactionDetails) as [doc|e] eqn:Hrun.
  - split.
    + intros [e He]. discriminate.
    + intros Hnot. exfalso. apply Hnot. apply Hiff. eauto.
  - split.
    + intros _ Hok. apply Hiff in Hok. destruct Hok as [doc Hdoc]. discriminate.
    + intros _. eauto.
Qed.

Lemma bill_built_iff_witness :
  let orderDetails :=
    VObj [("items", VArr [VObj [("itemName", VStr "Idli"); ("price", Sample.num 30);
                                ("quantity", Sample.num 2);
                                ("selectedCustomizations", VStr "Extra ghee")]]);
          ("subtotal", Sample.num 60); ("tax", Sample.num 3);
          ("total", Sample.num 63)] in
  plain orderDetails = true /\ items_ok orderDetails = false /\
  exists e,
    buildBillEscPos Sample.now Sample.orderId Sample.kot_code VUndefined orderDetails
      VUndefined VUndefined = Throw e.
Proof.
  cbv zeta. split; [reflexivity|]. split; [reflexivity|].
  apply (bill_built_iff Sample.now Sample.orderId Sample.kot_code VUndefined
           (VObj [("items", VArr [VObj [("itemName", VStr "Idli");
                                        ("price", Sample.num 30);
                                        ("quantity", Sample.num 2);
                                        ("selectedCustomizations", VStr "Extra ghee")]]);
                  ("subtotal", Sample.num 60); ("tax", Sample.num 3);
                  ("total", Sample.num 63)])
           VUndefined VUndefined); try reflexivity.
  intros (_ & H & _). discriminate H.
Defined.

(** X11: a kitchen ticket is only built when the order is not [undefined] or
    [null], no entry of its [items] is, and every item the ticket keeps can
    be walked; the items it leaves to the other ticket are not looked at
    beyond their category. *)
Theorem ticket_needs_items now orderId kot_code KDSInvoiceId orderDetails doc :
  buildFoodKOTEscPos now orderId kot_code KDSInvoiceId orderDetails = Ok (Some doc)
  \/ buildCoffeeKOTEscPos now orderId kot_code KDSInvoiceId orderDetails = Ok (Some doc) ->
  non_nullish orderDetails = true /\
  forallb non_nullish (order_items orderDetails) = true /\
  exists kept,
    (buildFoodKOTEscPos now orderId kot_code KDSInvoiceId orderDetails = Ok (Some doc)
     /\ kept = food_items orderDetails
     \/ buildCoffeeKOTEscPos now orderId kot_code KDSInvoiceId orderDetails
        = Ok (Some doc)
        /\ kept = coffee_items orderDetails)
    /\ forallb item_ok kept = true.
Proof.
  assert (Hfilter : forall pred kept,
            (forall x b, pred x = Ok b -> non_nullish x = true) ->
            filter_items orderDetails pred = Ok kept ->
            non_nullish orderDetails = true
            /\ forallb non_nullish (order_items orderDetails) = true).
  { intros pred kept Hpred H. split.
    - unfold filter_items, items_or_empty in H. inv_binds H. inv_bind E.
      now destruct orderDetails.
    - apply filter_items_order in H. revert kept H.
      induction (order_items orderDetails) as [|x l IH]; simpl; intros kept H;
        [reflexivity|].
      inv_binds H. rewrite (Hpred _ _ E). simpl. eapply IH; eassumption. }
  assert (Hfood : forall x b, is_food x = Ok b -> non_nullish x = true).
  { intros x b H. unfold is_food in H. inv_bind H. now destruct x. }
  assert (Hcoffee : forall x b, is_coffee x = Ok b -> non_nullish x = true).
  { intros x b H. unfold is_coffee in H. inv_bind H. now destruct x. }
  intros [H|H]; pose proof H as Hrun;
    [unfold buildFoodKOTEscPos in H | unfold buildCoffeeKOTEscPos in H].
  all: inv_bind H.
  all: match goal with
       | E : filter_items _ is_food = Ok _ |- _ =>
           destruct (Hfilter _ _ Hfood E) as [Hnn Hall];
           apply food_filter_kept in E
       | E : filter_items _ is_coffee = Ok _ |- _ =>
           destruct (Hfilter _ _ Hcoffee E) as [Hnn Hall];
           apply coffee_filter_kept in E
       end; subst x.
  all: split; [exact Hnn|]; split; [exact Hall|].
  all: destruct (Nat.eqb _ 0); [discriminate|]; inv_binds H.
  all: eexists; split; [first [left; split; [exact Hrun|reflexivity]
                              | right; split; [exact Hrun|reflexivity]]|].
  all: apply forallb_forall; intros item Hin.
  all: match goal with
       | H : forEach _ kot_item _ = Ok _ |- _ =>
           destruct (forEach_each _ _ _ _ H item Hin) as (r1 & r2 & Hitem)
       end.
  all: eapply kot_item_walkable; eassumption.
Qed.

Lemma ticket_needs_items_witness :
  exists doc,
    buildCoffeeKOTEscPos Sample.now Sample.orderId Sample.kot_code VUndefined
      Sample.order = Ok (Some doc) /\
    non_nullish Sample.order = true /\
    forallb non_nullish (order_items Sample.order) = true.
Proof.
  eexists.
  match goal with
  | |- ?b = Ok (Some ?doc) /\ _ =>
      assert (Hdoc : b = Ok (Some doc)) by (vm_compute; reflexivity)
  end.
  split; [exact Hdoc|].
  destruct (ticket_needs_items Sample.now Sample.orderId Sample.kot_code VUndefined
              Sample.order _ (or_intror Hdoc)) as (Hnn & Hall & _).
  split; [exact Hnn | exact Hall].
Defined.

(** A food ticket is printed for an order whose coffee carries a text where
    its customizations should be; the coffee ticket and the bill of the same
    order throw. *)
Example food_ticket_despite_bad_coffee :
  let bad_coffee :=
    VObj [("itemName", VStr "Filter Coffee"); ("price", Sample.num 40);
          ("quantity", Sample.num 1); ("categoryId", VStr COFFEE_CATEGORY_ID);
          ("selectedCustomizations", VStr "Less sugar")] in
  let orderDetails :=
    VObj [("items", VArr [Sample.dosa; bad_coffee]); ("subtotal", Sample.num 100);
          ("tax", Sample.num 10); ("total", Sample.num 110)] in
  (exists doc,
     buildFoodKOTEscPos Sample.now Sample.orderId Sample.kot_code VUndefined
       orderDetails = Ok (Some doc)) /\
  buildCoffeeKOTEscPos Sample.now Sample.orderId Sample.kot_code VUndefined
    orderDetails = Throw TypeError /\
  buildBillEscPos Sample.now Sample.orderId Sample.kot_code VUndefined orderDetails
    VUndefined VUndefined = Throw TypeError.
Proof.
  cbv zeta. split; [eexists; vm_compute; reflexivity|].
  split; vm_compute; reflexivity.
Qed.

(** X12: for an order that is [undefined] or [null] every builder throws:
    none returns a document and the ticket builders do not return null. *)
Theorem null_order_throws now orderId kot_code KDSInvoiceId orderDetails orderType
    transactionDetails :
  non_nullish orderDetails = false ->
  (exists e,
     buildBillEscPos now orderId kot_code KDSInvoiceId orderDetails orderType
       transactionDetails = Throw e) /\
  buildFoodKOTEscPos now orderId kot_code KDSInvoiceId orderDetails = Throw TypeError /\
  buildCoffeeKOTEscPos now orderId kot_code KDSInvoiceId orderDetails = Throw TypeError.
Proof.
  intros Hnull. split; [|split].
  - destruct (buildBillEscPos now orderId kot_code KDSInvoiceId orderDetails orderType
                transactionDetails) as [doc|e] eqn:Hrun; [|eauto].
    apply bill_needs_items in Hrun. destruct Hrun as [Hnn _]. congruence.
  - now destruct orderDetails.
  - now destruct orderDetails.
Qed.

Lemma null_order_throws_witness :
  non_nullish VNull = false /\
  buildFoodKOTEscPos Sample.now Sample.orderId Sample.kot_code VUndefined VNull
  = Throw TypeError.
Proof.
  split; [reflexivity|].
  apply (null_order_throws Sample.now Sample.orderId Sample.kot_code VUndefined VNull
           VUndefined VUndefined).
  reflexivity.
Defined.

(** X13: on an order record the builders can read, the two ticket builders
    both return null exactly when the order has no item: an order with an
    item always has a kitchen ticket to print or a ticket builder that
    throws. *)
Theorem no_ticket_iff_no_item now orderId kot_code KDSInvoiceId orderDetails :
  wf_order orderDetails = true ->
  (buildFoodKOTEscPos now orderId kot_code KDSInvoiceId orderDetails = Ok None
   /\ buildCoffeeKOTEscPos now orderId kot_code KDSInvoiceId orderDetails = Ok None)
  <-> order_items orderDetails = [].
Proof.
  intros Hwf.
  assert (Hfood : buildFoodKOTEscPos now orderId kot_code KDSInvoiceId orderDetails
                  = Ok None <-> food_items orderDetails = []).
  { unfold buildFoodKOTEscPos. rewrite food_filter_wf by exact Hwf. cbn [bind].
    destruct (food_items orderDetails) as [|x l]; cbn [List.length Nat.eqb].
    - split; reflexivity.
    - split; [|discriminate]. intros H. inv_binds H. discriminate. }
  assert (Hcoffee : buildCoffeeKOTEscPos now orderId kot_code KDSInvoiceId orderDetails
                    = Ok None <-> coffee_items orderDetails = []).
  { unfold buildCoffeeKOTEscPos. rewrite coffee_filter_wf by exact Hwf. cbn [bind].
    destruct (coffee_items orderDetails) as [|x l]; cbn [List.length Nat.eqb].
    - split; reflexivity.
    - split; [|discriminate]. intros H. inv_binds H. discriminate. }
  rewrite Hfood, Hcoffee. unfold food_items, coffee_items.
  pose proof (partition_permutation coffee_category (order_items orderDetails)) as Hperm.
  split.
  - intros [Hf Hc]. rewrite Hf, Hc in Hperm. now apply Permutation_nil.
    
  - intros H. rewrite H. split; reflexivity.
Qed.

Lemma no_ticket_iff_no_item_witness :
  wf_order Sample.order_without_items = true /\
  buildFoodKOTEscPos Sample.now Sample.orderId Sample.kot_code VUndefined
    Sample.order_without_items = Ok None.
Proof.
  split; [reflexivity|].
  apply (no_ticket_iff_no_item Sample.now Sample.orderId Sample.kot_code VUndefined
           Sample.order_without_items); reflexivity.
Defined.

(** ** The bridge callers *)

(** X14: with the bridge present, [androidPrintFoodKOT] and
    [androidPrintCoffeeKOT] return true exactly when their builder returned a
    document, and then that document, and nothing else, has been handed to
    the bridge on channel 'USB' with an empty second parameter; when the
    builder returned null they return false and the bridge is not called.  A
    document is never the empty text, so [!escPos] only ever skips null. *)
Theorem ticket_callers_send now_world orderId kot_code KDSInvoiceId orderDetails :
  isAndroidBridge now_world = true ->
  let food := buildFoodKOTEscPos (clock now_world) orderId kot_code KDSInvoiceId
                orderDetails in
  let coffee := buildCoffeeKOTEscPos (clock now_world) orderId kot_code KDSInvoiceId
                  orderDetails in
  let after_food := androidPrintFoodKOT orderId kot_code KDSInvoiceId orderDetails
                      now_world in
  let after_coffee := androidPrintCoffeeKOT orderId kot_code KDSInvoiceId orderDetails
                        now_world in
  fst after_food = sent_flag food /\
  printed (snd after_food) = (printed now_world ++ sent food)%list /\
  fst after_coffee = sent_flag coffee /\
  printed (snd after_coffee) = (printed now_world ++ sent coffee)%list /\
  (fst after_food = Ok true <-> exists doc, food = Ok (Some doc)) /\
  (fst after_coffee = Ok true <-> exists doc, coffee = Ok (Some doc)).
Proof.
  intros Hbridge. cbv zeta.
  destruct (run_task_sent (FoodKOTTask orderId kot_code KDSInvoiceId orderDetails)
              now_world Hbridge) as [Hf1 Hf2].
  destruct (run_task_sent (CoffeeKOTTask orderId kot_code KDSInvoiceId orderDetails)
              now_world Hbridge) as [Hc1 Hc2].
  cbn [run_task ticket_of] in Hf1, Hf2, Hc1, Hc2.
  repeat split; try assumption.
  - rewrite Hf1. destruct (buildFoodKOTEscPos _ _ _ _ _) as [[doc|]|e];
      cbn [sent_flag]; intros H; try discriminate. eauto.
  - intros [doc Hdoc]. rewrite Hf1, Hdoc. reflexivity.
  - rewrite Hc1. destruct (buildCoffeeKOTEscPos _ _ _ _ _) as [[doc|]|e];
      cbn [sent_flag]; intros H; try discriminate. eauto.
  - intros [doc Hdoc]. rewrite Hc1, Hdoc. reflexivity.
Qed.

Lemma ticket_callers_send_witness :
  isAndroidBridge Sample.kiosk = true /\
  fst (androidPrintFoodKOT Sample.orderId Sample.kot_code VUndefined Sample.coffee_order
         Sample.kiosk) = Ok false /\
  printed (snd (androidPrintFoodKOT Sample.orderId Sample.kot_code VUndefined
                  Sample.coffee_order Sample.kiosk)) = [].
Proof.
  split; [reflexivity|].
  destruct (ticket_callers_send Sample.kiosk Sample.orderId Sample.kot_code VUndefined
              Sample.coffee_order eq_refl) as (H1 & H2 & _).
  split; [exact H1 | exact H2].
Defined.

Lemma printBill_framed (doc : string) (w : world) :
  framed doc -> List.Forall usb_framed (printed w) ->
  List.Forall usb_framed (printed (snd (printBill "USB" "" doc w))).
Proof.
  intros Hdoc Hw. unfold printBill.
  destruct (has_window w), (has_bridge w); cbn [negb snd printed]; try exact Hw.
  apply Forall_app. split; [exact Hw|]. constructor; [|constructor].
  cbn. auto.
Qed.

Lemma run_task_framed (cb : callback) (w : world) :
  List.Forall usb_framed (printed w) ->
  List.Forall usb_framed (printed (snd (run_task cb w))).
Proof.
  intros Hw. pose proof (ticket_framed cb (clock w)) as Hframed.
  destruct cb; cbn [run_task ticket_of] in *;
    unfold androidPrintFoodKOT, androidPrintCoffeeKOT, bindM, build.
  all: match goal with
       | |- context [buildFoodKOTEscPos ?a ?b ?c ?d ?e] =>
           destruct (buildFoodKOTEscPos a b c d e) as [[doc|]|err]
       | |- context [buildCoffeeKOTEscPos ?a ?b ?c ?d ?e] =>
           destruct (buildCoffeeKOTEscPos a b c d e) as [[doc|]|err]
       end.
  all: cbn [falsy_doc doc_text]; try exact Hw.
  all: rewrite (framed_not_empty doc (Hframed doc eq_refl)).
  all: unfold console_log, ret. cbn [fst snd].
  all: match goal with
       | |- context [printBill "USB" "" ?d ?w0] =>
           pose proof (printBill_framed d w0 (Hframed d eq_refl) Hw) as Hp;
           destruct (printBill "USB" "" d w0) as [[[]|e] w1]; exact Hp
       end.
Qed.

(** X15: everything these functions hand to the bridge is a whole ESC/POS
    document on channel 'USB' with an empty second parameter: if that holds
    of the calls recorded so far, it holds after [androidPrintBill], after
    [androidPrintAll] and after each of the two timer callbacks, whether they
    return or throw. *)
Theorem bridge_calls_framed w orderId kot_code KDSInvoiceId orderDetails orderType
    transactionDetails :
  List.Forall usb_framed (printed w) ->
  List.Forall usb_framed
    (printed (snd (androidPrintBill orderId kot_code KDSInvoiceId orderDetails
                     orderType transactionDetails w))) /\
  List.Forall usb_framed
    (printed (snd (androidPrintAll orderId kot_code KDSInvoiceId orderDetails
                     orderType transactionDetails w))) /\
  List.Forall usb_framed
    (printed (snd (androidPrintFoodKOT orderId kot_code KDSInvoiceId orderDetails w))) /\
  List.Forall usb_framed
    (printed (snd (androidPrintCoffeeKOT orderId kot_code KDSInvoiceId orderDetails w))).
Proof.
  intros Hw.
  assert (Hbill : forall w0, List.Forall usb_framed (printed w0) ->
            List.Forall usb_framed
              (printed (snd (androidPrintBill orderId kot_code KDSInvoiceId
                               orderDetails orderType transactionDetails w0)))).
  { intros w0 Hw0. unfold androidPrintBill, bindM, build.
    destruct (buildBillEscPos (clock w0) orderId kot_code KDSInvoiceId orderDetails
                orderType transactionDetails) as [doc|e] eqn:Hdoc;
      [|exact Hw0].
    apply bill_framed in Hdoc. unfold console_log. cbn [fst snd].
    match goal with
    | |- context [printBill "USB" "" ?d ?w1] =>
        exact (printBill_framed d w1 Hdoc Hw0)
    end. }
  split; [now apply Hbill|]. split.
  - unfold androidPrintAll, bindM at 1, console_log at 1. cbn [fst snd].
    match goal with
    | |- context [bindM (androidPrintBill ?a ?b ?c ?d ?e ?f) ?k ?w0] =>
        pose proof (Hbill w0 Hw) as Hp; unfold bindM at 1;
        destruct (androidPrintBill a b c d e f w0) as [[[]|err] w1]
    end.
    + unfold bindM, setTimeout. cbn [fst snd printed] in *. exact Hp.
    + exact Hp.
  - split.
    + apply (run_task_framed (FoodKOTTask orderId kot_code KDSInvoiceId orderDetails)
               w Hw).
    + apply (run_task_framed (CoffeeKOTTask orderId kot_code KDSInvoiceId orderDetails)
               w Hw).
Qed.

Lemma bridge_calls_framed_witness :
  List.Forall usb_framed (printed Sample.kiosk) /\
  List.Forall usb_framed
    (printed (snd (androidPrintAll Sample.orderId Sample.kot_code VUndefined
                     Sample.order VUndefined VUndefined Sample.kiosk))).
Proof.
  split; [constructor|].
  apply (bridge_calls_framed Sample.kiosk Sample.orderId Sample.kot_code VUndefined
           Sample.order VUndefined VUndefined).
  constructor.
Defined.

(** X16: [androidPrintBill] returns normally exactly when the bridge is
    there and the bill builder returns a document, and that document is then
    the one call added to the bridge; without [window] it throws a
    ReferenceError, without [window.AndroidPrint] a TypeError, after having
    built the bill and written its log line, and nothing reaches the
    bridge. *)
Theorem androidPrintBill_outcome w orderId kot_code KDSInvoiceId orderDetails orderType
    transactionDetails :
  let bill := buildBillEscPos (clock w) orderId kot_code KDSInvoiceId orderDetails
                orderType transactionDetails in
  let after := androidPrintBill orderId kot_code KDSInvoiceId orderDetails orderType
                 transactionDetails w in
  (fst after = Ok tt <-> isAndroidBridge w = true /\ exists doc, bill = Ok doc) /\
  (forall doc, bill = Ok doc ->
     fst after = (if negb (has_window w) then Throw ReferenceError
                  else if negb (has_bridge w) then Throw TypeError
                  else Ok tt) /\
     printed (snd after)
     = (printed w ++ (if isAndroidBridge w then [("USB", "", doc)] else []))%list) /\
  (forall e, bill = Throw e -> after = (Throw e, w)).
Proof.
  cbv zeta. unfold androidPrintBill, bindM, build, console_log, printBill,
    isAndroidBridge.
  destruct (buildBillEscPos (clock w) orderId kot_code KDSInvoiceId orderDetails
              orderType transactionDetails) as [doc|e].
  - cbn [fst snd has_window has_bridge printed].
    destruct (has_window w), (has_bridge w); cbn [negb andb fst snd printed].
    all: split; [|split].
    all: try (intros d Hd; apply Ok_inj in Hd; subst d;
              rewrite ?app_nil_r; split; reflexivity).
    all: try (intros e He; discriminate).
    all: split; try discriminate; try (intros [H _]; discriminate); eauto.
  - cbn [fst snd]. split; [|split].
    + split; [discriminate|]. intros [_ [doc H]]. discriminate.
    + intros doc H. discriminate.
    + intros e' [= <-]. reflexivity.
Qed.

Lemma androidPrintBill_outcome_witness :
  let desktop := mkWorld Sample.now true false [] [] [] in
  fst (androidPrintBill Sample.orderId Sample.kot_code VUndefined Sample.order
         VUndefined VUndefined desktop) = Throw TypeError.
Proof.
  cbv zeta.
  destruct (androidPrintBill_outcome (mkWorld Sample.now true false [] [] [])
              Sample.orderId Sample.kot_code VUndefined Sample.order VUndefined
              VUndefined) as (_ & H & _).
  destruct (buildBillEscPos Sample.now Sample.orderId Sample.kot_code VUndefined
              Sample.order VUndefined VUndefined) as [doc|e] eqn:Hdoc;
    [|vm_compute in Hdoc; discriminate].
  destruct (H doc Hdoc) as [Hres _]. exact Hres.
Defined.

(** X17: [androidPrintAll] does not look for the bridge itself.  Called
    where [isAndroidBridge] is false it throws, from the bill builder or from
    the call of the missing bridge, and registers no timer: no ticket will
    be printed. *)
Theorem androidPrintAll_without_bridge w orderId kot_code KDSInvoiceId orderDetails
    orderType transactionDetails :
  isAndroidBridge w = false ->
  exists e w',
    androidPrintAll orderId kot_code KDSInvoiceId orderDetails orderType
      transactionDetails w = (Throw e, w') /\
    printed w' = printed w /\ timers w' = timers w.
Proof.
  intros Hbridge.
  unfold androidPrintAll, androidPrintBill, bindM, build, console_log, printBill.
  cbn [clock has_window has_bridge printed timers].
  destruct (buildBillEscPos (clock w) orderId kot_code KDSInvoiceId orderDetails
              orderType transactionDetails) as [doc|e].
  - unfold isAndroidBridge in Hbridge.
    destruct (has_window w), (has_bridge w); try discriminate; cbn [negb];
      do 2 eexists; split; try reflexivity; split; reflexivity.
  - do 2 eexists. split; [reflexivity|]. split; reflexivity.
Qed.

Lemma androidPrintAll_without_bridge_witness :
  let browser := mkWorld Sample.now true false [] [] [] in
  isAndroidBridge browser = false /\
  exists e w',
    androidPrintAll Sample.orderId Sample.kot_code VUndefined Sample.order VUndefined
      VUndefined browser = (Throw e, w') /\
    printed w' = printed browser /\ timers w' = timers browser.
Proof.
  cbv zeta. split; [reflexivity|].
  apply (androidPrintAll_without_bridge (mkWorld Sample.now true false [] [] [])
           Sample.orderId Sample.kot_code VUndefined Sample.order VUndefined
           VUndefined).
  reflexivity.
Defined.

(** X18: the whole print job.  With the bridge present, no other timer
    pending and a bill that builds, [androidPrintAll] and the two turns of
    the event loop it sets up hand to the bridge the bill, then the food
    ticket, then the coffee ticket, in that order and nothing else.  Each
    ticket is built when its timer fires, so it carries the time 350 or 700
    time units after the bill; a ticket whose builder returns null or throws
    is left out, and a food ticket that throws does not stop the coffee
    ticket. *)
Theorem print_job w orderId kot_code KDSInvoiceId orderDetails orderType
    transactionDetails bill :
  isAndroidBridge w = true ->
  timers w = [] ->
  buildBillEscPos (clock w) orderId kot_code KDSInvoiceId orderDetails orderType
    transactionDetails = Ok bill ->
  let start := Clock.epoch_ms (clock w) in
  let later ms := Clock.mkDate (start + ms) (Clock.tz_offset_min (clock w)) in
  let food := buildFoodKOTEscPos (later 350%Z) orderId kot_code KDSInvoiceId
                orderDetails in
  let coffee := buildCoffeeKOTEscPos (later 700%Z) orderId kot_code KDSInvoiceId
                  orderDetails in
  exists w0 w1 w2,
    androidPrintAll orderId kot_code KDSInvoiceId orderDetails orderType
      transactionDetails w = (Ok tt, w0) /\
    fire_next w0 = Some ((start + 350)%Z, sent_flag food, w1) /\
    fire_next w1 = Some ((start + 700)%Z, sent_flag coffee, w2) /\
    fire_next w2 = None /\
    printed w2 = (printed w ++ [("USB", "", bill)] ++ sent food ++ sent coffee)%list.
Proof.
  intros Hbridge Hidle Hbill. cbv zeta.
  pose proof Hbridge as Hb. apply andb_true_iff in Hb as [Hwin Hbr].
  set (start := Clock.epoch_ms (clock w)).
  set (food := FoodKOTTask orderId kot_code KDSInvoiceId orderDetails).
  set (coffee := CoffeeKOTTask orderId kot_code KDSInvoiceId orderDetails).
  exists (after_print_all w bill orderId kot_code KDSInvoiceId orderDetails).
  assert (Hall : androidPrintAll orderId kot_code KDSInvoiceId orderDetails orderType
                   transactionDetails w
                 = (Ok tt, after_print_all w bill orderId kot_code KDSInvoiceId
                             orderDetails)).
  { unfold androidPrintAll, androidPrintBill, bindM, build, console_log, printBill,
      setTimeout, after_print_all.
    cbn [clock has_window has_bridge console printed timers].
    rewrite Hbill, Hwin, Hbr.
    cbn [negb clock has_window has_bridge console printed timers].
    now rewrite <- !app_assoc. }
  unfold after_print_all in Hall |- *. rewrite Hidle in Hall |- *. cbn [List.app].
  fold food coffee start.
  unfold fire_next at 1.
  cbn [List.app timers next_timer]. unfold due. cbn [registered_at delay].
  destruct (Z.ltb_spec (start + 700) (start + 350)) as [Hlt|_]; [lia|].
  cbn [task registered_at delay has_window has_bridge console printed clock
       Clock.epoch_ms Clock.tz_offset_min].
  fold start.
  replace (Z.max start (start + 350)) with (start + 350)%Z by lia.
  match goal with
  | |- context [run_task food ?w0] =>
      pose proof (run_task_keeps_queue food w0) as [Hq Hc];
      pose proof (run_task_host food w0) as [Hhw Hhb];
      assert (Hb0 : isAndroidBridge w0 = true) by exact Hbridge;
      pose proof (run_task_sent food w0 Hb0) as [Hr Hp];
      destruct (run_task food w0) as [r1 w1] eqn:Hrun
  end.
  cbn [fst snd timers clock has_window has_bridge printed] in Hq, Hc, Hhw, Hhb, Hr, Hp.
  exists w1.
  unfold fire_next. rewrite Hq.
  cbn [timers next_timer]. unfold due. cbn [registered_at delay task]. rewrite Hc.
  cbn [Clock.epoch_ms Clock.tz_offset_min].
  replace (Z.max (start + 350) (start + 700)) with (start + 700)%Z by lia.
  match goal with
  | |- context [run_task coffee ?w0] =>
      pose proof (run_task_keeps_queue coffee w0) as [Hq2 Hc2];
      assert (Hb1 : isAndroidBridge w0 = true)
        by (unfold isAndroidBridge; cbn [has_window has_bridge];
            now rewrite Hhw, Hhb);
      pose proof (run_task_sent coffee w0 Hb1) as [Hr2 Hp2];
      destruct (run_task coffee w0) as [r2 w2] eqn:Hrun2
  end.
  cbn [fst snd timers clock has_window has_bridge printed] in Hq2, Hc2, Hr2, Hp2.
  exists w2. rewrite Hq2. cbn [next_timer].
  subst r1 r2. cbn [ticket_of food coffee] in *.
  split; [exact Hall|]. split; [reflexivity|]. split; [reflexivity|].
  split; [reflexivity|].
  rewrite Hp2, Hp. now rewrite <- !app_assoc.
Qed.

Lemma print_job_witness :
  isAndroidBridge Sample.kiosk = true /\ timers Sample.kiosk = [] /\
  exists bill w0 w1 w2,
    buildBillEscPos (clock Sample.kiosk) Sample.orderId Sample.kot_code VUndefined
      Sample.order VUndefined VUndefined = Ok bill /\
    androidPrintAll Sample.orderId Sample.kot_code VUndefined Sample.order VUndefined
      VUndefined Sample.kiosk = (Ok tt, w0) /\
    fire_next w0 = Some (1793625000350%Z, Ok true, w1) /\
    fire_next w1 = Some (1793625000700%Z, Ok true, w2) /\
    fire_next w2 = None /\
    List.length (printed w2) = 3.
Proof.
  split; [reflexivity|]. split; [reflexivity|].
  destruct (buildBillEscPos (clock Sample.kiosk) Sample.orderId Sample.kot_code
              VUndefined Sample.order VUndefined VUndefined) as [bill|e] eqn:Hbill;
    [|vm_compute in Hbill; discriminate].
  destruct (print_job Sample.kiosk Sample.orderId Sample.kot_code VUndefined
              Sample.order VUndefined VUndefined bill eq_refl eq_refl Hbill)
    as (w0 & w1 & w2 & Hall & Hfood & Hcoffee & Hend & Hprinted).
  exists bill, w0, w1, w2.
  match type of Hprinted with
  | _ = (_ ++ _ ++ sent ?f ++ sent ?c)%list =>
      destruct f as [[food|]|ef] eqn:Ef; [|vm_compute in Ef; discriminate..];
      destruct c as [[coffee|]|ec] eqn:Ec; [|vm_compute in Ec; discriminate..]
  end.
  split; [reflexivity|]. split; [exact Hall|]. split; [exact Hfood|].
  split; [exact Hcoffee|]. split; [exact Hend|].
  rewrite Hprinted. reflexivity.
Defined.
